(** * ACPI table parsing engine of the UEFI shell [acpiview] command

    A shallow embedding of the generic parser of
    [ShellPkg/Library/UefiShellAcpiViewCommandLib] (AcpiParser.c) and of
    the two table parsers built on it (MadtParser.c, PpttParser.c),
    together with the properties the design document states about them
    and further properties read off the code.

    Conventions of the embedding:
    - a [UINT32] is a [Z]; every C operation that can wrap is written
      with [wrap32]; a [UINT8] accumulator is wrapped with [wrap8];
    - a [UINT8*] into the table is an address, a [Z]; the table memory is
      a total map from addresses to bytes that the parser never writes;
    - the file-scope variables of the C code are the fields of [State];
      a function that reads or writes them takes a [State] and returns
      the new one;
    - console output is a list of [Event]s, oldest first;
    - an [ASSERT] is a precondition of the C function and is not part of
      the model. *)

From Stdlib Require Import ZArith Lia List Bool.
From Stdlib Require Import Strings.Byte.
From stdpp Require Import gmap strings list fin_maps.

Open Scope Z_scope.

(** ** Machine integers *)

Definition wrap32 (z : Z) : Z := z mod 2 ^ 32.
Definition wrap8 (z : Z) : Z := z mod 2 ^ 8.
Definition uint32 (z : Z) : Prop := 0 <= z < 2 ^ 32.

Definition byte_val (b : byte) : Z := Z.of_N (Byte.to_N b).

(** ** Console output *)

Inductive Event : Type :=
  (* ParseAcpi: L"%*a%-*a :\n" with the table or structure name *)
  | EvTableName (Indent : Z) (AsciiName : string)
  (* PrintFieldName: L"%*a%-*s : " *)
  | EvFieldName (Indent : Z) (FieldName : option string)
  (* ParseAcpi: L"\nERROR: %a: Offset Mismatch for %s\n..." *)
  | EvOffsetMismatch (AsciiName NameStr : option string)
                     (CurrentOffset FieldOffset : Z)
  (* Print (Format, values) of the Dump functions *)
  | EvValue (Format : string) (Values : list Z)
  (* ParseAcpi: L"\nERROR: %a: CANNOT PARSE THIS FIELD, Field Length = %d\n" *)
  | EvCannotParse (AsciiName : option string) (FieldLength : Z)
  (* Print (L"\n") *)
  | EvNewLine
  (* ParseAcpiStruct: Print (L"0x%x\n", Offset) *)
  | EvStructOffset (Offset : Z)
  (* ParseAcpiStruct: L"ERROR: Unknown %a. Type = %d\n" *)
  | EvUnknownType (DbName : string) (StructType : Z)
  (* ParseAcpiStruct: L"ERROR: Parsing of %a Structure is not implemented\n" *)
  | EvNotImplemented (Name : string)
  (* VerifyChecksum *)
  | EvChecksumOk
  | EvChecksumFailed (Checksum : Z)
  (* ValidateAcpiStructCounts *)
  | EvTableBreakdown
  | EvInstanceCount (Name : string) (Count : Z)
  | EvArchInvalid (Name : string) (Count : Z)
  (* table parsers: the structure header does not fit / bad length *)
  | EvInsufficientHeader (DbName : string) (Remaining : Z)
  | EvInvalidStructLength (DbName : string) (Length Offset AcpiTableLength : Z)
  (* any other message, printed by validators and structure parsers *)
  | EvMessage (Text : string) (Values : list Z).

(** ** File-scope state *)

Record State : Type := mkState {
  gIndent : Z;                       (* STATIC UINT32 gIndent *)
  mTableErrorCount : Z;              (* STATIC UINT32 mTableErrorCount *)
  mTableWarningCount : Z;            (* STATIC UINT32 mTableWarningCount *)
  (* the static pointer variables that ACPI_PARSER.ItemPtr entries point
     to, by name; a variable that is not in the map holds NULL *)
  ItemPtrs : gmap string Z;
  (* the Count member of the entries of the structure databases, by
     database name and entry index; a missing key holds 0 *)
  StructCounts : gmap (string * nat) Z;
  ConAttribute : Z;                  (* gST->ConOut->Mode->Attribute *)
  ConOut : list Event                (* what Print has written so far *)
}.

Definition set_gIndent (v : Z) (st : State) : State :=
  mkState v (mTableErrorCount st) (mTableWarningCount st) (ItemPtrs st)
          (StructCounts st) (ConAttribute st) (ConOut st).

Definition set_mTableErrorCount (v : Z) (st : State) : State :=
  mkState (gIndent st) v (mTableWarningCount st) (ItemPtrs st)
          (StructCounts st) (ConAttribute st) (ConOut st).

Definition set_mTableWarningCount (v : Z) (st : State) : State :=
  mkState (gIndent st) (mTableErrorCount st) v (ItemPtrs st)
          (StructCounts st) (ConAttribute st) (ConOut st).

Definition set_ItemPtrs (v : gmap string Z) (st : State) : State :=
  mkState (gIndent st) (mTableErrorCount st) (mTableWarningCount st) v
          (StructCounts st) (ConAttribute st) (ConOut st).

Definition set_StructCounts (v : gmap (string * nat) Z) (st : State) : State :=
  mkState (gIndent st) (mTableErrorCount st) (mTableWarningCount st)
          (ItemPtrs st) v (ConAttribute st) (ConOut st).

(* gST->ConOut->SetAttribute (gST->ConOut, Attribute) *)
Definition SetAttribute (v : Z) (st : State) : State :=
  mkState (gIndent st) (mTableErrorCount st) (mTableWarningCount st)
          (ItemPtrs st) (StructCounts st) v (ConOut st).

Definition PrintEv (e : Event) (st : State) : State :=
  mkState (gIndent st) (mTableErrorCount st) (mTableWarningCount st)
          (ItemPtrs st) (StructCounts st) (ConAttribute st) (ConOut st ++ [e]).

(** ** What the build and the other modules provide

    [GetConsistencyChecking] and [GetColourHighlighting] are the getters
    of AcpiView.c; the text attributes come from the UEFI headers, the
    architecture masks from AcpiParser.h, the interrupt and cache limits
    from MadtParser.h and PpttParser.h, the column width from
    AcpiParser.h. [UINTN_BITS] is the width of [UINTN], 32 or 64. *)

Record Platform : Type := mkPlatform {
  GetConsistencyChecking : bool;
  GetColourHighlighting : bool;
  (* defined (MDE_CPU_ARM) || defined (MDE_CPU_AARCH64) *)
  MDE_CPU_ARM_OR_AARCH64 : bool;
  UINTN_BITS : Z;
  OUTPUT_FIELD_COLUMN_WIDTH : Z;
  ARCH_COMPAT_IA32 : Z;
  ARCH_COMPAT_X64 : Z;
  ARCH_COMPAT_ARM : Z;
  ARCH_COMPAT_AARCH64 : Z;
  EFI_TEXT_ATTR : Z -> Z -> Z;
  EFI_GREEN : Z;
  EFI_RED : Z;
  EFI_YELLOW : Z;
  ARM_PPI_ID_MIN : Z;
  ARM_PPI_ID_MAX : Z;
  ARM_PPI_ID_EXTENDED_MIN : Z;
  ARM_PPI_ID_EXTENDED_MAX : Z;
  ARM_PPI_ID_PMBIRQ : Z;
  PPTT_ARM_CCIDX_CACHE_NUMBER_OF_SETS_MAX : Z;
  PPTT_ARM_CACHE_NUMBER_OF_SETS_MAX : Z;
  PPTT_ARM_CACHE_LINE_SIZE_MIN : Z;
  PPTT_ARM_CACHE_LINE_SIZE_MAX : Z
}.

(** ** Counters *)

Definition ResetErrorCount (st : State) : State := set_mTableErrorCount 0 st.
Definition GetErrorCount (st : State) : Z := mTableErrorCount st.
Definition ResetWarningCount (st : State) : State := set_mTableWarningCount 0 st.
Definition GetWarningCount (st : State) : Z := mTableWarningCount st.

Definition IncrementErrorCount (st : State) : State :=
  set_mTableErrorCount (wrap32 (mTableErrorCount st + 1)) st.

Definition IncrementWarningCount (st : State) : State :=
  set_mTableWarningCount (wrap32 (mTableWarningCount st + 1)) st.

(** The highlighted attribute: the given foreground on the current
    background, [EFI_TEXT_ATTR (Colour, (Original & (BIT4|BIT5|BIT6)) >> 4)]. *)
Definition Highlight (plat : Platform) (Colour OriginalAttribute : Z) : Z :=
  EFI_TEXT_ATTR plat Colour (Z.shiftr (Z.land OriginalAttribute 112) 4).

Section Checksum.

Variable plat : Platform.
Variable mem : Z -> byte.

(** The [while (ByteCount < Length)] loop of [VerifyChecksum]:
    [Checksum += *(Ptr++)] in [UINT8] arithmetic. *)
Fixpoint ChecksumLoop (Remaining : nat) (Ptr Checksum : Z) : Z :=
  match Remaining with
  | O => Checksum
  | S n => ChecksumLoop n (Ptr + 1) (wrap8 (Checksum + byte_val (mem Ptr)))
  end.

Definition VerifyChecksum (Log : bool) (Ptr Length : Z) (st : State)
  : bool * State :=
  let Checksum := ChecksumLoop (Z.to_nat Length) Ptr 0 in
  let st :=
    if Log then
      let OriginalAttribute := ConAttribute st in
      let st :=
        if Checksum =? 0 then
          let st := if GetColourHighlighting plat
                    then SetAttribute (Highlight plat (EFI_GREEN plat) OriginalAttribute) st
                    else st in
          PrintEv EvChecksumOk st
        else
          let st := IncrementErrorCount st in
          let st := if GetColourHighlighting plat
                    then SetAttribute (Highlight plat (EFI_RED plat) OriginalAttribute) st
                    else st in
          PrintEv (EvChecksumFailed Checksum) st in
      if GetColourHighlighting plat then SetAttribute OriginalAttribute st else st
    else st in
  (Checksum =? 0, st).

(** The sum of the [n] bytes at [Ptr], as an unbounded integer. *)
Fixpoint ByteSum (n : nat) (Ptr : Z) : Z :=
  match n with
  | O => 0
  | S k => byte_val (mem Ptr) + ByteSum k (Ptr + 1)
  end.

End Checksum.

(** ** Field descriptors (ACPI_PARSER) *)

Module AcpiParser.

(** A formatter receives the format string and the field address, a
    validator the field address and the context pointer; both may use
    every file-scope variable, so they are state transformers. *)
Definition PRINT_FORMATTER : Type := option string -> Z -> State -> State.
Definition FIELD_VALIDATOR : Type := Z -> option Z -> State -> State.

(** Modelled from the spec: the field descriptor structure of AcpiParser.h
    (display name, length, declared offset, format, renderer, capture
    slot, validator and its context), with the member names that
    [ParseAcpi] uses and in the order of the eight initialisers of every
    descriptor of the table parsers. [ItemPtr] names the static pointer
    variable it is the address of. *)
Record ACPI_PARSER : Type := mkParser {
  NameStr : option string;
  Length : Z;
  Offset : Z;
  Format : option string;
  PrintFormatter : option PRINT_FORMATTER;
  ItemPtr : option string;
  FieldValidator : option FIELD_VALIDATOR;
  Context : option Z
}.

End AcpiParser.

Abbreviation ACPI_PARSER := AcpiParser.ACPI_PARSER.

(** ** Structure databases (ACPI_STRUCT_INFO, ACPI_STRUCT_DATABASE) *)

Module StructInfo.

(** A structure parser receives the structure address, its length and
    the two optional arguments. *)
Definition ACPI_STRUCT_PARSER_FUNC : Type :=
  Z -> Z -> option Z -> option Z -> State -> State.

(** Modelled from the spec: the decode strategy of a structure type entry
    of AcpiParser.h, with the member names that [ParseAcpiStruct] uses;
    [ParserArray] carries its [Elements]. *)
Record ACPI_STRUCT_HANDLER : Type := mkHandler {
  ParserFunc : option ACPI_STRUCT_PARSER_FUNC;
  ParserArray : option (list ACPI_PARSER)
}.

(** Modelled from the spec: the structure type entry of AcpiParser.h
    (display name, type code, architecture compatibility mask, decode
    strategy). Its mutable [Count] member lives in [StructCounts]. *)
Record ACPI_STRUCT_INFO : Type := mkInfo {
  Name : string;
  StructType : Z;
  CompatArch : Z;
  Handler : ACPI_STRUCT_HANDLER
}.

End StructInfo.

Abbreviation ACPI_STRUCT_INFO := StructInfo.ACPI_STRUCT_INFO.

Module StructDb.

(** Modelled from the spec: the structure database of AcpiParser.h, a
    display name and the entries in type-code order. *)
Record ACPI_STRUCT_DATABASE : Type := mkDb {
  Name : string;
  Entries : list ACPI_STRUCT_INFO
}.

(** [StructDb->EntryCount], the size of the [Entries] array. *)
Definition EntryCount (StructDb : ACPI_STRUCT_DATABASE) : Z :=
  Z.of_nat (length (Entries StructDb)).

End StructDb.

Abbreviation ACPI_STRUCT_DATABASE := StructDb.ACPI_STRUCT_DATABASE.

(** The [Count] member of entry [Index] of the database called [DbName]. *)
Definition CountAt (DbName : string) (Index : nat) (st : State) : Z :=
  default 0 (StructCounts st !! (DbName, Index)).

(** [StructDb->Entries[Index].Count], read and written. *)
Definition GetCount (StructDb : ACPI_STRUCT_DATABASE) (Index : nat) (st : State) : Z :=
  CountAt (StructDb.Name StructDb) Index st.

Definition SetCount (StructDb : ACPI_STRUCT_DATABASE) (Index : nat) (v : Z)
  (st : State) : State :=
  set_StructCounts (<[(StructDb.Name StructDb, Index) := v]> (StructCounts st)) st.

(* StructDb->Entries[Index].Count++ *)
Definition IncrementCount (StructDb : ACPI_STRUCT_DATABASE) (Index : nat)
  (st : State) : State :=
  SetCount StructDb Index (wrap32 (GetCount StructDb Index st + 1)) st.

(** ** Reading the table (little-endian, as on every edk2 target) *)

Section Memory.

Variable mem : Z -> byte.

Definition ReadUint8 (Ptr : Z) : Z := byte_val (mem Ptr).

Definition ReadUint16 (Ptr : Z) : Z :=
  Z.lor (ReadUint8 Ptr) (Z.shiftl (ReadUint8 (Ptr + 1)) 8).

Definition ReadUint32 (Ptr : Z) : Z :=
  Z.lor (ReadUint16 Ptr) (Z.shiftl (ReadUint16 (Ptr + 2)) 16).

Definition DumpUint8 (Format : string) (Ptr : Z) (st : State) : State :=
  PrintEv (EvValue Format [ReadUint8 Ptr]) st.

Definition DumpUint16 (Format : string) (Ptr : Z) (st : State) : State :=
  PrintEv (EvValue Format [ReadUint16 Ptr]) st.

Definition DumpUint32 (Format : string) (Ptr : Z) (st : State) : State :=
  PrintEv (EvValue Format [ReadUint32 Ptr]) st.

(* Val = *(UINT32* )(Ptr + 4); Val = LShiftU64 (Val, 32); Val |= *(UINT32* )Ptr *)
Definition DumpUint64 (Format : string) (Ptr : Z) (st : State) : State :=
  let Val := ReadUint32 (Ptr + 4) in
  let Val := Z.shiftl Val 32 in
  let Val := Z.lor Val (ReadUint32 Ptr) in
  PrintEv (EvValue Format [Val]) st.

(** [Ptr[0] .. Ptr[n-1]] *)
Definition ReadChars (n : nat) (Ptr : Z) : list Z :=
  map (fun i => ReadUint8 (Ptr + Z.of_nat i)) (seq 0 n).

Definition Dump3Chars : AcpiParser.PRINT_FORMATTER := fun Format Ptr st =>
  PrintEv (EvValue (default "%c%c%c"%string Format) (ReadChars 3 Ptr)) st.

Definition Dump4Chars : AcpiParser.PRINT_FORMATTER := fun Format Ptr st =>
  PrintEv (EvValue (default "%c%c%c%c"%string Format) (ReadChars 4 Ptr)) st.

Definition Dump6Chars : AcpiParser.PRINT_FORMATTER := fun Format Ptr st =>
  PrintEv (EvValue (default "%c%c%c%c%c%c"%string Format) (ReadChars 6 Ptr)) st.

Definition Dump8Chars : AcpiParser.PRINT_FORMATTER := fun Format Ptr st =>
  PrintEv (EvValue (default "%c%c%c%c%c%c%c%c"%string Format) (ReadChars 8 Ptr)) st.

Definition Dump12Chars : AcpiParser.PRINT_FORMATTER := fun Format Ptr st =>
  PrintEv (EvValue (default "%c%c%c%c%c%c%c%c%c%c%c%c"%string Format)
                   (ReadChars 12 Ptr)) st.

End Memory.

(** ** DumpRaw *)

(** A local array that is not initialised holds whatever the stack held:
    [Garbage] gives its contents on entry. *)
Definition StackArray (Garbage : nat -> Z) (Size : nat) : list Z :=
  map Garbage (seq 0 Size).

(** [Array[Index] = c]; a write outside the array has no result. *)
Definition StoreChar (Array : list Z) (Index : nat) (c : Z) : option (list Z) :=
  if decide (Index < length Array)%nat then Some (<[Index := c]> Array) else None.

(** What [%a] prints of a [CHAR8] array: the characters before the first
    NUL. *)
Fixpoint AsciiString (Chars : list Z) : list Z :=
  match Chars with
  | [] => []
  | c :: Chars' => if c =? 0 then [] else c :: AsciiString Chars'
  end.

(** The character kept for a byte: itself if it is printable, else a dot. *)
Definition Printable (c : Z) : Z := if (32 <=? c) && (c <? 127) then c else 46.

(** The [while (ByteCount < Length)] loop of [DumpRaw], [Remaining] turns
    of it. [ByteCount] stays below [Length], a [UINT32], so that the
    [UINTN] does not wrap. The arguments of a [%a] are the characters of
    the string, and they come first in the list of values. *)
Fixpoint DumpRawLoop (mem : Z -> byte) (Remaining : nat) (Ptr ByteCount : Z)
  (AsciiBuffer : list Z) (AsciiBufferIndex : nat) (st : State)
  : option (list Z * nat * State) :=
  match Remaining with
  | O => Some (AsciiBuffer, AsciiBufferIndex, st)
  | S n =>
      '(AsciiBuffer, AsciiBufferIndex, st) ←
        (if Z.land ByteCount 15 =? 0 then
           AsciiBuffer ← StoreChar AsciiBuffer AsciiBufferIndex 0;
           Some (AsciiBuffer, 0%nat,
                 PrintEv (EvMessage "  %a\n%08X : "
                                    (AsciiString AsciiBuffer ++ [ByteCount])) st)
         else if Z.land ByteCount 7 =? 0 then
           Some (AsciiBuffer, AsciiBufferIndex, PrintEv (EvMessage "- " []) st)
         else Some (AsciiBuffer, AsciiBufferIndex, st));
      AsciiBuffer ← StoreChar AsciiBuffer AsciiBufferIndex
                              (Printable (ReadUint8 mem Ptr));
      let st := PrintEv (EvMessage "%02X " [ReadUint8 mem Ptr]) st in
      DumpRawLoop mem n (Ptr + 1) (ByteCount + 1) AsciiBuffer (S AsciiBufferIndex) st
  end.

(** [DumpRaw]; the result is missing when a character is written outside
    [AsciiBuffer]. The padding loop [while (PartLineChars > 0)] runs
    [PartLineChars] times, which is between 3 and 47 there. *)
Definition DumpRaw (mem : Z -> byte) (Garbage : nat -> Z) (Ptr Length : Z) (st : State)
  : option State :=
  let AsciiBuffer := StackArray Garbage 17 in
  let st := PrintEv (EvMessage "Address  : 0x%p\n" [Ptr]) st in
  let st := PrintEv (EvMessage "Length   : %d\n" [Length]) st in
  '(AsciiBuffer, AsciiBufferIndex, st) ←
    DumpRawLoop mem (Z.to_nat Length) Ptr 0 AsciiBuffer 0 st;
  let PartLineChars := Z.land Length 15 in
  let st :=
    if negb (PartLineChars =? 0) then
      let PartLineChars := 48 - PartLineChars * 3 in
      let PartLineChars :=
        if Z.land Length 15 <=? 8 then PartLineChars + 2 else PartLineChars in
      Nat.iter (Z.to_nat PartLineChars) (PrintEv (EvMessage " " [])) st
    else st in
  AsciiBuffer ← StoreChar AsciiBuffer AsciiBufferIndex 0;
  Some (PrintEv (EvMessage "  %a\n\n" (AsciiString AsciiBuffer)) st).

(* Print (L"%*a%-*s : ", gIndent + Indent, "", WIDTH - gIndent - Indent, FieldName) *)
Definition PrintFieldName (Indent : Z) (FieldName : option string) (st : State)
  : State :=
  PrintEv (EvFieldName (wrap32 (gIndent st + Indent)) FieldName) st.

(** [%d] of a [UINT32] argument prints it as a signed 32-bit integer. *)
Definition signed32 (z : Z) : Z := if z <? 2 ^ 31 then z else z - 2 ^ 32.

(** [AsciiSPrint (Buffer, BufferSize, "%a [%d]", Name, Index)]: the text
    left in [Buffer], cut to [BufferSize - 1] characters. *)
Definition PrintAcpiStructName (Name : string) (Index : Z) (BufferSize : nat)
  : string :=
  String.substring 0 (BufferSize - 1)
    (Name ++ " [" ++ pretty.pretty (signed32 Index) ++ "]")%string.

(** ** Instance counts *)

Definition ResetAcpiStructCounts (StructDb : ACPI_STRUCT_DATABASE) (st : State)
  : State :=
  fold_left (fun st StructType => SetCount StructDb StructType 0 st)
            (seq 0 (length (StructDb.Entries StructDb))) st.

Definition SumAcpiStructCounts (StructDb : ACPI_STRUCT_DATABASE) (st : State) : Z :=
  fold_left (fun Total StructType => wrap32 (Total + GetCount StructDb StructType st))
            (seq 0 (length (StructDb.Entries StructDb))) 0.

(** ** The generic parser *)

Section Engine.

Variable plat : Platform.
Variable mem : Z -> byte.

(** *** IsAcpiStructTypeValid *)

Definition IsAcpiStructTypeValid (StructType : Z) (StructDb : ACPI_STRUCT_DATABASE)
  : bool :=
  if StructDb.EntryCount StructDb <=? StructType then false
  else
    match StructDb.Entries StructDb !! Z.to_nat StructType with
    | None => false
    | Some Entry =>
        let Compatible :=
          if MDE_CPU_ARM_OR_AARCH64 plat
          then Z.land (StructInfo.CompatArch Entry)
                      (Z.lor (ARCH_COMPAT_ARM plat) (ARCH_COMPAT_AARCH64 plat))
          else StructInfo.CompatArch Entry in
        negb (Compatible =? 0)
    end.

(** *** ValidateAcpiStructCounts

    One turn of the [for (Type = 0; Type < StructDb->EntryCount; Type++)]
    loop, on the pair of the local [AllValid] and the state. *)
Definition ValidateCountStep (StructDb : ACPI_STRUCT_DATABASE)
  (acc : bool * State) (StructType : nat) : bool * State :=
  let '(AllValid, st) := acc in
  match StructDb.Entries StructDb !! StructType with
  | None => acc
  | Some Entry =>
      if IsAcpiStructTypeValid (Z.of_nat StructType) StructDb then
        (AllValid,
         PrintEv (EvInstanceCount (StructInfo.Name Entry)
                                  (GetCount StructDb StructType st)) st)
      else if 0 <? GetCount StructDb StructType st then
        let st := IncrementErrorCount st in
        (false,
         PrintEv (EvArchInvalid (StructInfo.Name Entry)
                                (GetCount StructDb StructType st)) st)
      else acc
  end.

Definition ValidateAcpiStructCounts (StructDb : ACPI_STRUCT_DATABASE) (st : State)
  : bool * State :=
  let AllValid := true in
  let st := PrintEv EvTableBreakdown st in
  fold_left (ValidateCountStep StructDb)
            (seq 0 (length (StructDb.Entries StructDb))) (AllValid, st).

(** *** ParseAcpi

    The loop body for a field that lies inside the buffer, statement by
    statement: the offset check, ... *)
Definition CheckFieldOffset (AsciiName : option string) (Field : ACPI_PARSER)
  (Offset : Z) (st : State) : State :=
  if GetConsistencyChecking plat && negb (Offset =? AcpiParser.Offset Field)
  then
    let st := IncrementErrorCount st in
    PrintEv (EvOffsetMismatch AsciiName (AcpiParser.NameStr Field)
                              Offset (AcpiParser.Offset Field)) st
  else st.

(** ... the [switch (Parser[Index].Length)] that prints the value with the
    format of the table, ... *)
Definition DumpByLength (AsciiName : option string) (Field : ACPI_PARSER)
  (Format : string) (Ptr : Z) (st : State) : State :=
  if AcpiParser.Length Field =? 1 then DumpUint8 mem Format Ptr st
  else if AcpiParser.Length Field =? 2 then DumpUint16 mem Format Ptr st
  else if AcpiParser.Length Field =? 4 then DumpUint32 mem Format Ptr st
  else if AcpiParser.Length Field =? 8 then DumpUint64 mem Format Ptr st
  else PrintEv (EvCannotParse AsciiName (AcpiParser.Length Field)) st.

(** ... the call of the validator that follows the switch, ... *)
Definition ValidateField (Field : ACPI_PARSER) (Ptr : Z) (st : State) : State :=
  if GetConsistencyChecking plat then
    match AcpiParser.FieldValidator Field with
    | Some Validator => Validator Ptr (AcpiParser.Context Field) st
    | None => st
    end
  else st.

(** ... the whole [if (Trace)] block, ... *)
Definition TraceField (AsciiName : option string) (Field : ACPI_PARSER)
  (Ptr : Z) (st : State) : State :=
  let st := PrintFieldName 2 (AcpiParser.NameStr Field) st in
  let st :=
    match AcpiParser.PrintFormatter Field with
    | Some Formatter => Formatter (AcpiParser.Format Field) Ptr st
    | None =>
        match AcpiParser.Format Field with
        | Some Format =>
            let st := DumpByLength AsciiName Field Format Ptr st in
            ValidateField Field Ptr st
        | None => st
        end
    end in
  PrintEv EvNewLine st.

(** ... and the two assignments through [ItemPtr]. *)
Definition StoreItemPtr (Field : ACPI_PARSER) (Ptr : Z) (st : State) : State :=
  match AcpiParser.ItemPtr Field with
  | Some Item => set_ItemPtrs (<[Item := Ptr]> (ItemPtrs st)) st
  | None => st
  end.

Definition ClearItemPtr (Field : ACPI_PARSER) (st : State) : State :=
  match AcpiParser.ItemPtr Field with
  | Some Item => set_ItemPtrs (delete Item (ItemPtrs st)) st
  | None => st
  end.

Definition ParseAcpiField (Trace : bool) (AsciiName : option string)
  (Field : ACPI_PARSER) (Ptr Offset : Z) (st : State) : State :=
  let st := CheckFieldOffset AsciiName Field Offset st in
  let st := if Trace then TraceField AsciiName Field Ptr st else st in
  StoreItemPtr Field Ptr st.

(** The [for (Index = 0; Index < ParserItems; Index++)] loop over the
    [Parser] array; the result is the final [Ptr], [Offset] and state. *)
Fixpoint ParseAcpiFields (Trace : bool) (AsciiName : option string) (Length : Z)
  (Parser : list ACPI_PARSER) (Ptr Offset : Z) (st : State) : Z * Z * State :=
  match Parser with
  | [] => (Ptr, Offset, st)
  | Field :: Parser' =>
      if Length <? wrap32 (Offset + AcpiParser.Length Field) then
        (* outside the buffer: reset the pointer and continue *)
        let st := ClearItemPtr Field st in
        ParseAcpiFields Trace AsciiName Length Parser' Ptr Offset st
      else
        let st := ParseAcpiField Trace AsciiName Field Ptr Offset st in
        ParseAcpiFields Trace AsciiName Length Parser'
          (Ptr + AcpiParser.Length Field)
          (wrap32 (Offset + AcpiParser.Length Field)) st
  end.

(** What [ParseAcpi] does before the loop: the indent and the name. *)
Definition ParseAcpiEnter (Trace : bool) (Indent : Z) (AsciiName : option string)
  (st : State) : State :=
  let st := set_gIndent (wrap32 (gIndent st + Indent)) st in
  match Trace, AsciiName with
  | true, Some Name =>
      let HighLight := GetColourHighlighting plat in
      let OriginalAttribute := if HighLight then ConAttribute st else 0 in
      let st := if HighLight
                then SetAttribute (Highlight plat (EFI_YELLOW plat) OriginalAttribute) st
                else st in
      let st := PrintEv (EvTableName (gIndent st) Name) st in
      if HighLight then SetAttribute OriginalAttribute st else st
  | _, _ => st
  end.

Definition ParseAcpi (Trace : bool) (Indent : Z) (AsciiName : option string)
  (Ptr Length : Z) (Parser : list ACPI_PARSER) (st : State) : Z * State :=
  let st := ParseAcpiEnter Trace Indent AsciiName st in
  let '(_, Offset, st) := ParseAcpiFields Trace AsciiName Length Parser Ptr 0 st in
  let st := set_gIndent (wrap32 (gIndent st - Indent)) st in
  (Offset, st).

(** *** ParseAcpiStruct *)

Definition ParseAcpiStruct (Indent Ptr : Z) (StructDb : ACPI_STRUCT_DATABASE)
  (Offset StructType Length : Z) (OptArg0 OptArg1 : option Z) (st : State)
  : bool * State :=
  let st := PrintFieldName Indent (Some "* Offset *"%string) st in
  let st := PrintEv (EvStructOffset Offset) st in
  if StructDb.EntryCount StructDb <=? StructType then
    let st := IncrementErrorCount st in
    (false, PrintEv (EvUnknownType (StructDb.Name StructDb) StructType) st)
  else
    let Index := Z.to_nat StructType in
    match StructDb.Entries StructDb !! Index with
    | None => (false, st)
    | Some Entry =>
        match StructInfo.ParserFunc (StructInfo.Handler Entry) with
        | Some Func =>
            let st := Func Ptr Length OptArg0 OptArg1 st in
            (true, IncrementCount StructDb Index st)
        | None =>
            match StructInfo.ParserArray (StructInfo.Handler Entry) with
            | Some Array =>
                let Buffer :=
                  PrintAcpiStructName (StructInfo.Name Entry)
                                      (GetCount StructDb Index st) 80 in
                let '(_, st) :=
                  ParseAcpi true Indent (Some Buffer) Ptr Length Array st in
                (true, IncrementCount StructDb Index st)
            | None =>
                let st := IncrementCount StructDb Index st in
                (false, PrintEv (EvNotImplemented (StructInfo.Name Entry)) st)
            end
        end
    end.

(** *** The Generic Address Structure and the table header *)

Definition GasParser : list ACPI_PARSER :=
  [ AcpiParser.mkParser (Some "Address Space ID"%string) 1 0 (Some "0x%x"%string) None None None None;
    AcpiParser.mkParser (Some "Register Bit Width"%string) 1 1 (Some "0x%x"%string) None None None None;
    AcpiParser.mkParser (Some "Register Bit Offset"%string) 1 2 (Some "0x%x"%string) None None None None;
    AcpiParser.mkParser (Some "Address Size"%string) 1 3 (Some "0x%x"%string) None None None None;
    AcpiParser.mkParser (Some "Address"%string) 8 4 (Some "0x%lx"%string) None None None None ].

Definition DumpGasStruct (Ptr Indent Length : Z) (st : State) : Z * State :=
  let st := PrintEv EvNewLine st in
  ParseAcpi true Indent None Ptr Length GasParser st.

(** [sizeof (EFI_ACPI_6_3_GENERIC_ADDRESS_STRUCTURE)] is 12, the sum of the
    lengths of [GasParser]. *)
Definition DumpGas : AcpiParser.PRINT_FORMATTER := fun Format Ptr st =>
  snd (DumpGasStruct Ptr 2 12 st).

End Engine.

(** ** The table parsers

    What a table parser returns: the state it leaves, or the fact that it
    dereferenced a NULL static pointer, or (for the model only) that the
    loop was cut short. *)

Inductive Outcome : Type :=
  | Returned (st : State)
  | NullDereference
  | OutOfFuel.

(** Modelled from the spec: the three initialiser macros of AcpiParser.h,
    one per decode strategy of a structure type entry (nested descriptor
    list with its element count, custom function, unimplemented marker);
    the instance count starts at zero. *)
Definition ADD_ACPI_STRUCT_INFO_ARRAY (Name : string) (StructType CompatArch : Z)
  (Array : list ACPI_PARSER) : ACPI_STRUCT_INFO :=
  StructInfo.mkInfo Name StructType CompatArch (StructInfo.mkHandler None (Some Array)).

Definition ADD_ACPI_STRUCT_INFO_FUNC (Name : string) (StructType CompatArch : Z)
  (Func : StructInfo.ACPI_STRUCT_PARSER_FUNC) : ACPI_STRUCT_INFO :=
  StructInfo.mkInfo Name StructType CompatArch (StructInfo.mkHandler (Some Func) None).

Definition ACPI_STRUCT_INFO_PARSER_NOT_IMPLEMENTED (Name : string)
  (StructType CompatArch : Z) : ACPI_STRUCT_INFO :=
  StructInfo.mkInfo Name StructType CompatArch (StructInfo.mkHandler None None).

Section TableParsers.

Variable plat : Platform.
Variable mem : Z -> byte.

(** The expansion of [PARSE_ACPI_HEADER (&AcpiHdrInfo)] (AcpiParser.h),
    given the name of the header-info variable its [ItemPtr]s fill. *)
Variable PARSE_ACPI_HEADER : string -> list ACPI_PARSER.

(** The walk over the structures that follow the table header, shared by
    [ParseAcpiMadt] and [ParseAcpiPptt]: their [while] loops differ only
    in the header descriptors, the two static pointers these fill and the
    database. [Finish] is the code after the loop; the two [return]s
    inside the loop skip it. One unit of [fuel] is one turn of the loop. *)
Fixpoint StructWalk (HeaderParser : list ACPI_PARSER) (TypeVar LengthVar : string)
  (StructDb : ACPI_STRUCT_DATABASE) (Finish : State -> State)
  (AcpiTableLength : Z) (fuel : nat) (StructPtr Offset : Z) (st : State)
  : Outcome :=
  if Offset <? AcpiTableLength then
    match fuel with
    | O => OutOfFuel
    | S fuel' =>
        let '(_, st) :=
          ParseAcpi plat mem false 0 None StructPtr
                    (wrap32 (AcpiTableLength - Offset)) HeaderParser st in
        match ItemPtrs st !! TypeVar, ItemPtrs st !! LengthVar with
        | Some TypePtr, Some LengthPtr =>
            let StructLength := ReadUint8 mem LengthPtr in
            if (StructLength =? 0)
               || (AcpiTableLength <? wrap32 (Offset + StructLength)) then
              let st := IncrementErrorCount st in
              Returned (PrintEv (EvInvalidStructLength (StructDb.Name StructDb)
                                   StructLength Offset AcpiTableLength) st)
            else
              let '(_, st) :=
                ParseAcpiStruct plat mem 2 StructPtr StructDb Offset
                                (ReadUint8 mem TypePtr) StructLength None None st in
              (* the length is read again through the static pointer *)
              match ItemPtrs st !! LengthVar with
              | Some LengthPtr' =>
                  StructWalk HeaderParser TypeVar LengthVar StructDb Finish
                             AcpiTableLength fuel'
                             (StructPtr + ReadUint8 mem LengthPtr')
                             (wrap32 (Offset + ReadUint8 mem LengthPtr')) st
              | None => NullDereference
              end
        | _, _ =>
            let st := IncrementErrorCount st in
            Returned (PrintEv (EvInsufficientHeader (StructDb.Name StructDb)
                                 (wrap32 (AcpiTableLength - Offset))) st)
        end
    end
  else Returned (Finish st).

Local Open Scope string_scope.
Local Open Scope Z_scope.
Local Abbreviation FIELD := AcpiParser.mkParser.

(** *** MadtParser.c *)

Definition ValidateGICDSystemVectorBase : AcpiParser.FIELD_VALIDATOR :=
  fun Ptr Context st =>
    if negb (ReadUint32 mem Ptr =? 0) then
      let st := IncrementErrorCount st in
      PrintEv (EvMessage "\nERROR: System Vector Base must be zero." []) st
    else st.

Definition ValidateSpeOverflowInterrupt : AcpiParser.FIELD_VALIDATOR :=
  fun Ptr Context st =>
    let SpeOverflowInterrupt := ReadUint16 mem Ptr in
    if SpeOverflowInterrupt =? 0 then st
    else if (SpeOverflowInterrupt <? ARM_PPI_ID_MIN plat)
            || ((ARM_PPI_ID_MAX plat <? SpeOverflowInterrupt)
                && (SpeOverflowInterrupt <? ARM_PPI_ID_EXTENDED_MIN plat))
            || (ARM_PPI_ID_EXTENDED_MAX plat <? SpeOverflowInterrupt) then
      let st := IncrementErrorCount st in
      PrintEv (EvMessage
        "\nERROR: SPE Overflow Interrupt ID of %d is not in the allowed PPI ID ranges of %d-%d or %d-%d (for GICv3.1 or later)."
        [SpeOverflowInterrupt; ARM_PPI_ID_MIN plat; ARM_PPI_ID_MAX plat;
         ARM_PPI_ID_EXTENDED_MIN plat; ARM_PPI_ID_EXTENDED_MAX plat]) st
    else if negb (SpeOverflowInterrupt =? ARM_PPI_ID_PMBIRQ plat) then
      let st := IncrementWarningCount st in
      PrintEv (EvMessage
        "\nWARNING: SPE Overflow Interrupt ID of %d is not compliant with SBSA Level 3 PPI ID assignment: %d."
        [SpeOverflowInterrupt; ARM_PPI_ID_PMBIRQ plat]) st
    else st.

Definition GicCParser : list ACPI_PARSER :=
  [ FIELD (Some "Type") 1 0 (Some "0x%x") None None None None;
    FIELD (Some "Length") 1 1 (Some "%d") None None None None;
    FIELD (Some "Reserved") 2 2 (Some "0x%x") None None None None;
    FIELD (Some "CPU Interface Number") 4 4 (Some "0x%x") None None None None;
    FIELD (Some "ACPI Processor UID") 4 8 (Some "0x%x") None None None None;
    FIELD (Some "Flags") 4 12 (Some "0x%x") None None None None;
    FIELD (Some "Parking Protocol Version") 4 16 (Some "0x%x") None None None None;
    FIELD (Some "Performance Interrupt GSIV") 4 20 (Some "0x%x") None None None None;
    FIELD (Some "Parked Address") 8 24 (Some "0x%lx") None None None None;
    FIELD (Some "Physical Base Address") 8 32 (Some "0x%lx") None None None None;
    FIELD (Some "GICV") 8 40 (Some "0x%lx") None None None None;
    FIELD (Some "GICH") 8 48 (Some "0x%lx") None None None None;
    FIELD (Some "VGIC Maintenance interrupt") 4 56 (Some "0x%x") None None None None;
    FIELD (Some "GICR Base Address") 8 60 (Some "0x%lx") None None None None;
    FIELD (Some "MPIDR") 8 68 (Some "0x%lx") None None None None;
    FIELD (Some "Processor Power Efficiency Class") 1 76 (Some "0x%x") None None None None;
    FIELD (Some "Reserved") 1 77 (Some "0x%x") None None None None;
    FIELD (Some "SPE overflow Interrupt") 2 78 (Some "0x%x") None None
          (Some ValidateSpeOverflowInterrupt) None ].

Definition GicDParser : list ACPI_PARSER :=
  [ FIELD (Some "Type") 1 0 (Some "0x%x") None None None None;
    FIELD (Some "Length") 1 1 (Some "%d") None None None None;
    FIELD (Some "Reserved") 2 2 (Some "0x%x") None None None None;
    FIELD (Some "GIC ID") 4 4 (Some "0x%x") None None None None;
    FIELD (Some "Physical Base Address") 8 8 (Some "0x%lx") None None None None;
    FIELD (Some "System Vector Base") 4 16 (Some "0x%x") None None
          (Some ValidateGICDSystemVectorBase) None;
    FIELD (Some "GIC Version") 1 20 (Some "%d") None None None None;
    FIELD (Some "Reserved") 3 21 (Some "%x %x %x") (Some (Dump3Chars mem)) None None None ].

Definition GicMSIFrameParser : list ACPI_PARSER :=
  [ FIELD (Some "Type") 1 0 (Some "0x%x") None None None None;
    FIELD (Some "Length") 1 1 (Some "%d") None None None None;
    FIELD (Some "Reserved") 2 2 (Some "0x%x") None None None None;
    FIELD (Some "MSI Frame ID") 4 4 (Some "0x%x") None None None None;
    FIELD (Some "Physical Base Address") 8 8 (Some "0x%lx") None None None None;
    FIELD (Some "Flags") 4 16 (Some "0x%x") None None None None;
    FIELD (Some "SPI Count") 2 20 (Some "%d") None None None None;
    FIELD (Some "SPI Base") 2 22 (Some "0x%x") None None None None ].

Definition GicRParser : list ACPI_PARSER :=
  [ FIELD (Some "Type") 1 0 (Some "0x%x") None None None None;
    FIELD (Some "Length") 1 1 (Some "%d") None None None None;
    FIELD (Some "Reserved") 2 2 (Some "0x%x") None None None None;
    FIELD (Some "Discovery Range Base Address") 8 4 (Some "0x%lx") None None None None;
    FIELD (Some "Discovery Range Length") 4 12 (Some "0x%x") None None None None ].

Definition GicITSParser : list ACPI_PARSER :=
  [ FIELD (Some "Type") 1 0 (Some "0x%x") None None None None;
    FIELD (Some "Length") 1 1 (Some "%d") None None None None;
    FIELD (Some "Reserved") 2 2 (Some "0x%x") None None None None;
    FIELD (Some "GIC ITS ID") 4 4 (Some "0x%x") None None None None;
    FIELD (Some "Physical Base Address") 8 8 (Some "0x%lx") None None None None;
    FIELD (Some "Reserved") 4 16 (Some "0x%x") None None None None ].

Definition MadtParser : list ACPI_PARSER :=
  PARSE_ACPI_HEADER "Madt.AcpiHdrInfo" ++
  [ FIELD (Some "Local Interrupt Controller Address") 4 36 (Some "0x%x") None None None None;
    FIELD (Some "Flags") 4 40 (Some "0x%x") None None None None ]%list.

Definition MadtInterruptControllerHeaderParser : list ACPI_PARSER :=
  [ FIELD None 1 0 None None (Some "MadtInterruptControllerType") None None;
    FIELD (Some "Length") 1 1 None None (Some "MadtInterruptControllerLength") None None;
    FIELD (Some "Reserved") 2 2 None None None None None ].

(** Modelled from the spec: the structure type codes of the ACPI 6.3
    headers. A type code equals the position of its entry in the database,
    as [ValidateAcpiStructCounts] asserts; the entries of [MadtStructs]
    below are numbered accordingly. *)
Definition EFI_ACPI_6_3_GICD : Z := 12.

Definition MadtStructs : list ACPI_STRUCT_INFO :=
  let X86 := Z.lor (ARCH_COMPAT_IA32 plat) (ARCH_COMPAT_X64 plat) in
  let ARM := Z.lor (ARCH_COMPAT_ARM plat) (ARCH_COMPAT_AARCH64 plat) in
  [ ACPI_STRUCT_INFO_PARSER_NOT_IMPLEMENTED "Processor Local APIC" 0 X86;
    ACPI_STRUCT_INFO_PARSER_NOT_IMPLEMENTED "I/O APIC" 1 X86;
    ACPI_STRUCT_INFO_PARSER_NOT_IMPLEMENTED "Interrupt Source Override" 2 X86;
    ACPI_STRUCT_INFO_PARSER_NOT_IMPLEMENTED "NMI Source" 3 X86;
    ACPI_STRUCT_INFO_PARSER_NOT_IMPLEMENTED "Local APIC NMI" 4 X86;
    ACPI_STRUCT_INFO_PARSER_NOT_IMPLEMENTED "Local APIC Address Override" 5 X86;
    ACPI_STRUCT_INFO_PARSER_NOT_IMPLEMENTED "I/O SAPIC" 6 X86;
    ACPI_STRUCT_INFO_PARSER_NOT_IMPLEMENTED "Local SAPIC" 7 X86;
    ACPI_STRUCT_INFO_PARSER_NOT_IMPLEMENTED "Platform Interrupt Sources" 8 X86;
    ACPI_STRUCT_INFO_PARSER_NOT_IMPLEMENTED "Processor Local x2APIC" 9 X86;
    ACPI_STRUCT_INFO_PARSER_NOT_IMPLEMENTED "Local x2APIC NMI" 10 X86;
    ADD_ACPI_STRUCT_INFO_ARRAY "GICC" 11 ARM GicCParser;
    ADD_ACPI_STRUCT_INFO_ARRAY "GICD" EFI_ACPI_6_3_GICD ARM GicDParser;
    ADD_ACPI_STRUCT_INFO_ARRAY "GIC MSI Frame" 13 ARM GicMSIFrameParser;
    ADD_ACPI_STRUCT_INFO_ARRAY "GICR" 14 ARM GicRParser;
    ADD_ACPI_STRUCT_INFO_ARRAY "GIC ITS" 15 ARM GicITSParser ].

Definition MadtDatabase : ACPI_STRUCT_DATABASE :=
  StructDb.mkDb "Interrupt Controller Structure" MadtStructs.

(** The code of [ParseAcpiMadt] after its loop. *)
Definition MadtFinish (st : State) : State :=
  if GetConsistencyChecking plat then
    let '(_, st) := ValidateAcpiStructCounts plat MadtDatabase st in
    if 1 <? GetCount MadtDatabase (Z.to_nat EFI_ACPI_6_3_GICD) st then
      let st := IncrementErrorCount st in
      PrintEv (EvMessage "ERROR: Only one %a must be present\n" []) st
    else st
  else st.

(** Every turn of the loop consumes at least one byte of the table, so
    [AcpiTableLength] turns are enough. *)
Definition ParseAcpiMadt (Trace : bool) (Ptr AcpiTableLength AcpiTableRevision : Z)
  (st : State) : Outcome :=
  if negb Trace then Returned st
  else
    let st := ResetAcpiStructCounts MadtDatabase st in
    let '(Offset, st) :=
      ParseAcpi plat mem true 0 (Some "MADT") Ptr AcpiTableLength MadtParser st in
    let InterruptContollerPtr := Ptr + Offset in
    StructWalk MadtInterruptControllerHeaderParser
               "MadtInterruptControllerType" "MadtInterruptControllerLength"
               MadtDatabase MadtFinish AcpiTableLength
               (Z.to_nat AcpiTableLength) InterruptContollerPtr Offset st.

(** *** PpttParser.c *)

Definition wrapN (z : Z) : Z := z mod 2 ^ UINTN_BITS plat.

Definition ValidateCacheNumberOfSets : AcpiParser.FIELD_VALIDATOR :=
  fun Ptr Context st =>
    let NumberOfSets := ReadUint32 mem Ptr in
    if NumberOfSets =? 0 then
      let st := IncrementErrorCount st in
      PrintEv (EvMessage "\nERROR: Cache number of sets must be greater than 0" []) st
    else if MDE_CPU_ARM_OR_AARCH64 plat then
      if PPTT_ARM_CCIDX_CACHE_NUMBER_OF_SETS_MAX plat <? NumberOfSets then
        let st := IncrementErrorCount st in
        PrintEv (EvMessage
          "\nERROR: When ARMv8.3-CCIDX is implemented the maximum cache number of sets must be less than or equal to %d"
          [PPTT_ARM_CCIDX_CACHE_NUMBER_OF_SETS_MAX plat]) st
      else if PPTT_ARM_CACHE_NUMBER_OF_SETS_MAX plat <? NumberOfSets then
        let st := IncrementWarningCount st in
        PrintEv (EvMessage
          "\nWARNING: Without ARMv8.3-CCIDX, the maximum cache number of sets must be less than or equal to %d. Ignore this message if ARMv8.3-CCIDX is implemented"
          [PPTT_ARM_CACHE_NUMBER_OF_SETS_MAX plat]) st
      else st
    else st.

Definition ValidateCacheAssociativity : AcpiParser.FIELD_VALIDATOR :=
  fun Ptr Context st =>
    let Associativity := ReadUint8 mem Ptr in
    if Associativity =? 0 then
      let st := IncrementErrorCount st in
      PrintEv (EvMessage "\nERROR: Cache associativity must be greater than 0" []) st
    else st.

Definition ValidateCacheLineSize : AcpiParser.FIELD_VALIDATOR :=
  fun Ptr Context st =>
    if MDE_CPU_ARM_OR_AARCH64 plat then
      let LineSize := ReadUint16 mem Ptr in
      if (LineSize <? PPTT_ARM_CACHE_LINE_SIZE_MIN plat)
         || (PPTT_ARM_CACHE_LINE_SIZE_MAX plat <? LineSize) then
        let st := IncrementErrorCount st in
        PrintEv (EvMessage
          "\nERROR: The cache line size must be between %d and %d bytes on ARM Platforms."
          [PPTT_ARM_CACHE_LINE_SIZE_MIN plat; PPTT_ARM_CACHE_LINE_SIZE_MAX plat]) st
      else if negb (Z.land LineSize (LineSize - 1) =? 0) then
        let st := IncrementErrorCount st in
        PrintEv (EvMessage "\nERROR: The cache line size is not a power of 2." []) st
      else st
    else st.

Definition ValidateCacheAttributes : AcpiParser.FIELD_VALIDATOR :=
  fun Ptr Context st =>
    let Attributes := ReadUint8 mem Ptr in
    if negb (Z.land Attributes 224 =? 0) then
      let st := IncrementErrorCount st in
      PrintEv (EvMessage
        "\nERROR: Attributes bits [7:5] are reserved and must be zero."
        [Attributes]) st
    else st.

Definition PpttParser : list ACPI_PARSER := PARSE_ACPI_HEADER "Pptt.AcpiHdrInfo".

Definition ProcessorTopologyStructureHeaderParser : list ACPI_PARSER :=
  [ FIELD (Some "Type") 1 0 None None (Some "ProcessorTopologyStructureType") None None;
    FIELD (Some "Length") 1 1 None None (Some "ProcessorTopologyStructureLength") None None;
    FIELD (Some "Reserved") 2 2 None None None None None ].

Definition ProcessorHierarchyNodeStructureParser : list ACPI_PARSER :=
  [ FIELD (Some "Type") 1 0 (Some "0x%x") None None None None;
    FIELD (Some "Length") 1 1 (Some "%d") None None None None;
    FIELD (Some "Reserved") 2 2 (Some "0x%x") None None None None;
    FIELD (Some "Flags") 4 4 (Some "0x%x") None None None None;
    FIELD (Some "Parent") 4 8 (Some "0x%x") None None None None;
    FIELD (Some "ACPI Processor ID") 4 12 (Some "0x%x") None None None None;
    FIELD (Some "Number of private resources") 4 16 (Some "%d") None
          (Some "NumberOfPrivateResources") None None ].

Definition CacheTypeStructureParser : list ACPI_PARSER :=
  [ FIELD (Some "Type") 1 0 (Some "0x%x") None None None None;
    FIELD (Some "Length") 1 1 (Some "%d") None None None None;
    FIELD (Some "Reserved") 2 2 (Some "0x%x") None None None None;
    FIELD (Some "Flags") 4 4 (Some "0x%x") None None None None;
    FIELD (Some "Next Level of Cache") 4 8 (Some "0x%x") None None None None;
    FIELD (Some "Size") 4 12 (Some "0x%x") None None None None;
    FIELD (Some "Number of sets") 4 16 (Some "%d") None None
          (Some ValidateCacheNumberOfSets) None;
    FIELD (Some "Associativity") 1 20 (Some "%d") None None
          (Some ValidateCacheAssociativity) None;
    FIELD (Some "Attributes") 1 21 (Some "0x%x") None None
          (Some ValidateCacheAttributes) None;
    FIELD (Some "Line size") 2 22 (Some "%d") None None
          (Some ValidateCacheLineSize) None ].

Definition IdStructureParser : list ACPI_PARSER :=
  [ FIELD (Some "Type") 1 0 (Some "0x%x") None None None None;
    FIELD (Some "Length") 1 1 (Some "%d") None None None None;
    FIELD (Some "Reserved") 2 2 (Some "0x%x") None None None None;
    FIELD (Some "VENDOR_ID") 4 4 None (Some (Dump4Chars mem)) None None None;
    FIELD (Some "LEVEL_1_ID") 8 8 (Some "0x%x") None None None None;
    FIELD (Some "LEVEL_2_ID") 8 16 (Some "0x%x") None None None None;
    FIELD (Some "MAJOR_REV") 2 24 (Some "0x%x") None None None None;
    FIELD (Some "MINOR_REV") 2 26 (Some "0x%x") None None None None;
    FIELD (Some "SPIN_REV") 2 28 (Some "0x%x") None None None None ].

Definition PpttDatabaseName : string := "Processor Topology Structure".

(** Modelled from the spec: the type code of the processor hierarchy node,
    the position of its entry in [PpttStructs]. *)
Definition EFI_ACPI_6_3_PPTT_TYPE_PROCESSOR : Z := 0.

(** The [while (Index < *NumberOfPrivateResources)] loop of
    [DumpProcessorHierarchyNodeStructure]; [Remaining] turns are left. *)
Fixpoint DumpPrivateResources (Remaining : nat) (Ptr Offset Index : Z) (st : State)
  : State :=
  match Remaining with
  | O => st
  | S n =>
      let Buffer :=
        String.substring 0 (Z.to_nat (OUTPUT_FIELD_COLUMN_WIDTH plat - 1))
          ("Private resource [" ++ pretty.pretty (signed32 Index) ++ "]") in
      let st := PrintFieldName 4 (Some Buffer) st in
      let st := PrintEv (EvValue "0x%x\n" [ReadUint32 mem (Ptr + Offset)]) st in
      DumpPrivateResources n Ptr (wrap32 (Offset + 4)) (wrap32 (Index + 1)) st
  end.

Definition DumpProcessorHierarchyNodeStructure : StructInfo.ACPI_STRUCT_PARSER_FUNC :=
  fun Ptr Length OptArg0 OptArg1 st =>
    let AsciiBuffer :=
      PrintAcpiStructName "Processor"
        (CountAt PpttDatabaseName (Z.to_nat EFI_ACPI_6_3_PPTT_TYPE_PROCESSOR) st) 80 in
    let '(Offset, st) :=
      ParseAcpi plat mem true 2 (Some AsciiBuffer) Ptr Length
                ProcessorHierarchyNodeStructureParser st in
    match ItemPtrs st !! "NumberOfPrivateResources" with
    | None =>
        let st := IncrementErrorCount st in
        PrintEv (EvMessage "ERROR: Insufficient %a Structure length. Length = %d.\n"
                           [Length]) st
    | Some CountPtr =>
        let NumberOfPrivateResources := ReadUint32 mem CountPtr in
        if Length <? wrapN (Offset + wrapN (NumberOfPrivateResources * 4)) then
          let st := IncrementErrorCount st in
          PrintEv (EvMessage
            "ERROR: Invalid Number of Private Resources. PrivateResourceCount = %d. RemainingBufferLength = %d. Parsing of this structure aborted.\n"
            [NumberOfPrivateResources; wrap32 (Length - Offset)]) st
        else
          DumpPrivateResources (Z.to_nat NumberOfPrivateResources) Ptr Offset 0 st
    end.

Definition PpttStructs : list ACPI_STRUCT_INFO :=
  let ALL := Z.lor (Z.lor (Z.lor (ARCH_COMPAT_IA32 plat) (ARCH_COMPAT_X64 plat))
                          (ARCH_COMPAT_ARM plat)) (ARCH_COMPAT_AARCH64 plat) in
  [ ADD_ACPI_STRUCT_INFO_FUNC "Processor" EFI_ACPI_6_3_PPTT_TYPE_PROCESSOR ALL
                              DumpProcessorHierarchyNodeStructure;
    ADD_ACPI_STRUCT_INFO_ARRAY "Cache" 1 ALL CacheTypeStructureParser;
    ADD_ACPI_STRUCT_INFO_ARRAY "ID" 2 ALL IdStructureParser ].

Definition PpttDatabase : ACPI_STRUCT_DATABASE :=
  StructDb.mkDb PpttDatabaseName PpttStructs.

(** The code of [ParseAcpiPptt] after its loop. *)
Definition PpttFinish (st : State) : State :=
  if GetConsistencyChecking plat
  then snd (ValidateAcpiStructCounts plat PpttDatabase st)
  else st.

Definition ParseAcpiPptt (Trace : bool) (Ptr AcpiTableLength AcpiTableRevision : Z)
  (st : State) : Outcome :=
  if negb Trace then Returned st
  else
    let st := ResetAcpiStructCounts PpttDatabase st in
    let '(Offset, st) :=
      ParseAcpi plat mem true 0 (Some "PPTT") Ptr AcpiTableLength PpttParser st in
    let ProcessorTopologyStructurePtr := Ptr + Offset in
    StructWalk ProcessorTopologyStructureHeaderParser
               "ProcessorTopologyStructureType" "ProcessorTopologyStructureLength"
               PpttDatabase PpttFinish AcpiTableLength
               (Z.to_nat AcpiTableLength) ProcessorTopologyStructurePtr Offset st.

End TableParsers.

(** ** Notions used to state the properties *)

(** The sum of the lengths of a descriptor list. *)
Fixpoint SumLengths (Parser : list ACPI_PARSER) : Z :=
  match Parser with
  | [] => 0
  | Field :: Parser' => AcpiParser.Length Field + SumLengths Parser'
  end.

(** Every declared offset is the sum of the lengths before it, counted
    from [Start]. *)
Fixpoint ConsistentOffsets (Start : Z) (Parser : list ACPI_PARSER) : bool :=
  match Parser with
  | [] => true
  | Field :: Parser' =>
      (AcpiParser.Offset Field =? Start)
      && ConsistentOffsets (Start + AcpiParser.Length Field) Parser'
  end.

(** The same descriptor with another declared offset. *)
Definition SetOffset (Offset' : Z) (Field : ACPI_PARSER) : ACPI_PARSER :=
  AcpiParser.mkParser (AcpiParser.NameStr Field) (AcpiParser.Length Field) Offset'
    (AcpiParser.Format Field) (AcpiParser.PrintFormatter Field)
    (AcpiParser.ItemPtr Field) (AcpiParser.FieldValidator Field)
    (AcpiParser.Context Field).

(** Field lengths are unsigned. *)
Definition LengthsOk (Parser : list ACPI_PARSER) : Prop :=
  Forall (fun Field => 0 <= AcpiParser.Length Field) Parser.

(** The number of offset-mismatch errors printed so far. *)
Definition IsOffsetMismatch (e : Event) : bool :=
  match e with
  | EvOffsetMismatch _ _ _ _ => true
  | _ => false
  end.

Definition OffsetMismatches (st : State) : nat :=
  length (List.filter IsOffsetMismatch (ConOut st)).

(** Resetting the pointers of all the descriptors of a list, in order. *)
Definition ClearItemPtrs (Parser : list ACPI_PARSER) (st : State) : State :=
  fold_left (fun st Field => ClearItemPtr Field st) Parser st.

(** Frame conditions on the functions a table plugs into the parser: the
    formatter and the validator of a descriptor, and the handler of a
    database entry, leave the observation [f] of the state as it is. *)
Definition FieldPreserves {A : Type} (f : State -> A) (Field : ACPI_PARSER) : Prop :=
  (forall Formatter Format Ptr st,
      AcpiParser.PrintFormatter Field = Some Formatter ->
      f (Formatter Format Ptr st) = f st)
  /\ (forall Validator Ptr Context st,
      AcpiParser.FieldValidator Field = Some Validator ->
      f (Validator Ptr Context st) = f st).

Definition HandlerPreserves {A : Type} (f : State -> A)
  (Handler : StructInfo.ACPI_STRUCT_HANDLER) : Prop :=
  match StructInfo.ParserFunc Handler with
  | Some Func => forall Ptr Length OptArg0 OptArg1 st,
      f (Func Ptr Length OptArg0 OptArg1 st) = f st
  | None =>
      match StructInfo.ParserArray Handler with
      | Some Array => Forall (FieldPreserves f) Array
      | None => True
      end
  end.

(** What [ValidateAcpiStructCounts] prints for entry [Index], and whether
    the entry is an incompatible structure that was found. *)
Definition IsIncompatibleFound (plat : Platform) (StructDb : ACPI_STRUCT_DATABASE)
  (st : State) (Index : nat) : bool :=
  negb (IsAcpiStructTypeValid plat (Z.of_nat Index) StructDb)
  && negb (GetCount StructDb Index st =? 0).

Definition CountReport (plat : Platform) (StructDb : ACPI_STRUCT_DATABASE)
  (st : State) (Index : nat) : list Event :=
  match StructDb.Entries StructDb !! Index with
  | None => []
  | Some Entry =>
      if IsAcpiStructTypeValid plat (Z.of_nat Index) StructDb
      then [EvInstanceCount (StructInfo.Name Entry) (GetCount StructDb Index st)]
      else if GetCount StructDb Index st =? 0 then []
      else [EvArchInvalid (StructInfo.Name Entry) (GetCount StructDb Index st)]
  end.

(** The value of the [UINT32] variable [gIndent]. *)
Definition IndentDepth (st : State) : Z := wrap32 (gIndent st).

(** An observation of the state that printing, counting an error or a
    warning and changing the text attribute leave as it is. *)
Record EngineFrame {A : Type} (f : State -> A) : Prop := mkEngineFrame {
  frame_PrintEv : forall e st, f (PrintEv e st) = f st;
  frame_ErrorCount : forall v st, f (set_mTableErrorCount v st) = f st;
  frame_WarningCount : forall v st, f (set_mTableWarningCount v st) = f st;
  frame_Attribute : forall v st, f (SetAttribute v st) = f st
}.

(** An observation that does not see the static pointer [Item], or the
    pointer that a descriptor fills, or any of them. *)
Definition ItemKept {A : Type} (f : State -> A) (Item : string) : Prop :=
  forall st,
    (forall Ptr, f (set_ItemPtrs (<[Item := Ptr]> (ItemPtrs st)) st) = f st)
    /\ f (set_ItemPtrs (delete Item (ItemPtrs st)) st) = f st.

Definition ItemPtrKept {A : Type} (f : State -> A) (Field : ACPI_PARSER) : Prop :=
  match AcpiParser.ItemPtr Field with
  | Some Item => ItemKept f Item
  | None => True
  end.

Definition IgnoresItemPtrs {A : Type} (f : State -> A) : Prop :=
  forall v st, f (set_ItemPtrs v st) = f st.

(** A handler that preserves [f], also through the pointers its parser
    array fills. *)
Definition HandlerKeeps {A : Type} (f : State -> A)
  (Handler : StructInfo.ACPI_STRUCT_HANDLER) : Prop :=
  HandlerPreserves f Handler
  /\ match StructInfo.ParserFunc Handler, StructInfo.ParserArray Handler with
     | None, Some Array => Forall (ItemPtrKept f) Array
     | _, _ => True
     end.

(** Decoding every field of a list in sequence, each at the running
    offset: what the loop of [ParseAcpi] does when no field is skipped and
    no offset wraps. *)
Fixpoint DecodeFields (plat : Platform) (mem : Z -> byte) (Trace : bool)
  (AsciiName : option string) (Parser : list ACPI_PARSER) (Ptr Offset : Z)
  (st : State) : State :=
  match Parser with
  | [] => st
  | Field :: Parser' =>
      DecodeFields plat mem Trace AsciiName Parser'
        (Ptr + AcpiParser.Length Field) (Offset + AcpiParser.Length Field)
        (ParseAcpiField plat mem Trace AsciiName Field Ptr Offset st)
  end.

(** How many declared offsets differ from the running offset. *)
Fixpoint MismatchedOffsets (Start : Z) (Parser : list ACPI_PARSER) : nat :=
  match Parser with
  | [] => 0%nat
  | Field :: Parser' =>
      let Rest := MismatchedOffsets (Start + AcpiParser.Length Field) Parser' in
      if AcpiParser.Offset Field =? Start then Rest else S Rest
  end.

(** The static pointer variables that the descriptors of a list fill. *)
Definition ItemNames (Parser : list ACPI_PARSER) : list string :=
  omap AcpiParser.ItemPtr Parser.

(** No descriptor is longer than a later one. *)
Fixpoint LengthsAscend (Parser : list ACPI_PARSER) : bool :=
  match Parser with
  | [] => true
  | Field :: Parser' =>
      forallb (fun Later => AcpiParser.Length Field <=? AcpiParser.Length Later) Parser'
      && LengthsAscend Parser'
  end.

(** The sum of the instance counts of a database, as an unbounded
    integer. *)
Definition TotalCount (StructDb : ACPI_STRUCT_DATABASE) (st : State) : Z :=
  fold_right Z.add 0
    (map (fun Index => GetCount StructDb Index st)
         (seq 0 (length (StructDb.Entries StructDb)))).

(** The memory with the byte at [Address] replaced. *)
Definition MemSet (mem : Z -> byte) (Address : Z) (b : byte) : Z -> byte :=
  fun a => if a =? Address then b else mem a.

(** The value of the [n] bytes at [Ptr] read as a little-endian number. *)
Fixpoint LittleEndian (mem : Z -> byte) (n : nat) (Ptr : Z) : Z :=
  match n with
  | O => 0
  | S k => ReadUint8 mem Ptr + 256 * LittleEndian mem k (Ptr + 1)
  end.

(** The text that [DumpProcessorHierarchyNodeStructure] prints in front
    of private resource [Index]: [UnicodeSPrint (Buffer, sizeof (Buffer),
    L"Private resource [%d]", Index)]. *)
Definition PrivateResourceName (plat : Platform) (Index : Z) : string :=
  String.substring 0 (Z.to_nat (OUTPUT_FIELD_COLUMN_WIDTH plat - 1))
    ("Private resource [" ++ pretty.pretty (signed32 Index) ++ "]")%string.

(** One line of the list of private resources: the name and the 32-bit
    reference read at [Address]. *)
Definition PrivateResourceLine (plat : Platform) (mem : Z -> byte) (Index Address : Z)
  (st : State) : State :=
  PrintEv (EvValue "0x%x\n" [ReadUint32 mem Address])
          (PrintFieldName 4 (Some (PrivateResourceName plat Index)) st).

(** How many bytes of its line the dump has printed when [i] bytes are
    out: 0 at the start, then 1 to 16. *)
Definition LineFill (i : nat) : nat :=
  match i with
  | O => O
  | S j => S (j mod 16)
  end.

(** The text column for [Count] bytes from position [First] on. *)
Definition RawText (mem : Z -> byte) (Ptr : Z) (First Count : nat) : list Z :=
  map (fun i => Printable (ReadUint8 mem (Ptr + Z.of_nat i))) (seq First Count).

(** What the dump prints for byte [i]: at the start of a line the text
    of the line before and the offset, in the middle of a line the
    separator, and the byte in hexadecimal. *)
Definition RawByte (mem : Z -> byte) (Ptr : Z) (i : nat) : list Event :=
  (if Z.land (Z.of_nat i) 15 =? 0 then
     [EvMessage "  %a\n%08X : "
                (RawText mem Ptr (i - LineFill i) (LineFill i) ++ [Z.of_nat i])]
   else if Z.land (Z.of_nat i) 7 =? 0 then [EvMessage "- " []]
   else [])
  ++ [EvMessage "%02X " [ReadUint8 mem (Ptr + Z.of_nat i)]].

(** The spaces after a last line of [r] bytes, [0 < r < 16]. *)
Definition RawPadding (Length : Z) : nat :=
  let r := Z.land Length 15 in
  if r =? 0 then 0%nat
  else Z.to_nat (48 - r * 3 + (if r <=? 8 then 2 else 0)).

(** The whole dump of [Length] bytes. *)
Definition RawDump (mem : Z -> byte) (Ptr Length : Z) : list Event :=
  let n := Z.to_nat Length in
  [EvMessage "Address  : 0x%p\n" [Ptr]; EvMessage "Length   : %d\n" [Length]]
  ++ flat_map (RawByte mem Ptr) (seq 0 n)
  ++ repeat (EvMessage " " []) (RawPadding Length)
  ++ [EvMessage "  %a\n\n" (RawText mem Ptr (n - LineFill n) (LineFill n))].

(** The characters that an event of the dump adds to the hexadecimal
    column: a byte is two digits and a space. *)
Definition HexWidth (e : Event) : nat :=
  match e with
  | EvMessage Text _ =>
      if decide (Text = "%02X "%string) then 3%nat
      else if decide (Text = "- "%string) then 2%nat
      else if decide (Text = " "%string) then 1%nat
      else 0%nat
  | _ => 0%nat
  end.

(** The two events that end a line with its text column. *)
Definition EndsLine (e : Event) : bool :=
  match e with
  | EvMessage Text _ =>
      bool_decide (Text = "  %a\n%08X : "%string)
      || bool_decide (Text = "  %a\n\n"%string)
  | _ => false
  end.

(** The widths of the hexadecimal columns of the lines of a dump, given
    the width of the line that is being printed. *)
Fixpoint HexColumns (Events : list Event) (Width : nat) : list nat :=
  match Events with
  | [] => []
  | e :: Events' =>
      if EndsLine e then Width :: HexColumns Events' 0
      else HexColumns Events' (Width + HexWidth e)
  end.

(** The width of the hexadecimal column when [i] bytes are out: three
    characters for each byte of the line, and the separator. *)
Definition HexFill (i : nat) : nat :=
  (3 * LineFill i + (if (8 <? LineFill i)%nat then 2 else 0))%nat.

(** Which compatibility masks a build lets pass. An ARM or AArch64 build
    wants the ARM or the AARCH64 bit in the mask, either of the two
    whichever the target is; any other build makes no architecture test
    and lets every mask pass that is not empty. *)
Definition MaskAccepted (plat : Platform) (CompatArch : Z) : bool :=
  if MDE_CPU_ARM_OR_AARCH64 plat
  then negb (Z.land CompatArch
                    (Z.lor (ARCH_COMPAT_ARM plat) (ARCH_COMPAT_AARCH64 plat)) =? 0)
  else negb (CompatArch =? 0).

(** The line of the table breakdown for entry [Index], and whether the
    entry was found although its mask is not accepted, both read off the
    mask of the entry. *)
Definition MaskReport (plat : Platform) (StructDb : ACPI_STRUCT_DATABASE)
  (st : State) (Index : nat) : list Event :=
  match StructDb.Entries StructDb !! Index with
  | None => []
  | Some Entry =>
      if MaskAccepted plat (StructInfo.CompatArch Entry)
      then [EvInstanceCount (StructInfo.Name Entry) (GetCount StructDb Index st)]
      else if GetCount StructDb Index st =? 0 then []
      else [EvArchInvalid (StructInfo.Name Entry) (GetCount StructDb Index st)]
  end.

Definition IsRejectedFound (plat : Platform) (StructDb : ACPI_STRUCT_DATABASE)
  (st : State) (Index : nat) : bool :=
  match StructDb.Entries StructDb !! Index with
  | None => false
  | Some Entry =>
      negb (MaskAccepted plat (StructInfo.CompatArch Entry))
      && negb (GetCount StructDb Index st =? 0)
  end.

(** Compatibility with one architecture as the design document words it:
    the mask of the entry has the bit of that architecture. It serves to
    state what [ValidateAcpiStructCounts] does not test. *)
Definition CompatibleWith (Arch : Z) (Entry : ACPI_STRUCT_INFO) : bool :=
  negb (Z.land (StructInfo.CompatArch Entry) Arch =? 0).

(** Decoding a list whose fields all fit, with [Report] applied to the
    state when field [k] is reached, before that field is traced and its
    pointer stored: the fields before [k] first, then field [k] at [Ptr]
    plus their size, then the fields after it. [Report] is given the
    running offset of field [k]. *)
Definition DecodeReporting (plat : Platform) (mem : Z -> byte) (Trace : bool)
  (AsciiName : option string) (Parser : list ACPI_PARSER) (k : nat)
  (Field : ACPI_PARSER) (Report : Z -> State -> State) (Ptr : Z) (st : State)
  : State :=
  let Start := SumLengths (take k Parser) in
  let st := DecodeFields plat mem Trace AsciiName (take k Parser) Ptr 0 st in
  let st := Report Start st in
  let st := if Trace then TraceField plat mem AsciiName Field (Ptr + Start) st
            else st in
  let st := StoreItemPtr Field (Ptr + Start) st in
  DecodeFields plat mem Trace AsciiName (drop (S k) Parser)
    (Ptr + Start + AcpiParser.Length Field) (Start + AcpiParser.Length Field) st.

(** The offsets at which structures were handed to [ParseAcpiStruct], and
    the invalid-length errors, in the order they were printed. *)
Definition IsWalkEvent (e : Event) : bool :=
  match e with
  | EvStructOffset _ | EvInvalidStructLength _ _ _ _ => true
  | _ => false
  end.

(** The state a table parser returned with, if it returned. *)
Definition ReturnedState (o : Outcome) : option State :=
  match o with
  | Returned st => Some st
  | _ => None
  end.

(** ** Sample inputs *)

Module Sample.

Local Open Scope string_scope.
Local Open Scope Z_scope.
Local Abbreviation FIELD := AcpiParser.mkParser.

(** An AArch64 build with colours off; [Checking] is the consistency
    checking switch. *)
Definition plat (Checking : bool) : Platform :=
  mkPlatform Checking false true 64 36 1 2 4 8
             (fun Foreground Background => Z.lor Foreground (Z.shiftl Background 4))
             2 4 14 16 31 1056 1119 21 16777216 32768 16 2048.

(** A memory holding the given bytes from address 0 on. *)
Definition MemOf (Bytes : list Z) : Z -> byte := fun Address =>
  match Byte.of_N (Z.to_N (nth (Z.to_nat Address) Bytes 0)) with
  | Some b => if Address <? 0 then x00 else b
  | None => x00
  end.

Definition InitialState : State := mkState 0 0 0 ∅ ∅ 0 [].

(** The two-field lookahead of the design document. *)
Definition TypeLength : list ACPI_PARSER :=
  [ FIELD (Some "Type") 1 0 None None (Some "TypePtr") None None;
    FIELD (Some "Length") 1 1 None None (Some "LengthPtr") None None ].

(** A descriptor list whose last field is shorter than the one before. *)
Definition ShortTail : list ACPI_PARSER :=
  [ FIELD (Some "A") 1 0 (Some "0x%x") None (Some "APtr") None None;
    FIELD (Some "B") 4 1 (Some "0x%x") None (Some "BPtr") None None;
    FIELD (Some "C") 1 5 (Some "0x%x") None (Some "CPtr") None None ].

(** The four-entry database of the design document: A and D for ARM, B
    for x86, C for both; and a state in which A was found twice and C once. *)
Definition Arch4 : ACPI_STRUCT_DATABASE :=
  StructDb.mkDb "Arch4"
    [ ACPI_STRUCT_INFO_PARSER_NOT_IMPLEMENTED "A" 0 4;
      ACPI_STRUCT_INFO_PARSER_NOT_IMPLEMENTED "B" 1 3;
      ACPI_STRUCT_INFO_PARSER_NOT_IMPLEMENTED "C" 2 6;
      ACPI_STRUCT_INFO_PARSER_NOT_IMPLEMENTED "D" 3 4 ].

Definition Arch4Counts : gmap (string * nat) Z :=
  <[("Arch4", 0%nat) := 2]> (<[("Arch4", 2%nat) := 1]> ∅).

Definition Arch4State : State := mkState 0 0 0 ∅ Arch4Counts 0 [].

(** A table with a nested Generic Address Structure, and its bytes. *)
Definition GasBytes : list Z := [1; 0; 0; 0;  0; 32; 0; 3;  0; 16; 0; 0; 0; 0; 0; 0].

Definition WithGas : list ACPI_PARSER :=
  [ FIELD (Some "Flags") 4 0 (Some "0x%x") None None None None;
    FIELD (Some "Register") 12 4 None (Some (DumpGas (plat true) (MemOf GasBytes)))
          None None None ].

(** The bytes of a PPTT cache type structure (type 1, 24 bytes) with 64
    sets, 4 ways and lines of 64 bytes. *)
Definition CacheBytes : list Z :=
  [1; 24; 0; 0;  0; 0; 0; 0;  0; 0; 0; 0;  0; 64; 0; 0;
   64; 0; 0; 0;  4; 0; 64; 0].

(** A descriptor with both a formatter and a validator; on a zero byte the
    validator reports an error whenever it is called. *)
Definition ZeroBytes : list Z := [0; 0; 0; 0].

Definition FormatterAndValidator : list ACPI_PARSER :=
  [ FIELD (Some "Ways") 4 0 (Some "%c%c%c%c") (Some (Dump4Chars (MemOf ZeroBytes)))
          None (Some (ValidateCacheAssociativity (MemOf ZeroBytes))) None ].

(** A three-byte field with a format string and a validator. *)
Definition OddWidth : ACPI_PARSER :=
  FIELD (Some "Associativity") 3 0 (Some "%d") None None
        (Some (ValidateCacheAssociativity (MemOf ZeroBytes))) None.

(** A stand-in for the expansion of [PARSE_ACPI_HEADER]: the 36 bytes of
    the ACPI description header, of which the signature, the length and
    the revision are captured in the header-info variable. *)
Definition AcpiHeader (mem : Z -> byte) (Info : string) : list ACPI_PARSER :=
  [ FIELD (Some "Signature") 4 0 None (Some (Dump4Chars mem))
          (Some (Info ++ ".Signature")) None None;
    FIELD (Some "Length") 4 4 (Some "%d") None (Some (Info ++ ".Length")) None None;
    FIELD (Some "Revision") 1 8 (Some "%d") None (Some (Info ++ ".Revision")) None None;
    FIELD (Some "Checksum") 1 9 (Some "0x%X") None None None None;
    FIELD (Some "Oem ID") 6 10 None (Some (Dump6Chars mem)) None None None;
    FIELD (Some "Oem Table ID") 8 16 None (Some (Dump8Chars mem)) None None None;
    FIELD (Some "Oem Revision") 4 24 (Some "0x%X") None None None None;
    FIELD (Some "Creator ID") 4 28 None (Some (Dump4Chars mem)) None None None;
    FIELD (Some "Creator Revision") 4 32 (Some "0x%X") None None None None ].

(** A MADT of 64 bytes: the header, the two fields of the table, one GICR
    structure of 16 bytes at offset 44, and at offset 60 a structure that
    declares a length of zero. *)
Definition MadtBytes : list Z :=
  [ 65; 80; 73; 67;  64; 0; 0; 0;  5; 0;  65; 82; 77; 76; 84; 68;
    83; 65; 77; 80; 76; 69; 32; 32;  1; 0; 0; 0;  65; 82; 77; 32;  1; 0; 0; 0;
    0; 0; 0; 0;  0; 0; 0; 0;
    14; 16; 0; 0;  0; 0; 16; 47; 0; 0; 0; 0;  0; 0; 32; 0;
    14; 0; 0; 0 ].

End Sample.

(** ** More sample inputs *)

Module Cases.

(** An X64 build, with consistency checking on and colours off. *)
Definition plat_x64 : Platform :=
  mkPlatform true false false 64 36 1 2 4 8
             (fun Foreground Background => Z.lor Foreground (Z.shiftl Background 4))
             2 4 14 16 31 1056 1119 21 16777216 32768 16 2048.

(** A processor hierarchy node of 28 bytes with two private resources,
    at offsets 0x80 and 0x98 of the table. *)
Definition NodeBytes : list Z :=
  [0; 28; 0; 0;  2; 0; 0; 0;  0; 0; 0; 0;  1; 0; 0; 0;  2; 0; 0; 0;
   128; 0; 0; 0;  152; 0; 0; 0].

(** The four-entry database after a walk that found A twice and the x86
    structure B once. *)
Definition Arch4Found : State :=
  mkState 0 0 0 ∅ (<[("Arch4"%string, 0%nat) := 2]> (<[("Arch4"%string, 1%nat) := 1]> ∅)) 0 [].

(** The MADT counts after a walk that found one Processor Local APIC and
    two GICDs. *)
Definition MadtFound : State :=
  mkState 0 0 0 ∅
    (<[("Interrupt Controller Structure"%string, 0%nat) := 1]>
       (<[("Interrupt Controller Structure"%string, 12%nat) := 2]> ∅)) 0 [].

(** The MADT counts after a walk that found one GICC. *)
Definition GiccFound : State :=
  mkState 0 0 0 ∅ (<[("Interrupt Controller Structure"%string, 11%nat) := 1]> ∅) 0 [].

(** A MADT of 114 bytes: the header, the two fields of the table, and at
    offset 44 one GICC structure that declares a length of 70, ten bytes
    short of its 80-byte layout. *)
Definition GiccMadtBytes : list Z :=
  [ 65; 80; 73; 67;  114; 0; 0; 0;  5; 0;  65; 82; 77; 76; 84; 68;
    83; 65; 77; 80; 76; 69; 32; 32;  1; 0; 0; 0;  65; 82; 77; 32;  1; 0; 0; 0;
    0; 0; 0; 0;  0; 0; 0; 0;
    11; 70 ].

(** The header of a GICR structure, and of a cache type structure, that
    declares a length of 255; the bytes after it are zero. *)
Definition OverlongGicr : list Z := [14; 255].
Definition OverlongCache : list Z := [1; 255].

End Cases.

(** * Properties *)

(** ** Machine arithmetic *)

Lemma wrap32_small (z : Z) : uint32 z -> wrap32 z = z.
Proof. unfold uint32, wrap32. intros H. apply Z.mod_small. lia. Qed.

Lemma wrap32_range (z : Z) : uint32 (wrap32 z).
Proof. unfold uint32, wrap32. apply Z.mod_pos_bound. lia. Qed.

Lemma wrap32_sub_l (a b : Z) : wrap32 (wrap32 a - b) = wrap32 (a - b).
Proof. unfold wrap32. apply Zminus_mod_idemp_l. Qed.

Lemma byte_val_range (b : byte) : 0 <= byte_val b < 256.
Proof.
  unfold byte_val. pose proof (Byte.to_N_bounded b) as H. lia.
Qed.

(** ** The state setters commute with the observations *)

Lemma ConOut_PrintEv e st : ConOut (PrintEv e st) = ConOut st ++ [e].
Proof. reflexivity. Qed.

Lemma OffsetMismatches_PrintEv e st :
  OffsetMismatches (PrintEv e st)
  = (OffsetMismatches st + (if IsOffsetMismatch e then 1 else 0))%nat.
Proof.
  unfold OffsetMismatches. rewrite ConOut_PrintEv, List.filter_app, length_app.
  simpl. destruct (IsOffsetMismatch e); reflexivity.
Qed.

(** ** VerifyChecksum *)

Lemma ChecksumLoop_ByteSum mem (n : nat) : forall Ptr c,
  ChecksumLoop mem n Ptr (wrap8 c) = wrap8 (c + ByteSum mem n Ptr).
Proof.
  induction n as [|n IH]; intros Ptr c; cbn [ChecksumLoop ByteSum].
  - now rewrite Z.add_0_r.
  - rewrite IH. unfold wrap8.
    rewrite <- Z.add_assoc, Zplus_mod_idemp_l. reflexivity.
Qed.

(** C10. [VerifyChecksum] returns TRUE exactly when the sum of the
    [Length] bytes of the buffer is zero modulo 256; the error counter
    goes up by one when [Log] is TRUE and that sum is not zero, and is
    left alone otherwise; with [Log] FALSE the state is not touched at
    all, whatever the checksum. *)
Theorem VerifyChecksum_result plat mem (Log : bool) (Ptr Length : Z) (st : State) :
  let Sum := ByteSum mem (Z.to_nat Length) Ptr mod 256 in
  fst (VerifyChecksum plat mem Log Ptr Length st) = (Sum =? 0)
  /\ mTableErrorCount (snd (VerifyChecksum plat mem Log Ptr Length st))
     = (if Log && negb (Sum =? 0)
        then wrap32 (mTableErrorCount st + 1)
        else mTableErrorCount st)
  /\ snd (VerifyChecksum plat mem false Ptr Length st) = st.
Proof.
  assert (Hloop : ChecksumLoop mem (Z.to_nat Length) Ptr 0
                  = ByteSum mem (Z.to_nat Length) Ptr mod 256).
  { change 0 with (wrap8 0) at 1. rewrite ChecksumLoop_ByteSum. reflexivity. }
  unfold VerifyChecksum. rewrite Hloop. cbn zeta.
  split; [reflexivity|]. split; [|reflexivity].
  destruct Log; [|reflexivity].
  destruct (ByteSum mem (Z.to_nat Length) Ptr mod 256 =? 0);
    destruct (GetColourHighlighting plat); reflexivity.
Qed.

(** ** ParseAcpiStruct on an unknown type *)

(** C4. With a type code at or past the end of the database,
    [ParseAcpiStruct] prints the offset line and one unknown-type error,
    counts one error, returns FALSE and changes no instance count. *)
Theorem ParseAcpiStruct_unknown_type plat mem (Indent Ptr : Z)
  (StructDb : ACPI_STRUCT_DATABASE) (Offset StructType Length : Z)
  (OptArg0 OptArg1 : option Z) (st : State) :
  StructDb.EntryCount StructDb <= StructType ->
  let r := ParseAcpiStruct plat mem Indent Ptr StructDb Offset StructType Length
                           OptArg0 OptArg1 st in
  fst r = false
  /\ ConOut (snd r)
     = ConOut st ++ [EvFieldName (wrap32 (gIndent st + Indent)) (Some "* Offset *"%string);
                     EvStructOffset Offset;
                     EvUnknownType (StructDb.Name StructDb) StructType]
  /\ mTableErrorCount (snd r) = wrap32 (mTableErrorCount st + 1)
  /\ StructCounts (snd r) = StructCounts st
  /\ gIndent (snd r) = gIndent st
  /\ ItemPtrs (snd r) = ItemPtrs st.
Proof.
  intros Hge. unfold ParseAcpiStruct.
  destruct (Z.leb_spec (StructDb.EntryCount StructDb) StructType) as [_|Hlt]; [|lia].
  cbn. repeat split. now rewrite <- !app_assoc.
Qed.

Lemma ParseAcpiStruct_unknown_type_witness :
  StructDb.EntryCount (MadtDatabase (Sample.plat true) (Sample.MemOf [])) <= 16
  /\ fst (ParseAcpiStruct (Sample.plat true) (Sample.MemOf []) 2 0
            (MadtDatabase (Sample.plat true) (Sample.MemOf [])) 44 16 8 None None
            Sample.InitialState) = false.
Proof.
  assert (Hle : StructDb.EntryCount (MadtDatabase (Sample.plat true) (Sample.MemOf []))
                <= 16)
    by (vm_compute; discriminate).
  split; [exact Hle|].
  exact (proj1 (ParseAcpiStruct_unknown_type (Sample.plat true) (Sample.MemOf []) 2 0
                  (MadtDatabase (Sample.plat true) (Sample.MemOf [])) 44 16 8 None None
                  Sample.InitialState Hle)).
Defined.

(** ** ValidateAcpiStructCounts *)

Lemma GetCount_same_counts StructDb Index st st' :
  StructCounts st = StructCounts st' ->
  GetCount StructDb Index st = GetCount StructDb Index st'.
Proof. unfold GetCount, CountAt. now intros ->. Qed.

Lemma ValidateCountStep_eq plat StructDb (AllValid : bool) st Index :
  (Index < length (StructDb.Entries StructDb))%nat ->
  0 <= GetCount StructDb Index st ->
  ValidateCountStep plat StructDb (AllValid, st) Index
  = (AllValid && negb (IsIncompatibleFound plat StructDb st Index),
     fold_left (fun st e => PrintEv e st) (CountReport plat StructDb st Index)
               (if IsIncompatibleFound plat StructDb st Index
                then IncrementErrorCount st else st)).
Proof.
  intros Hlt Hpos.
  destruct (lookup_lt_is_Some_2 _ _ Hlt) as [Entry HEntry].
  unfold ValidateCountStep, CountReport, IsIncompatibleFound. rewrite HEntry.
  destruct (IsAcpiStructTypeValid plat (Z.of_nat Index) StructDb).
  - cbn. now rewrite andb_true_r.
  - cbn [negb andb].
    destruct (Z.ltb_spec 0 (GetCount StructDb Index st));
      destruct (Z.eqb_spec (GetCount StructDb Index st) 0); try lia; cbn.
    + now rewrite andb_false_r.
    + now rewrite andb_true_r.
Qed.

Lemma PrintEv_fold (Events : list Event) : forall st,
  let st' := fold_left (fun st e => PrintEv e st) Events st in
  ConOut st' = ConOut st ++ Events
  /\ mTableErrorCount st' = mTableErrorCount st
  /\ StructCounts st' = StructCounts st.
Proof.
  induction Events as [|e Events IH]; intros st; cbn.
  - now rewrite app_nil_r.
  - destruct (IH (PrintEv e st)) as (H1 & H2 & H3). cbn in H1.
    rewrite H1, H2, H3, <- app_assoc. auto.
Qed.

Lemma ValidateCountStep_fold plat StructDb st0 (Indices : list nat) :
  (forall Index, 0 <= GetCount StructDb Index st0) ->
  Forall (fun Index => (Index < length (StructDb.Entries StructDb))%nat) Indices ->
  forall AllValid st,
  StructCounts st = StructCounts st0 ->
  let r := fold_left (ValidateCountStep plat StructDb) Indices (AllValid, st) in
  fst r = AllValid
          && forallb (fun Index => negb (IsIncompatibleFound plat StructDb st0 Index))
                     Indices
  /\ ConOut (snd r) = ConOut st ++ flat_map (CountReport plat StructDb st0) Indices
  /\ mTableErrorCount (snd r)
     = Nat.iter (length (List.filter (IsIncompatibleFound plat StructDb st0) Indices))
                (fun Count => wrap32 (Count + 1)) (mTableErrorCount st)
  /\ StructCounts (snd r) = StructCounts st0.
Proof.
  intros Hpos Hin. induction Hin as [|Index Indices Hlt _ IH]; intros AllValid st Hst.
  - cbn. rewrite andb_true_r, app_nil_r. auto.
  - cbn [fold_left flat_map forallb List.filter].
    assert (Hcount : GetCount StructDb Index st = GetCount StructDb Index st0)
      by now apply GetCount_same_counts.
    rewrite ValidateCountStep_eq by (rewrite ?Hcount; auto).
    assert (Hinc : IsIncompatibleFound plat StructDb st Index
                   = IsIncompatibleFound plat StructDb st0 Index)
      by (unfold IsIncompatibleFound; now rewrite Hcount).
    assert (Hrep : CountReport plat StructDb st Index
                   = CountReport plat StructDb st0 Index)
      by (unfold CountReport; now rewrite Hcount).
    rewrite Hinc, Hrep. clear Hinc Hrep.
    set (st1 := if IsIncompatibleFound plat StructDb st0 Index
                then IncrementErrorCount st else st).
    destruct (PrintEv_fold (CountReport plat StructDb st0 Index) st1)
      as (P1 & P2 & P3).
    set (st2 := fold_left _ (CountReport plat StructDb st0 Index) st1) in *.
    assert (Hst2 : StructCounts st2 = StructCounts st0).
    { rewrite P3. subst st1.
      destruct (IsIncompatibleFound plat StructDb st0 Index); exact Hst. }
    destruct (IH (AllValid && negb (IsIncompatibleFound plat StructDb st0 Index)) st2 Hst2)
      as (H1 & H2 & H3 & H4).
    repeat split; try assumption.
    + rewrite H1. now rewrite andb_assoc.
    + rewrite H2, P1, <- app_assoc. subst st1.
      destruct (IsIncompatibleFound plat StructDb st0 Index); reflexivity.
    + rewrite H3, P2. subst st1.
      destruct (IsIncompatibleFound plat StructDb st0 Index); [|reflexivity].
      cbn [length]. now rewrite Nat.iter_succ_r.
Qed.

Lemma IsAcpiStructTypeValid_mask plat StructDb (Index : nat) Entry :
  StructDb.Entries StructDb !! Index = Some Entry ->
  IsAcpiStructTypeValid plat (Z.of_nat Index) StructDb
  = MaskAccepted plat (StructInfo.CompatArch Entry).
Proof.
  intros HEntry. unfold IsAcpiStructTypeValid, MaskAccepted, StructDb.EntryCount.
  pose proof (lookup_lt_Some _ _ _ HEntry).
  destruct (Z.leb_spec (Z.of_nat (length (StructDb.Entries StructDb)))
                       (Z.of_nat Index)); [lia|].
  rewrite Nat2Z.id, HEntry. now destruct (MDE_CPU_ARM_OR_AARCH64 plat).
Qed.

Lemma CountReport_mask plat StructDb st Index :
  CountReport plat StructDb st Index = MaskReport plat StructDb st Index.
Proof.
  unfold CountReport, MaskReport.
  destruct (StructDb.Entries StructDb !! Index) as [Entry|] eqn:HEntry; [|reflexivity].
  now rewrite (IsAcpiStructTypeValid_mask plat StructDb Index Entry HEntry).
Qed.

Lemma IsIncompatibleFound_mask plat StructDb st Index :
  (Index < length (StructDb.Entries StructDb))%nat ->
  IsIncompatibleFound plat StructDb st Index = IsRejectedFound plat StructDb st Index.
Proof.
  intros Hlt. destruct (lookup_lt_is_Some_2 _ _ Hlt) as [Entry HEntry].
  unfold IsIncompatibleFound, IsRejectedFound.
  now rewrite HEntry, (IsAcpiStructTypeValid_mask plat StructDb Index Entry HEntry).
Qed.

Lemma ValidateAcpiStructCounts_masks plat (StructDb : ACPI_STRUCT_DATABASE)
  (st : State) :
  (forall Index, 0 <= GetCount StructDb Index st) ->
  let Indices := seq 0 (length (StructDb.Entries StructDb)) in
  let r := ValidateAcpiStructCounts plat StructDb st in
  fst r = forallb (fun Index => negb (IsRejectedFound plat StructDb st Index)) Indices
  /\ ConOut (snd r)
     = ConOut st ++ EvTableBreakdown :: flat_map (MaskReport plat StructDb st) Indices
  /\ mTableErrorCount (snd r)
     = Nat.iter (length (List.filter (IsRejectedFound plat StructDb st) Indices))
                (fun Count => wrap32 (Count + 1)) (mTableErrorCount st)
  /\ StructCounts (snd r) = StructCounts st.
Proof.
  intros Hpos Indices r.
  assert (Hin : Forall (fun Index => (Index < length (StructDb.Entries StructDb))%nat)
                       Indices).
  { apply List.Forall_forall. intros Index H. apply in_seq in H. lia. }
  destruct (ValidateCountStep_fold plat StructDb st Indices Hpos Hin true
              (PrintEv EvTableBreakdown st) eq_refl) as (H1 & H2 & H3 & H4).
  change (fold_left _ _ _) with r in H1, H2, H3, H4.
  assert (HF : List.filter (IsIncompatibleFound plat StructDb st) Indices
               = List.filter (IsRejectedFound plat StructDb st) Indices).
  { apply List.filter_ext_in. intros Index HI.
    apply IsIncompatibleFound_mask. apply in_seq in HI. lia. }
  assert (HA : forallb (fun Index => negb (IsIncompatibleFound plat StructDb st Index))
                       Indices
               = forallb (fun Index => negb (IsRejectedFound plat StructDb st Index))
                         Indices).
  { rewrite List.Forall_forall in Hin. clear -Hin.
    induction Indices as [|Index Indices IH]; [reflexivity|]. cbn [forallb].
    rewrite IsIncompatibleFound_mask by (apply Hin; now left).
    rewrite IH by (intros x Hx; apply Hin; now right). reflexivity. }
  split; [rewrite H1; cbn [andb]; exact HA|]. split; [|split].
  - rewrite H2, ConOut_PrintEv, <- app_assoc. cbn [app]. f_equal. f_equal.
    apply List.flat_map_ext. intros Index. apply CountReport_mask.
  - rewrite H3, HF. reflexivity.
  - exact H4.
Qed.

(** C6, as the code has it. [ValidateAcpiStructCounts] returns TRUE
    exactly when every entry whose mask the build does not accept has a
    count of zero, where an ARM or AArch64 build accepts a mask with the
    ARM or the AARCH64 bit and any other build accepts every mask that is
    not empty. After the heading it prints, entry by entry, the count of
    each accepted entry (a zero count too) and an error for each entry
    that is not accepted and has a nonzero count; the error counter is
    incremented once per such entry, and no instance count changes. *)
Theorem ValidateAcpiStructCounts_spec plat (StructDb : ACPI_STRUCT_DATABASE)
  (st : State) :
  (forall Index, 0 <= GetCount StructDb Index st) ->
  let Indices := seq 0 (length (StructDb.Entries StructDb)) in
  let r := ValidateAcpiStructCounts plat StructDb st in
  (fst r = true <->
   forall Index Entry, StructDb.Entries StructDb !! Index = Some Entry ->
     MaskAccepted plat (StructInfo.CompatArch Entry) = false ->
     GetCount StructDb Index st = 0)
  /\ ConOut (snd r)
     = ConOut st ++ EvTableBreakdown :: flat_map (MaskReport plat StructDb st) Indices
  /\ mTableErrorCount (snd r)
     = Nat.iter (length (List.filter (IsRejectedFound plat StructDb st) Indices))
                (fun Count => wrap32 (Count + 1)) (mTableErrorCount st)
  /\ StructCounts (snd r) = StructCounts st.
Proof.
  intros Hpos Indices r.
  destruct (ValidateAcpiStructCounts_masks plat StructDb st Hpos) as (H1 & H2 & H3 & H4).
  fold Indices in H1, H2, H3. fold r in H1, H2, H3, H4.
  split; [|auto]. rewrite H1, forallb_forall. split.
  - intros Hall Index Entry HEntry Hmask.
    assert (HI : In Index Indices)
      by (apply in_seq; pose proof (lookup_lt_Some _ _ _ HEntry); lia).
    specialize (Hall Index HI). unfold IsRejectedFound in Hall.
    rewrite HEntry, Hmask in Hall. cbn [negb andb] in Hall.
    destruct (Z.eqb_spec (GetCount StructDb Index st) 0); [assumption|discriminate].
  - intros Hall Index HI. unfold IsRejectedFound.
    destruct (StructDb.Entries StructDb !! Index) as [Entry|] eqn:HEntry; [|reflexivity].
    destruct (MaskAccepted plat (StructInfo.CompatArch Entry)) eqn:Hmask;
      [reflexivity|].
    rewrite (Hall Index Entry HEntry Hmask). reflexivity.
Qed.

Lemma counts_nonnegative StructDb st :
  map_Forall (fun _ Count => 0 <= Count) (StructCounts st) ->
  forall Index, 0 <= GetCount StructDb Index st.
Proof.
  intros Hall Index. unfold GetCount, CountAt.
  destruct (StructCounts st !! (StructDb.Name StructDb, Index)) as [Count|] eqn:E;
    cbn; [exact (Hall _ _ E) | lia].
Qed.

Lemma Arch4State_counts_nonnegative :
  forall Index, 0 <= GetCount Sample.Arch4 Index Sample.Arch4State.
Proof.
  apply counts_nonnegative. cbn. unfold Sample.Arch4Counts.
  apply map_Forall_insert_2; [lia|].
  apply map_Forall_insert_2; [lia|].
  apply map_Forall_empty.
Qed.

Lemma Arch4Found_counts_nonnegative :
  forall Index, 0 <= GetCount Sample.Arch4 Index Cases.Arch4Found.
Proof.
  apply counts_nonnegative. cbn.
  apply map_Forall_insert_2; [lia|].
  apply map_Forall_insert_2; [lia|].
  apply map_Forall_empty.
Qed.

Lemma ValidateAcpiStructCounts_spec_witness :
  let r := ValidateAcpiStructCounts (Sample.plat true) Sample.Arch4 Cases.Arch4Found in
  (forall Index, 0 <= GetCount Sample.Arch4 Index Cases.Arch4Found)
  /\ ConOut (snd r)
     = [EvTableBreakdown; EvInstanceCount "A" 2; EvArchInvalid "B" 1;
        EvInstanceCount "C" 0; EvInstanceCount "D" 0]
  /\ mTableErrorCount (snd r) = 1.
Proof.
  cbv zeta. split; [exact Arch4Found_counts_nonnegative|].
  destruct (ValidateAcpiStructCounts_spec (Sample.plat true) Sample.Arch4 Cases.Arch4Found
              Arch4Found_counts_nonnegative) as (_ & H2 & H3 & _).
  split.
  - refine (eq_trans H2 _). vm_compute. reflexivity.
  - refine (eq_trans H3 _). vm_compute. reflexivity.
Defined.

(** C6, as stated, fails on a build that is neither ARM nor AArch64: on
    an X64 build the GICC entry of the MADT, whose mask has the ARM and
    AARCH64 bits only, is not compatible with the target; found once, it
    is printed with its count, no error is counted and TRUE is returned. *)
Lemma ValidateAcpiStructCounts_counterexample :
  let plat := Cases.plat_x64 in
  let Db := MadtDatabase plat (Sample.MemOf []) in
  let r := ValidateAcpiStructCounts plat Db Cases.GiccFound in
  MDE_CPU_ARM_OR_AARCH64 plat = false
  /\ (exists Entry,
        StructDb.Entries Db !! 11%nat = Some Entry
        /\ StructInfo.Name Entry = "GICC"%string
        /\ CompatibleWith (ARCH_COMPAT_X64 plat) Entry = false
        /\ GetCount Db 11 Cases.GiccFound = 1)
  /\ fst r = true
  /\ mTableErrorCount (snd r) = mTableErrorCount Cases.GiccFound
  /\ In (EvInstanceCount "GICC" 1) (ConOut (snd r))
  /\ ~ (fst r = true <->
        forall Index Entry, StructDb.Entries Db !! Index = Some Entry ->
          CompatibleWith (ARCH_COMPAT_X64 plat) Entry = false ->
          GetCount Db Index Cases.GiccFound = 0).
Proof.
  cbv zeta. split; [reflexivity|]. split.
  { eexists. split; [reflexivity|]. repeat split. }
  split; [vm_compute; reflexivity|]. split; [vm_compute; reflexivity|].
  split; [vm_compute; tauto|].
  intros [Hall _].
  specialize (Hall ltac:(vm_compute; reflexivity) 11%nat _ eq_refl eq_refl).
  vm_compute in Hall. discriminate Hall.
Qed.

(** The scenario of the design document: on an ARM target, counts
    [A:2, B:0, C:1, D:0] are valid, and A, C and D are printed. *)
Example ValidateAcpiStructCounts_arm_scenario :
  let r := ValidateAcpiStructCounts (Sample.plat true) Sample.Arch4 Sample.Arch4State in
  fst r = true /\ mTableErrorCount (snd r) = 0.
Proof. vm_compute. split; reflexivity. Qed.

(** ** What [ParseAcpi] leaves alone *)

Lemma EngineFrame_IndentDepth : EngineFrame IndentDepth.
Proof. split; reflexivity. Qed.

Lemma EngineFrame_StructCounts : EngineFrame StructCounts.
Proof. split; reflexivity. Qed.

Lemma ItemPtrKept_ignored {A : Type} (f : State -> A) (Parser : list ACPI_PARSER) :
  IgnoresItemPtrs f -> Forall (ItemPtrKept f) Parser.
Proof.
  intros Hf. apply List.Forall_forall. intros Field _. unfold ItemPtrKept.
  destruct (AcpiParser.ItemPtr Field); [|exact I].
  intros st. split; intros; apply Hf.
Qed.

Section Frame.

Variable plat : Platform.
Variable mem : Z -> byte.
Context {A : Type} (f : State -> A).
Hypothesis Hf : EngineFrame f.

Lemma frame_IncrementErrorCount st : f (IncrementErrorCount st) = f st.
Proof. apply (frame_ErrorCount f Hf). Qed.

Lemma frame_PrintFieldName Indent FieldName st :
  f (PrintFieldName Indent FieldName st) = f st.
Proof. apply (frame_PrintEv f Hf). Qed.

Lemma frame_CheckFieldOffset AsciiName Field Offset st :
  f (CheckFieldOffset plat AsciiName Field Offset st) = f st.
Proof.
  unfold CheckFieldOffset.
  destruct (GetConsistencyChecking plat && negb (Offset =? AcpiParser.Offset Field));
    [|reflexivity].
  now rewrite (frame_PrintEv f Hf), frame_IncrementErrorCount.
Qed.

Lemma frame_DumpByLength AsciiName Field Format Ptr st :
  f (DumpByLength mem AsciiName Field Format Ptr st) = f st.
Proof.
  unfold DumpByLength, DumpUint8, DumpUint16, DumpUint32, DumpUint64.
  repeat match goal with |- context [if ?c then _ else _] => destruct c end;
    apply (frame_PrintEv f Hf).
Qed.

Lemma frame_ValidateField Field Ptr st :
  FieldPreserves f Field -> f (ValidateField plat Field Ptr st) = f st.
Proof.
  intros [_ HV]. unfold ValidateField.
  destruct (GetConsistencyChecking plat); [|reflexivity].
  destruct (AcpiParser.FieldValidator Field) as [Validator|] eqn:E; [|reflexivity].
  now apply HV.
Qed.

Lemma frame_TraceField AsciiName Field Ptr st :
  FieldPreserves f Field -> f (TraceField plat mem AsciiName Field Ptr st) = f st.
Proof.
  intros HF. unfold TraceField. rewrite (frame_PrintEv f Hf).
  destruct (AcpiParser.PrintFormatter Field) as [Formatter|] eqn:E.
  - destruct HF as [HP _]. rewrite (HP Formatter) by assumption.
    apply frame_PrintFieldName.
  - destruct (AcpiParser.Format Field) as [Format|].
    + now rewrite frame_ValidateField, frame_DumpByLength, frame_PrintFieldName.
    + apply frame_PrintFieldName.
Qed.

Lemma frame_StoreItemPtr Field Ptr st :
  ItemPtrKept f Field -> f (StoreItemPtr Field Ptr st) = f st.
Proof.
  unfold StoreItemPtr, ItemPtrKept.
  destruct (AcpiParser.ItemPtr Field); [|reflexivity].
  intros HK. apply (HK st).
Qed.

Lemma frame_ClearItemPtr Field st :
  ItemPtrKept f Field -> f (ClearItemPtr Field st) = f st.
Proof.
  unfold ClearItemPtr, ItemPtrKept.
  destruct (AcpiParser.ItemPtr Field); [|reflexivity].
  intros HK. apply (HK st).
Qed.

Lemma frame_ParseAcpiField Trace AsciiName Field Ptr Offset st :
  FieldPreserves f Field -> ItemPtrKept f Field ->
  f (ParseAcpiField plat mem Trace AsciiName Field Ptr Offset st) = f st.
Proof.
  intros HF HK. unfold ParseAcpiField. rewrite frame_StoreItemPtr by assumption.
  destruct Trace.
  - now rewrite frame_TraceField, frame_CheckFieldOffset.
  - apply frame_CheckFieldOffset.
Qed.

Lemma frame_ParseAcpiFields Trace AsciiName Length Parser :
  Forall (FieldPreserves f) Parser ->
  Forall (ItemPtrKept f) Parser ->
  forall Ptr Offset st,
    f (snd (ParseAcpiFields plat mem Trace AsciiName Length Parser Ptr Offset st))
    = f st.
Proof.
  induction 1 as [|Field Parser HF _ IH]; intros HK Ptr Offset st; [reflexivity|].
  apply Forall_cons_1 in HK as [HK HKs]. cbn [ParseAcpiFields].
  destruct (Length <? wrap32 (Offset + AcpiParser.Length Field)).
  - rewrite IH by assumption. now apply frame_ClearItemPtr.
  - rewrite IH by assumption. now apply frame_ParseAcpiField.
Qed.

Lemma frame_ParseAcpiEnter Trace Indent AsciiName st :
  f (ParseAcpiEnter plat Trace Indent AsciiName st)
  = f (set_gIndent (wrap32 (gIndent st + Indent)) st).
Proof.
  unfold ParseAcpiEnter. destruct Trace; [|reflexivity].
  destruct AsciiName as [Name|]; [|reflexivity].
  destruct (GetColourHighlighting plat).
  - now rewrite (frame_Attribute f Hf), (frame_PrintEv f Hf), (frame_Attribute f Hf).
  - now rewrite (frame_PrintEv f Hf).
Qed.

(** An observation that does not depend on [gIndent] either survives a
    whole call of [ParseAcpi]. *)
Lemma frame_ParseAcpi Trace Indent AsciiName Ptr Length Parser st :
  (forall v st, f (set_gIndent v st) = f st) ->
  Forall (FieldPreserves f) Parser ->
  Forall (ItemPtrKept f) Parser ->
  f (snd (ParseAcpi plat mem Trace Indent AsciiName Ptr Length Parser st)) = f st.
Proof.
  intros Hg HP HK. unfold ParseAcpi.
  pose proof (frame_ParseAcpiFields Trace AsciiName Length Parser HP HK Ptr 0
                (ParseAcpiEnter plat Trace Indent AsciiName st)) as H.
  destruct (ParseAcpiFields _ _ _ _ _ _ _ _ _) as [[Ptr' Offset'] st'].
  cbn in *. now rewrite Hg, H, frame_ParseAcpiEnter, Hg.
Qed.

End Frame.

(** ** The indent *)

(** A descriptor without formatter and validator preserves everything. *)
Lemma FieldPreserves_plain {A : Type} (f : State -> A) Field :
  AcpiParser.PrintFormatter Field = None ->
  AcpiParser.FieldValidator Field = None ->
  FieldPreserves f Field.
Proof. intros H1 H2. split; intros; congruence. Qed.

Ltac by_computation :=
  repeat split; first [reflexivity | vm_compute; discriminate].

Ltac plain_fields :=
  repeat (apply List.Forall_cons; [apply FieldPreserves_plain; reflexivity|]);
  try apply List.Forall_nil.

Lemma IndentDepth_set_gIndent v st : IndentDepth (set_gIndent v st) = wrap32 v.
Proof. reflexivity. Qed.

Lemma wrap32_idem z : wrap32 (wrap32 z) = wrap32 z.
Proof. unfold wrap32. apply Zmod_mod. Qed.

Lemma IndentDepth_in_loop plat mem Trace Indent AsciiName Length Parser Ptr st :
  Forall (FieldPreserves IndentDepth) Parser ->
  IndentDepth (snd (ParseAcpiFields plat mem Trace AsciiName Length Parser Ptr 0
                      (ParseAcpiEnter plat Trace Indent AsciiName st)))
  = wrap32 (gIndent st + Indent).
Proof.
  intros HP.
  rewrite (frame_ParseAcpiFields plat mem IndentDepth EngineFrame_IndentDepth)
    by (assumption || now apply ItemPtrKept_ignored).
  rewrite (frame_ParseAcpiEnter plat IndentDepth EngineFrame_IndentDepth).
  rewrite IndentDepth_set_gIndent. apply wrap32_idem.
Qed.

Lemma ParseAcpi_IndentDepth plat mem Trace Indent AsciiName Ptr Length Parser st :
  Forall (FieldPreserves IndentDepth) Parser ->
  gIndent (snd (ParseAcpi plat mem Trace Indent AsciiName Ptr Length Parser st))
  = IndentDepth st.
Proof.
  intros HP. unfold ParseAcpi.
  pose proof (IndentDepth_in_loop plat mem Trace Indent AsciiName Length Parser Ptr st HP) as H.
  destruct (ParseAcpiFields _ _ _ _ _ _ _ _ _) as [[Ptr' Offset'] st'].
  cbn in *. unfold IndentDepth in *.
  rewrite <- wrap32_sub_l, H, wrap32_sub_l. f_equal. lia.
Qed.

Lemma ParseAcpi_preserves_IndentDepth plat mem Trace Indent AsciiName Ptr Length Parser st :
  Forall (FieldPreserves IndentDepth) Parser ->
  IndentDepth (snd (ParseAcpi plat mem Trace Indent AsciiName Ptr Length Parser st))
  = IndentDepth st.
Proof.
  intros HP. unfold IndentDepth at 1. rewrite ParseAcpi_IndentDepth by assumption.
  apply wrap32_idem.
Qed.

(** The formatter of a nested Generic Address Structure calls [ParseAcpi]
    itself, and preserves the indent. *)
Lemma DumpGas_preserves_IndentDepth plat mem Format Ptr st :
  IndentDepth (DumpGas plat mem Format Ptr st) = IndentDepth st.
Proof.
  unfold DumpGas, DumpGasStruct.
  rewrite ParseAcpi_preserves_IndentDepth; [reflexivity|].
  unfold GasParser. plain_fields.
Qed.

(** [ParseAcpiStruct] preserves the indent as well, whichever way the
    structure is decoded. *)
Lemma ParseAcpiStruct_preserves_IndentDepth plat mem Indent Ptr StructDb Offset
  StructType Length OptArg0 OptArg1 st :
  Forall (fun Entry => HandlerPreserves IndentDepth (StructInfo.Handler Entry))
         (StructDb.Entries StructDb) ->
  IndentDepth (snd (ParseAcpiStruct plat mem Indent Ptr StructDb Offset StructType
                                    Length OptArg0 OptArg1 st))
  = IndentDepth st.
Proof.
  intros HDb. unfold ParseAcpiStruct.
  destruct (StructDb.EntryCount StructDb <=? StructType); [reflexivity|].
  destruct (StructDb.Entries StructDb !! Z.to_nat StructType) as [Entry|] eqn:E;
    [|reflexivity].
  rewrite List.Forall_forall in HDb.
  specialize (HDb Entry (proj1 (list_elem_of_In _ _) (list_elem_of_lookup_2 _ _ _ E))).
  unfold HandlerPreserves in HDb.
  destruct (StructInfo.ParserFunc (StructInfo.Handler Entry)) as [Func|].
  - cbn. unfold IndentDepth at 1. cbn. fold (IndentDepth (Func Ptr Length OptArg0 OptArg1
      (PrintEv (EvStructOffset Offset) (PrintFieldName Indent (Some "* Offset *"%string) st)))).
    now rewrite HDb.
  - destruct (StructInfo.ParserArray (StructInfo.Handler Entry)) as [Array|];
      [|reflexivity].
    match goal with |- context [ParseAcpi ?p ?m ?t ?i ?n ?ptr ?l ?a ?s] =>
      pose proof (ParseAcpi_preserves_IndentDepth p m t i n ptr l a s HDb) as H;
      destruct (ParseAcpi p m t i n ptr l a s) as [Offset' st'] end.
    cbn in *. exact H.
Qed.

(** C9. Every call of [ParseAcpi] returns with [gIndent] at the value it
    had on entry, for any descriptor list, buffer and trace flag, given
    that the formatters and validators it calls do so; while the loop
    runs, after any number of descriptors, the indent is the entry value
    plus [Indent]. The same holds when the call is the nested one that
    [ParseAcpiStruct] makes for an entry decoded by this descriptor list. *)
Theorem ParseAcpi_restores_gIndent plat mem (Trace : bool) (Indent : Z)
  (AsciiName : option string) (Ptr Length : Z) (Parser : list ACPI_PARSER)
  (st : State) :
  uint32 (gIndent st) ->
  Forall (FieldPreserves IndentDepth) Parser ->
  gIndent (snd (ParseAcpi plat mem Trace Indent AsciiName Ptr Length Parser st))
  = gIndent st
  /\ (forall n,
       IndentDepth (snd (ParseAcpiFields plat mem Trace AsciiName Length
                           (take n Parser) Ptr 0
                           (ParseAcpiEnter plat Trace Indent AsciiName st)))
       = wrap32 (gIndent st + Indent))
  /\ (forall StructDb Offset StructType Name CompatArch,
       StructType < StructDb.EntryCount StructDb ->
       StructDb.Entries StructDb !! Z.to_nat StructType
       = Some (ADD_ACPI_STRUCT_INFO_ARRAY Name StructType CompatArch Parser) ->
       gIndent (snd (ParseAcpiStruct plat mem Indent Ptr StructDb Offset StructType
                                     Length None None st))
       = gIndent st).
Proof.
  intros Hg HP. split; [|split].
  - rewrite ParseAcpi_IndentDepth by assumption. now apply wrap32_small.
  - intros n. apply IndentDepth_in_loop. now apply Forall_take.
  - intros StructDb Offset StructType Name CompatArch Hlt HEntry.
    unfold ParseAcpiStruct.
    destruct (Z.leb_spec (StructDb.EntryCount StructDb) StructType); [lia|].
    rewrite HEntry. cbn [ADD_ACPI_STRUCT_INFO_ARRAY StructInfo.Handler
                         StructInfo.ParserFunc StructInfo.ParserArray StructInfo.Name].
    match goal with |- context [ParseAcpi ?p ?m ?t ?i ?n ?ptr ?l ?a ?s] =>
      pose proof (ParseAcpi_IndentDepth p m t i n ptr l a s HP) as HA;
      destruct (ParseAcpi p m t i n ptr l a s) as [Offset' st'] end.
    cbn [snd] in *. cbn. rewrite HA. now apply wrap32_small.
Qed.

Lemma WithGas_preserves_IndentDepth :
  Forall (FieldPreserves IndentDepth) Sample.WithGas.
Proof.
  unfold Sample.WithGas.
  apply List.Forall_cons; [apply FieldPreserves_plain; reflexivity|].
  apply List.Forall_cons; [|apply List.Forall_nil].
  split; cbn; intros ? ? ? ? H; [|discriminate].
  injection H as <-. apply DumpGas_preserves_IndentDepth.
Qed.

Lemma ParseAcpi_restores_gIndent_witness :
  uint32 (gIndent Sample.InitialState)
  /\ gIndent (snd (ParseAcpi (Sample.plat true) (Sample.MemOf Sample.GasBytes)
                     true 4 (Some "Sample"%string) 0 16 Sample.WithGas
                     Sample.InitialState)) = 0.
Proof.
  assert (Hg : uint32 (gIndent Sample.InitialState)) by (cbn; unfold uint32; lia).
  split; [exact Hg|].
  exact (proj1 (ParseAcpi_restores_gIndent (Sample.plat true)
                  (Sample.MemOf Sample.GasBytes) true 4 (Some "Sample"%string) 0 16
                  Sample.WithGas Sample.InitialState Hg
                  WithGas_preserves_IndentDepth)).
Defined.

(** ** Instance counts under [ParseAcpiStruct] *)

Lemma StructCounts_IncrementCount StructDb Index st :
  StructCounts (IncrementCount StructDb Index st)
  = <[(StructDb.Name StructDb, Index) := wrap32 (GetCount StructDb Index st + 1)]>
      (StructCounts st).
Proof. reflexivity. Qed.

Lemma ParseAcpiStruct_StructCounts plat mem Indent Ptr StructDb Offset StructType
  Length OptArg0 OptArg1 st Entry :
  StructType < StructDb.EntryCount StructDb ->
  StructDb.Entries StructDb !! Z.to_nat StructType = Some Entry ->
  HandlerPreserves StructCounts (StructInfo.Handler Entry) ->
  StructCounts (snd (ParseAcpiStruct plat mem Indent Ptr StructDb Offset StructType
                                     Length OptArg0 OptArg1 st))
  = <[(StructDb.Name StructDb, Z.to_nat StructType)
        := wrap32 (GetCount StructDb (Z.to_nat StructType) st + 1)]> (StructCounts st).
Proof.
  intros Hlt HEntry HH. unfold ParseAcpiStruct.
  destruct (Z.leb_spec (StructDb.EntryCount StructDb) StructType); [lia|].
  rewrite HEntry. unfold HandlerPreserves in HH.
  set (st1 := PrintEv (EvStructOffset Offset)
                (PrintFieldName Indent (Some "* Offset *"%string) st)).
  assert (H1 : StructCounts st1 = StructCounts st) by reflexivity.
  destruct (StructInfo.ParserFunc (StructInfo.Handler Entry)) as [Func|].
  - cbn [snd]. rewrite StructCounts_IncrementCount.
    rewrite (GetCount_same_counts StructDb _ _ st), HH; [reflexivity|].
    now rewrite HH.
  - destruct (StructInfo.ParserArray (StructInfo.Handler Entry)) as [Array|].
    + match goal with |- context [ParseAcpi ?p ?m ?t ?i ?n ?ptr ?l ?a ?s] =>
        pose proof (frame_ParseAcpi p m StructCounts EngineFrame_StructCounts
                      t i n ptr l a s (fun _ _ => eq_refl) HH
                      (ItemPtrKept_ignored StructCounts a (fun _ _ => eq_refl))) as HP;
        destruct (ParseAcpi p m t i n ptr l a s) as [Offset' st'] end.
      cbn [snd] in *. rewrite StructCounts_IncrementCount.
      rewrite (GetCount_same_counts StructDb _ _ st), HP; [reflexivity|].
      now rewrite HP.
    + cbn [snd]. reflexivity.
Qed.

(** C5. With a type code inside the database, [ParseAcpiStruct] adds one
    (in [UINT32] arithmetic) to the instance count of that entry and
    leaves every other count as it was, whether the entry has a parser
    function, a parser array or neither; it returns FALSE only in the last
    case. The handler of the entry is assumed not to write the counts
    itself. *)
Theorem ParseAcpiStruct_counts_once plat mem (Indent Ptr : Z)
  (StructDb : ACPI_STRUCT_DATABASE) (Offset StructType Length : Z)
  (OptArg0 OptArg1 : option Z) (st : State) (Entry : ACPI_STRUCT_INFO) :
  0 <= StructType < StructDb.EntryCount StructDb ->
  StructDb.Entries StructDb !! Z.to_nat StructType = Some Entry ->
  HandlerPreserves StructCounts (StructInfo.Handler Entry) ->
  let Index := Z.to_nat StructType in
  let r := ParseAcpiStruct plat mem Indent Ptr StructDb Offset StructType Length
                           OptArg0 OptArg1 st in
  GetCount StructDb Index (snd r) = wrap32 (GetCount StructDb Index st + 1)
  /\ (uint32 (GetCount StructDb Index st + 1) ->
      GetCount StructDb Index (snd r) = GetCount StructDb Index st + 1)
  /\ (forall DbName Index', (DbName, Index') <> (StructDb.Name StructDb, Index) ->
      CountAt DbName Index' (snd r) = CountAt DbName Index' st)
  /\ fst r = match StructInfo.ParserFunc (StructInfo.Handler Entry),
                   StructInfo.ParserArray (StructInfo.Handler Entry) with
             | None, None => false
             | _, _ => true
             end.
Proof.
  intros [Hpos Hlt] HEntry HH Index r.
  pose proof (ParseAcpiStruct_StructCounts plat mem Indent Ptr StructDb Offset
                StructType Length OptArg0 OptArg1 st Entry Hlt HEntry HH) as HC.
  fold Index r in HC.
  assert (Hnew : GetCount StructDb Index (snd r)
                 = wrap32 (GetCount StructDb Index st + 1)).
  { unfold GetCount at 1, CountAt. rewrite HC, lookup_insert_eq. reflexivity. }
  split; [exact Hnew|]. split; [|split].
  - intros Hrange. rewrite Hnew. now apply wrap32_small.
  - intros DbName Index' Hne. unfold CountAt. rewrite HC.
    rewrite lookup_insert_ne by congruence. reflexivity.
  - subst r. unfold ParseAcpiStruct.
    destruct (Z.leb_spec (StructDb.EntryCount StructDb) StructType); [lia|].
    rewrite HEntry.
    destruct (StructInfo.ParserFunc (StructInfo.Handler Entry)); [reflexivity|].
    destruct (StructInfo.ParserArray (StructInfo.Handler Entry)); [|reflexivity].
    now destruct (ParseAcpi _ _ _ _ _ _ _ _ _).
Qed.

(** ** The tables of the MADT and PPTT parsers satisfy the frame conditions *)

Section TableFrame.

Variable plat : Platform.
Variable mem : Z -> byte.
Context {A : Type} (f : State -> A).
Hypothesis Hf : EngineFrame f.
(** [f] survives a call of [ParseAcpi] whose descriptors preserve it,
    and it does not see the pointer to the number of private resources. *)
Hypothesis HParse :
  forall Trace Indent AsciiName Ptr Length Parser st,
    Forall (FieldPreserves f) Parser ->
    Forall (ItemPtrKept f) Parser ->
    f (snd (ParseAcpi plat mem Trace Indent AsciiName Ptr Length Parser st)) = f st.
Hypothesis HResources : ItemKept f "NumberOfPrivateResources".

Ltac frame_steps :=
  repeat match goal with |- context [if ?c then _ else _] => destruct c end;
  unfold IncrementErrorCount, IncrementWarningCount;
  rewrite ?(frame_PrintEv f Hf), ?(frame_ErrorCount f Hf), ?(frame_WarningCount f Hf);
  reflexivity.

Lemma frame_ValidateGICDSystemVectorBase Ptr Context st :
  f (ValidateGICDSystemVectorBase mem Ptr Context st) = f st.
Proof. unfold ValidateGICDSystemVectorBase. frame_steps. Qed.

Lemma frame_ValidateSpeOverflowInterrupt Ptr Context st :
  f (ValidateSpeOverflowInterrupt plat mem Ptr Context st) = f st.
Proof. unfold ValidateSpeOverflowInterrupt. cbv zeta. frame_steps. Qed.

Lemma frame_ValidateCacheNumberOfSets Ptr Context st :
  f (ValidateCacheNumberOfSets plat mem Ptr Context st) = f st.
Proof. unfold ValidateCacheNumberOfSets. cbv zeta. frame_steps. Qed.

Lemma frame_ValidateCacheAssociativity Ptr Context st :
  f (ValidateCacheAssociativity mem Ptr Context st) = f st.
Proof. unfold ValidateCacheAssociativity. cbv zeta. frame_steps. Qed.

Lemma frame_ValidateCacheLineSize Ptr Context st :
  f (ValidateCacheLineSize plat mem Ptr Context st) = f st.
Proof. unfold ValidateCacheLineSize. cbv zeta. frame_steps. Qed.

Lemma frame_ValidateCacheAttributes Ptr Context st :
  f (ValidateCacheAttributes mem Ptr Context st) = f st.
Proof. unfold ValidateCacheAttributes. cbv zeta. frame_steps. Qed.

Lemma FieldPreserves_validator Field Validator :
  AcpiParser.PrintFormatter Field = None ->
  AcpiParser.FieldValidator Field = Some Validator ->
  (forall Ptr Context st, f (Validator Ptr Context st) = f st) ->
  FieldPreserves f Field.
Proof.
  intros HP HV H. split; intros; [congruence|].
  assert (Validator0 = Validator) by congruence. subst. apply H.
Qed.

Lemma FieldPreserves_formatter Field Formatter :
  AcpiParser.PrintFormatter Field = Some Formatter ->
  AcpiParser.FieldValidator Field = None ->
  (forall Format Ptr st, f (Formatter Format Ptr st) = f st) ->
  FieldPreserves f Field.
Proof.
  intros HP HV H. split; intros; [|congruence].
  assert (Formatter0 = Formatter) by congruence. subst. apply H.
Qed.

Ltac table_fields :=
  repeat (apply List.Forall_cons;
          [ first
              [ apply FieldPreserves_plain; reflexivity
              | eapply FieldPreserves_validator;
                [reflexivity | reflexivity | intros; first
                  [ apply frame_ValidateGICDSystemVectorBase
                  | apply frame_ValidateSpeOverflowInterrupt
                  | apply frame_ValidateCacheNumberOfSets
                  | apply frame_ValidateCacheAssociativity
                  | apply frame_ValidateCacheLineSize
                  | apply frame_ValidateCacheAttributes ] ]
              | eapply FieldPreserves_formatter;
                [reflexivity | reflexivity | intros; apply (frame_PrintEv f Hf)] ]
          | ]);
  try apply List.Forall_nil.

Lemma frame_DumpPrivateResources Remaining : forall Ptr Offset Index st,
  f (DumpPrivateResources plat mem Remaining Ptr Offset Index st) = f st.
Proof.
  induction Remaining as [|n IH]; intros; cbn [DumpPrivateResources]; [reflexivity|].
  cbv zeta. rewrite IH, (frame_PrintEv f Hf). apply (frame_PrintEv f Hf).
Qed.

Lemma frame_DumpProcessorHierarchyNodeStructure Ptr Length OptArg0 OptArg1 st :
  f (DumpProcessorHierarchyNodeStructure plat mem Ptr Length OptArg0 OptArg1 st) = f st.
Proof.
  unfold DumpProcessorHierarchyNodeStructure. cbv zeta.
  match goal with |- context [ParseAcpi ?p ?m ?t ?i ?n ?ptr ?l ?a ?s] =>
    assert (HP : f (snd (ParseAcpi p m t i n ptr l a s)) = f st)
      by (apply HParse; unfold ProcessorHierarchyNodeStructureParser;
          [table_fields | repeat (apply List.Forall_cons; [first [exact I | exact HResources]|]);
                          apply List.Forall_nil]);
    destruct (ParseAcpi p m t i n ptr l a s) as [Offset st'] end.
  cbn [snd] in HP.
  destruct (ItemPtrs st' !! _).
  - destruct (_ <? _).
    + now rewrite (frame_PrintEv f Hf), (frame_IncrementErrorCount f Hf).
    + now rewrite frame_DumpPrivateResources.
  - now rewrite (frame_PrintEv f Hf), (frame_IncrementErrorCount f Hf).
Qed.

Ltac no_item_ptrs :=
  repeat (apply List.Forall_cons; [exact I|]); apply List.Forall_nil.

Lemma MadtDatabase_handlers :
  Forall (fun Entry => HandlerKeeps f (StructInfo.Handler Entry))
         (StructDb.Entries (MadtDatabase plat mem)).
Proof.
  cbn. unfold MadtStructs. cbv zeta.
  repeat (apply List.Forall_cons; [split; exact I|]).
  repeat (apply List.Forall_cons;
          [split; cbn; unfold GicCParser, GicDParser, GicMSIFrameParser, GicRParser,
                              GicITSParser; [table_fields | no_item_ptrs]|]).
  apply List.Forall_nil.
Qed.

Lemma PpttDatabase_handlers :
  Forall (fun Entry => HandlerKeeps f (StructInfo.Handler Entry))
         (StructDb.Entries (PpttDatabase plat mem)).
Proof.
  cbn. unfold PpttStructs. cbv zeta.
  apply List.Forall_cons.
  { split; [|exact I]. cbn. intros. apply frame_DumpProcessorHierarchyNodeStructure. }
  repeat (apply List.Forall_cons;
          [split; cbn; unfold CacheTypeStructureParser, IdStructureParser;
           [table_fields | no_item_ptrs]|]).
  apply List.Forall_nil.
Qed.

End TableFrame.

Lemma HandlerKeeps_preserves {A : Type} (f : State -> A) Entries :
  Forall (fun Entry => HandlerKeeps f (StructInfo.Handler Entry)) Entries ->
  Forall (fun Entry : ACPI_STRUCT_INFO => HandlerPreserves f (StructInfo.Handler Entry))
         Entries.
Proof. intros H. eapply Forall_impl; [exact H|]. now intros Entry [HP _]. Qed.

Lemma ItemKept_ignored {A : Type} (f : State -> A) Item :
  IgnoresItemPtrs f -> ItemKept f Item.
Proof. intros Hf st. split; intros; apply Hf. Qed.

Lemma PpttDatabase_preserves_StructCounts plat mem :
  Forall (fun Entry => HandlerPreserves StructCounts (StructInfo.Handler Entry))
         (StructDb.Entries (PpttDatabase plat mem)).
Proof.
  apply HandlerKeeps_preserves, PpttDatabase_handlers.
  - exact EngineFrame_StructCounts.
  - intros. apply frame_ParseAcpi; auto using EngineFrame_StructCounts.
  - now apply ItemKept_ignored.
Qed.

Lemma MadtDatabase_preserves_StructCounts plat mem :
  Forall (fun Entry => HandlerPreserves StructCounts (StructInfo.Handler Entry))
         (StructDb.Entries (MadtDatabase plat mem)).
Proof.
  apply HandlerKeeps_preserves, MadtDatabase_handlers. exact EngineFrame_StructCounts.
Qed.

Lemma PpttDatabase_preserves_IndentDepth plat mem :
  Forall (fun Entry => HandlerPreserves IndentDepth (StructInfo.Handler Entry))
         (StructDb.Entries (PpttDatabase plat mem)).
Proof.
  apply HandlerKeeps_preserves, PpttDatabase_handlers.
  - exact EngineFrame_IndentDepth.
  - intros. now apply ParseAcpi_preserves_IndentDepth.
  - now apply ItemKept_ignored.
Qed.

Lemma MadtDatabase_preserves_IndentDepth plat mem :
  Forall (fun Entry => HandlerPreserves IndentDepth (StructInfo.Handler Entry))
         (StructDb.Entries (MadtDatabase plat mem)).
Proof.
  apply HandlerKeeps_preserves, MadtDatabase_handlers. exact EngineFrame_IndentDepth.
Qed.

Lemma ParseAcpiStruct_counts_once_witness :
  (0 <= 1 < StructDb.EntryCount (PpttDatabase (Sample.plat true)
                                              (Sample.MemOf Sample.CacheBytes)))
  /\ GetCount (PpttDatabase (Sample.plat true) (Sample.MemOf Sample.CacheBytes)) 1
       (snd (ParseAcpiStruct (Sample.plat true) (Sample.MemOf Sample.CacheBytes) 2 0
               (PpttDatabase (Sample.plat true) (Sample.MemOf Sample.CacheBytes))
               36 1 24 None None Sample.InitialState))
     = 1.
Proof.
  assert (Hrange : 0 <= 1 < StructDb.EntryCount
                              (PpttDatabase (Sample.plat true)
                                            (Sample.MemOf Sample.CacheBytes)))
    by (unfold StructDb.EntryCount; cbn; lia).
  split; [exact Hrange|].
  exact (proj1 (ParseAcpiStruct_counts_once (Sample.plat true)
                  (Sample.MemOf Sample.CacheBytes) 2 0
                  (PpttDatabase (Sample.plat true) (Sample.MemOf Sample.CacheBytes))
                  36 1 24 None None Sample.InitialState _ Hrange eq_refl
                  (Forall_lookup_1 _ _ 1%nat _
                     (PpttDatabase_preserves_StructCounts (Sample.plat true)
                        (Sample.MemOf Sample.CacheBytes))
                     eq_refl))).
Defined.

(** The three decode strategies on concrete structures: the cache
    structure (parser array) and the processor structure (parser
    function) of the PPTT, an unimplemented MADT structure. *)
Example ParseAcpiStruct_strategies :
  let plat := Sample.plat true in
  let mem := Sample.MemOf Sample.CacheBytes in
  let Cache := ParseAcpiStruct plat mem 2 0 (PpttDatabase plat mem) 36 1 24
                               None None Sample.InitialState in
  let Processor := ParseAcpiStruct plat mem 2 0 (PpttDatabase plat mem) 36 0 20
                                   None None Sample.InitialState in
  let Apic := ParseAcpiStruct plat mem 2 0 (MadtDatabase plat mem) 44 0 8
                              None None Sample.InitialState in
  (fst Cache, map_to_list (StructCounts (snd Cache)), mTableErrorCount (snd Cache))
  = (true, [("Processor Topology Structure"%string, 1%nat, 1)], 0)
  /\ (fst Processor, map_to_list (StructCounts (snd Processor)))
     = (true, [("Processor Topology Structure"%string, 0%nat, 1)])
  /\ (fst Apic, map_to_list (StructCounts (snd Apic)))
     = (false, [("Interrupt Controller Structure"%string, 0%nat, 1)]).
Proof. vm_compute. repeat split. Qed.

(** ** Decoding a buffer that holds every field *)

Lemma SumLengths_nonneg Parser : LengthsOk Parser -> 0 <= SumLengths Parser.
Proof.
  induction 1 as [|Field Parser H _ IH]; cbn [SumLengths]; lia.
Qed.

Lemma SumLengths_app Parser1 Parser2 :
  SumLengths (Parser1 ++ Parser2) = SumLengths Parser1 + SumLengths Parser2.
Proof.
  induction Parser1 as [|Field Parser1 IH]; cbn [SumLengths app]; lia.
Qed.

(** When the fields from the running offset on all fit, the loop of
    [ParseAcpi] decodes each of them, at the running sum of the lengths. *)
Lemma ParseAcpiFields_fit plat mem Trace AsciiName Length Parser :
  LengthsOk Parser ->
  Length < 2 ^ 32 ->
  forall Ptr Offset st,
    0 <= Offset ->
    Offset + SumLengths Parser <= Length ->
    ParseAcpiFields plat mem Trace AsciiName Length Parser Ptr Offset st
    = (Ptr + SumLengths Parser, Offset + SumLengths Parser,
       DecodeFields plat mem Trace AsciiName Parser Ptr Offset st).
Proof.
  intros HL HLength. induction HL as [|Field Parser Hlen HL IH];
    intros Ptr Offset st HOffset Hfit;
    cbn [ParseAcpiFields SumLengths DecodeFields] in *.
  - now rewrite !Z.add_0_r.
  - pose proof (SumLengths_nonneg Parser HL) as Hrest.
    rewrite wrap32_small by (unfold uint32; lia).
    destruct (Z.ltb_spec Length (Offset + AcpiParser.Length Field)); [lia|].
    rewrite IH by lia. f_equal. f_equal; lia.
Qed.

Lemma OffsetMismatches_ConOut st st' :
  ConOut st = ConOut st' -> OffsetMismatches st = OffsetMismatches st'.
Proof. unfold OffsetMismatches. now intros ->. Qed.

Lemma OffsetMismatches_CheckFieldOffset plat AsciiName Field Offset st :
  OffsetMismatches (CheckFieldOffset plat AsciiName Field Offset st)
  = (OffsetMismatches st
     + if GetConsistencyChecking plat && negb (Offset =? AcpiParser.Offset Field)%Z
       then 1 else 0)%nat.
Proof.
  unfold CheckFieldOffset.
  destruct (GetConsistencyChecking plat && negb (Offset =? AcpiParser.Offset Field)).
  - rewrite OffsetMismatches_PrintEv. reflexivity.
  - lia.
Qed.

Lemma OffsetMismatches_DumpByLength mem AsciiName Field Format Ptr st :
  OffsetMismatches (DumpByLength mem AsciiName Field Format Ptr st)
  = OffsetMismatches st.
Proof.
  unfold DumpByLength, DumpUint8, DumpUint16, DumpUint32, DumpUint64.
  repeat match goal with |- context [if ?c then _ else _] => destruct c end;
    rewrite OffsetMismatches_PrintEv; cbn; lia.
Qed.

Lemma OffsetMismatches_TraceField plat mem AsciiName Field Ptr st :
  FieldPreserves OffsetMismatches Field ->
  OffsetMismatches (TraceField plat mem AsciiName Field Ptr st) = OffsetMismatches st.
Proof.
  intros [HP HV]. unfold TraceField, PrintFieldName.
  rewrite OffsetMismatches_PrintEv. cbn [IsOffsetMismatch]. rewrite Nat.add_0_r.
  assert (Hname : forall e, IsOffsetMismatch e = false ->
            OffsetMismatches (PrintEv e st) = OffsetMismatches st)
    by (intros e He; rewrite OffsetMismatches_PrintEv, He; lia).
  destruct (AcpiParser.PrintFormatter Field) as [Formatter|] eqn:E.
  - rewrite (HP Formatter) by reflexivity. now apply Hname.
  - destruct (AcpiParser.Format Field) as [Format|]; [|now apply Hname].
    unfold ValidateField.
    destruct (GetConsistencyChecking plat).
    + destruct (AcpiParser.FieldValidator Field) as [Validator|] eqn:EV.
      * rewrite (HV Validator) by reflexivity.
        rewrite OffsetMismatches_DumpByLength. now apply Hname.
      * rewrite OffsetMismatches_DumpByLength. now apply Hname.
    + rewrite OffsetMismatches_DumpByLength. now apply Hname.
Qed.

Lemma OffsetMismatches_ParseAcpiField plat mem Trace AsciiName Field Ptr Offset st :
  FieldPreserves OffsetMismatches Field ->
  OffsetMismatches (ParseAcpiField plat mem Trace AsciiName Field Ptr Offset st)
  = (OffsetMismatches st
     + if GetConsistencyChecking plat && negb (Offset =? AcpiParser.Offset Field)%Z
       then 1 else 0)%nat.
Proof.
  intros HF. unfold ParseAcpiField.
  rewrite (OffsetMismatches_ConOut (StoreItemPtr Field Ptr _)
             (if Trace
              then TraceField plat mem AsciiName Field Ptr
                     (CheckFieldOffset plat AsciiName Field Offset st)
              else CheckFieldOffset plat AsciiName Field Offset st)).
  - destruct Trace; [rewrite OffsetMismatches_TraceField by assumption|];
      apply OffsetMismatches_CheckFieldOffset.
  - unfold StoreItemPtr. now destruct (AcpiParser.ItemPtr Field).
Qed.

Lemma OffsetMismatches_DecodeFields plat mem Trace AsciiName Parser :
  Forall (FieldPreserves OffsetMismatches) Parser ->
  forall Ptr Offset st,
    OffsetMismatches (DecodeFields plat mem Trace AsciiName Parser Ptr Offset st)
    = (OffsetMismatches st
       + if GetConsistencyChecking plat then MismatchedOffsets Offset Parser else 0)%nat.
Proof.
  induction 1 as [|Field Parser HF _ IH]; intros Ptr Offset st;
    cbn [DecodeFields MismatchedOffsets].
  - destruct (GetConsistencyChecking plat); lia.
  - rewrite IH, OffsetMismatches_ParseAcpiField by assumption.
    rewrite (Z.eqb_sym Offset).
    destruct (GetConsistencyChecking plat);
      destruct (AcpiParser.Offset Field =? Offset); cbn; lia.
Qed.

Lemma OffsetMismatches_ParseAcpiEnter plat Trace Indent AsciiName st :
  OffsetMismatches (ParseAcpiEnter plat Trace Indent AsciiName st)
  = OffsetMismatches st.
Proof.
  unfold ParseAcpiEnter. destruct Trace; [|reflexivity].
  destruct AsciiName; [|reflexivity].
  destruct (GetColourHighlighting plat); cbn;
    unfold OffsetMismatches; cbn; rewrite List.filter_app, length_app; cbn; lia.
Qed.

(** A call of [ParseAcpi] on a buffer that holds all the fields returns
    the sum of the lengths and prints one offset mismatch per descriptor
    whose declared offset is not the running one, if checking is on. *)
Lemma ParseAcpi_fit plat mem Trace Indent AsciiName Ptr Length Parser st :
  LengthsOk Parser ->
  SumLengths Parser <= Length < 2 ^ 32 ->
  Forall (FieldPreserves OffsetMismatches) Parser ->
  let r := ParseAcpi plat mem Trace Indent AsciiName Ptr Length Parser st in
  fst r = SumLengths Parser
  /\ OffsetMismatches (snd r)
     = (OffsetMismatches st
        + if GetConsistencyChecking plat then MismatchedOffsets 0 Parser else 0)%nat.
Proof.
  intros HL [Hfit HLength] HP. unfold ParseAcpi.
  rewrite ParseAcpiFields_fit by (auto; lia). cbn [fst snd].
  split; [reflexivity|].
  rewrite (OffsetMismatches_ConOut (set_gIndent _ _)
             (DecodeFields plat mem Trace AsciiName Parser Ptr 0
                (ParseAcpiEnter plat Trace Indent AsciiName st))) by reflexivity.
  rewrite OffsetMismatches_DecodeFields by assumption.
  now rewrite OffsetMismatches_ParseAcpiEnter.
Qed.

Lemma MismatchedOffsets_consistent Parser : forall Start,
  ConsistentOffsets Start Parser = true -> MismatchedOffsets Start Parser = 0%nat.
Proof.
  induction Parser as [|Field Parser IH]; intros Start H;
    cbn [ConsistentOffsets MismatchedOffsets] in *; [reflexivity|].
  apply andb_prop in H as [H1 H2]. rewrite H1. cbv zeta. now apply IH.
Qed.






(** The nested Generic Address Structure is parsed with a consistent
    descriptor list over its 12 bytes. *)
Lemma DumpGas_no_mismatch plat mem Format Ptr st :
  OffsetMismatches (DumpGas plat mem Format Ptr st) = OffsetMismatches st.
Proof.
  unfold DumpGas, DumpGasStruct.
  assert (HL : LengthsOk GasParser)
    by (unfold LengthsOk, GasParser; repeat constructor; cbn; lia).
  assert (HP : Forall (FieldPreserves OffsetMismatches) GasParser)
    by (unfold GasParser; plain_fields).
  destruct (ParseAcpi_fit plat mem true 2 None Ptr 12 GasParser (PrintEv EvNewLine st)
              HL ltac:(by_computation) HP) as [_ H].
  rewrite H, OffsetMismatches_PrintEv, MismatchedOffsets_consistent by reflexivity.
  cbn [IsOffsetMismatch]. destruct (GetConsistencyChecking plat); lia.
Qed.


(** ** One wrong declared offset *)

Lemma LengthsOk_SetOffset Parser k Field Offset' :
  LengthsOk Parser -> Parser !! k = Some Field ->
  LengthsOk (<[k := SetOffset Offset' Field]> Parser).
Proof.
  intros HL Hk. apply Forall_insert; [exact HL|].
  cbn. exact (Forall_lookup_1 _ _ _ _ HL Hk).
Qed.

Lemma FieldPreserves_SetOffset {A : Type} (f : State -> A) Parser k Field Offset' :
  Forall (FieldPreserves f) Parser -> Parser !! k = Some Field ->
  Forall (FieldPreserves f) (<[k := SetOffset Offset' Field]> Parser).
Proof.
  intros HP Hk. apply Forall_insert; [exact HP|].
  exact (Forall_lookup_1 _ _ _ _ HP Hk).
Qed.

Lemma SumLengths_SetOffset Offset' Field : forall Parser k,
  Parser !! k = Some Field ->
  SumLengths (<[k := SetOffset Offset' Field]> Parser) = SumLengths Parser.
Proof.
  induction Parser as [|Head Parser IH]; intros [|k] Hk; try discriminate.
  - injection Hk as ->. reflexivity.
  - cbn [SumLengths]. cbn in Hk. change (<[S k := ?x]> (Head :: Parser))
      with (Head :: <[k := x]> Parser). cbn [SumLengths]. now rewrite IH.
Qed.

Lemma MismatchedOffsets_SetOffset Offset' Field : forall Parser k Start,
  ConsistentOffsets Start Parser = true ->
  Parser !! k = Some Field ->
  Offset' <> AcpiParser.Offset Field ->
  MismatchedOffsets Start (<[k := SetOffset Offset' Field]> Parser) = 1%nat.
Proof.
  induction Parser as [|Head Parser IH]; intros [|k] Start HC Hk Hne;
    try discriminate; cbn [ConsistentOffsets] in HC;
    apply andb_prop in HC as [H1 H2].
  - injection Hk as ->. cbn. apply Z.eqb_eq in H1.
    destruct (Z.eqb_spec Offset' Start); [congruence|].
    now rewrite MismatchedOffsets_consistent.
  - change (<[S k := ?x]> (Head :: Parser)) with (Head :: <[k := x]> Parser).
    cbn [MismatchedOffsets]. rewrite H1. cbv zeta. now apply IH.
Qed.

Lemma ParseAcpiField_SetOffset plat mem Trace AsciiName Field Offset' Ptr Offset st :
  GetConsistencyChecking plat = false ->
  ParseAcpiField plat mem Trace AsciiName (SetOffset Offset' Field) Ptr Offset st
  = ParseAcpiField plat mem Trace AsciiName Field Ptr Offset st.
Proof.
  intros Hoff. unfold ParseAcpiField, CheckFieldOffset. rewrite Hoff. reflexivity.
Qed.

Lemma DecodeFields_SetOffset plat mem Trace AsciiName Offset' Field :
  GetConsistencyChecking plat = false ->
  forall Parser k Ptr Offset st,
    Parser !! k = Some Field ->
    DecodeFields plat mem Trace AsciiName (<[k := SetOffset Offset' Field]> Parser)
                 Ptr Offset st
    = DecodeFields plat mem Trace AsciiName Parser Ptr Offset st.
Proof.
  intros Hoff. induction Parser as [|Head Parser IH]; intros [|k] Ptr Offset st Hk;
    try discriminate.
  - injection Hk as ->. cbn [DecodeFields]. cbn.
    now rewrite ParseAcpiField_SetOffset.
  - change (<[S k := ?x]> (Head :: Parser)) with (Head :: <[k := x]> Parser).
    cbn [DecodeFields]. now apply IH.
Qed.

(** ** A truncated buffer *)

Lemma ParseAcpiFields_app plat mem Trace AsciiName Length Parser1 Parser2 :
  forall Ptr Offset st,
    ParseAcpiFields plat mem Trace AsciiName Length (Parser1 ++ Parser2) Ptr Offset st
    = let '(Ptr', Offset', st') :=
        ParseAcpiFields plat mem Trace AsciiName Length Parser1 Ptr Offset st in
      ParseAcpiFields plat mem Trace AsciiName Length Parser2 Ptr' Offset' st'.
Proof.
  induction Parser1 as [|Field Parser1 IH]; intros Ptr Offset st;
    cbn [app ParseAcpiFields]; [reflexivity|].
  destruct (Length <? wrap32 (Offset + AcpiParser.Length Field)); apply IH.
Qed.

(** When no field fits at the running offset, the loop only resets the
    pointers. *)
Lemma ParseAcpiFields_none_fit plat mem Trace AsciiName Length Parser Ptr Offset :
  Forall (fun Field => Length < wrap32 (Offset + AcpiParser.Length Field)) Parser ->
  forall st,
    ParseAcpiFields plat mem Trace AsciiName Length Parser Ptr Offset st
    = (Ptr, Offset, ClearItemPtrs Parser st).
Proof.
  induction 1 as [|Field Parser Hout _ IH]; intros st; cbn [ParseAcpiFields];
    [reflexivity|].
  destruct (Z.ltb_spec Length (wrap32 (Offset + AcpiParser.Length Field))); [|lia].
  apply IH.
Qed.

Lemma ClearItemPtrs_set_gIndent Parser : forall v st,
  ClearItemPtrs Parser (set_gIndent v st) = set_gIndent v (ClearItemPtrs Parser st).
Proof.
  unfold ClearItemPtrs.
  induction Parser as [|Field Parser IH]; intros v st; cbn [fold_left]; [reflexivity|].
  rewrite <- IH. f_equal. unfold ClearItemPtr.
  now destruct (AcpiParser.ItemPtr Field).
Qed.

Lemma gIndent_ClearItemPtrs Parser st : gIndent (ClearItemPtrs Parser st) = gIndent st.
Proof.
  revert st. unfold ClearItemPtrs.
  induction Parser as [|Field Parser IH]; intros st; cbn [fold_left]; [reflexivity|].
  rewrite IH. unfold ClearItemPtr. now destruct (AcpiParser.ItemPtr Field).
Qed.

Lemma Length_le_SumLengths Parser :
  LengthsOk Parser ->
  Forall (fun Field => AcpiParser.Length Field <= SumLengths Parser) Parser.
Proof.
  induction 1 as [|Field Parser Hlen HL IH]; [constructor|].
  pose proof (SumLengths_nonneg Parser HL).
  constructor; cbn [SumLengths]; [lia|].
  eapply Forall_impl; [exact IH|]. cbn. intros; lia.
Qed.

(** C1. The loop of [ParseAcpi] skips a field that does not fit with
    [continue] and leaves [Offset] where it is, so a later, shorter field
    is tested at the stalled offset and decoded there. A GICC structure
    that declares 70 bytes ends inside its field 14 (MPIDR, bytes 68 to
    75). [ParseAcpi], called as [ParseAcpiStruct] calls it, skips MPIDR
    and then decodes the two one-byte fields declared at offsets 76 and
    77 from bytes 68 and 69: it reports two offset mismatches on a
    descriptor list whose offsets are consistent, and returns 70, not 68.
    [ParseAcpiMadt] on a table with that structure prints the same two
    errors. With lengths 1, 4, 1 and a buffer of 3 bytes the pointer of
    the third field is set, to an address inside the second field. *)
Theorem ParseAcpi_truncated_stalls :
  let plat := Sample.plat true in
  let mem := Sample.MemOf Cases.GiccMadtBytes in
  let Parser := GicCParser plat mem in
  let r := ParseAcpi plat mem true 2 (Some "GICC [0]"%string) 44 70 Parser
                     Sample.InitialState in
  let Mismatches :=
    [ EvOffsetMismatch (Some "GICC [0]"%string)
                       (Some "Processor Power Efficiency Class"%string) 68 76;
      EvOffsetMismatch (Some "GICC [0]"%string) (Some "Reserved"%string) 69 77 ] in
  let Short := ParseAcpi plat (Sample.MemOf [1; 2; 3]) false 0 None 0 3
                         Sample.ShortTail Sample.InitialState in
  ConsistentOffsets 0 Parser = true
  /\ (AcpiParser.NameStr <$> Parser !! 14%nat) = Some (Some "MPIDR"%string)
  /\ SumLengths (take 14 Parser) = 68
  /\ SumLengths (take 15 Parser) = 76
  /\ fst r = 70
  /\ List.filter IsOffsetMismatch (ConOut (snd r)) = Mismatches
  /\ mTableErrorCount (snd r) = 2
  /\ (fun st => (List.filter IsOffsetMismatch (ConOut st), mTableErrorCount st))
       <$> ReturnedState (ParseAcpiMadt plat mem (Sample.AcpiHeader mem) true 0 114 5
                                        Sample.InitialState)
     = Some (Mismatches, 2)
  /\ SumLengths (take 1 Sample.ShortTail) = 1
  /\ SumLengths (take 2 Sample.ShortTail) = 5
  /\ fst Short = 2
  /\ ItemPtrs (snd Short) !! "BPtr"%string = None
  /\ ItemPtrs (snd Short) !! "CPtr"%string = Some 1.
Proof.
  cbv zeta. repeat apply conj; vm_compute; reflexivity.
Qed.

(** ** When the validator runs *)

(** C2, as the code has it. With tracing and consistency checking on, a
    field inside the buffer whose descriptor has a validator, a format
    string and no formatter is printed by the [switch] on its length, and
    the validator is called on the state that this leaves, whatever the
    length is (for a length other than 1, 2, 4 and 8 the [switch] has
    printed its error); the new line, the [ItemPtr] update and the rest of
    the loop follow. *)
Theorem validator_follows_format_dump plat mem (AsciiName : option string)
  (Length : Z) (Field : ACPI_PARSER) (Parser' : list ACPI_PARSER)
  (Ptr Offset : Z) (st : State) (Format : string)
  (Validator : AcpiParser.FIELD_VALIDATOR) :
  GetConsistencyChecking plat = true ->
  wrap32 (Offset + AcpiParser.Length Field) <= Length ->
  AcpiParser.PrintFormatter Field = None ->
  AcpiParser.Format Field = Some Format ->
  AcpiParser.FieldValidator Field = Some Validator ->
  let Named := PrintFieldName 2 (AcpiParser.NameStr Field)
                 (CheckFieldOffset plat AsciiName Field Offset st) in
  let Rendered := DumpByLength mem AsciiName Field Format Ptr Named in
  let Validated := Validator Ptr (AcpiParser.Context Field) Rendered in
  ParseAcpiFields plat mem true AsciiName Length (Field :: Parser') Ptr Offset st
  = ParseAcpiFields plat mem true AsciiName Length Parser'
      (Ptr + AcpiParser.Length Field) (wrap32 (Offset + AcpiParser.Length Field))
      (StoreItemPtr Field Ptr (PrintEv EvNewLine Validated)).
Proof.
  intros Hcc Hin HF HFmt HV Named Rendered Validated. cbn [ParseAcpiFields].
  destruct (Z.ltb_spec Length (wrap32 (Offset + AcpiParser.Length Field))); [lia|].
  unfold ParseAcpiField, TraceField, ValidateField.
  rewrite HF, HFmt, HV, Hcc. reflexivity.
Qed.

Lemma validator_follows_format_dump_witness :
  GetConsistencyChecking (Sample.plat true) = true
  /\ ConOut (snd (ParseAcpiFields (Sample.plat true) (Sample.MemOf Sample.ZeroBytes)
                    true (Some "Cache [0]"%string) 4 [Sample.OddWidth] 0 0
                    Sample.InitialState))
     = [EvFieldName 2 (Some "Associativity"%string);
        EvCannotParse (Some "Cache [0]"%string) 3;
        EvMessage "\nERROR: Cache associativity must be greater than 0" [];
        EvNewLine].
Proof.
  split; [reflexivity|].
  rewrite (validator_follows_format_dump (Sample.plat true)
             (Sample.MemOf Sample.ZeroBytes) (Some "Cache [0]"%string) 4
             Sample.OddWidth [] 0 0 Sample.InitialState "%d"%string
             (ValidateCacheAssociativity (Sample.MemOf Sample.ZeroBytes))
             eq_refl ltac:(by_computation) eq_refl eq_refl eq_refl).
  vm_compute. reflexivity.
Defined.

(** C2, as stated, fails for a descriptor with a formatter: the validator
    of the sample descriptor counts an error whenever it is called, and
    after [ParseAcpi] has traced the field, with consistency checking on,
    no error is counted and nothing but the formatter's output is printed. *)
Lemma validator_skipped_counterexample :
  let plat := Sample.plat true in
  let mem := Sample.MemOf Sample.ZeroBytes in
  let r := ParseAcpi plat mem true 0 None 0 4 Sample.FormatterAndValidator
                     Sample.InitialState in
  GetConsistencyChecking plat = true
  /\ (forall st, mTableErrorCount (ValidateCacheAssociativity mem 0 None st)
                 = wrap32 (mTableErrorCount st + 1))
  /\ fst r = 4
  /\ mTableErrorCount (snd r) = 0
  /\ ConOut (snd r)
     = [EvFieldName 2 (Some "Ways"%string); EvValue "%c%c%c%c" [0; 0; 0; 0]; EvNewLine].
Proof.
  cbv zeta. split; [reflexivity|]. split; [intros st; reflexivity|].
  vm_compute. repeat split.
Qed.

(** ** The walk over the structures of a table *)

(** The untraced look at a structure header of which at least the type
    and length bytes are inside the table: both static pointers are set,
    nothing is printed or counted. *)
Lemma StructHeader_lookahead plat mem (Name0 Name1 Name2 : option string)
  (TypeVar LengthVar : string) (Ptr Remaining : Z) (st : State) :
  2 <= Remaining < 2 ^ 32 ->
  let r := ParseAcpi plat mem false 0 None Ptr Remaining
             [ AcpiParser.mkParser Name0 1 0 None None (Some TypeVar) None None;
               AcpiParser.mkParser Name1 1 1 None None (Some LengthVar) None None;
               AcpiParser.mkParser Name2 2 2 None None None None None ] st in
  ItemPtrs (snd r) = <[LengthVar := Ptr + 1]> (<[TypeVar := Ptr]> (ItemPtrs st))
  /\ ConOut (snd r) = ConOut st
  /\ mTableErrorCount (snd r) = mTableErrorCount st
  /\ StructCounts (snd r) = StructCounts st
  /\ gIndent (snd r) = IndentDepth st.
Proof.
  intros HR r. subst r. unfold ParseAcpi, ParseAcpiEnter.
  cbn [ParseAcpiFields AcpiParser.Length].
  change (wrap32 (0 + 1)) with 1. change (wrap32 (1 + 1)) with 2.
  change (wrap32 (2 + 2)) with 4.
  destruct (Z.ltb_spec Remaining 1); [lia|].
  destruct (Z.ltb_spec Remaining 2); [lia|].
  unfold ParseAcpiField, CheckFieldOffset, StoreItemPtr, ClearItemPtr.
  cbn [AcpiParser.Offset AcpiParser.ItemPtr].
  rewrite !Z.eqb_refl, !andb_false_r.
  destruct (Remaining <? 4); cbn -[wrap32]; repeat split;
    unfold IndentDepth; now rewrite Z.sub_0_r, Z.add_0_r, wrap32_idem.
Qed.

Lemma StructWalk_invalid_length plat mem (Name0 Name1 Name2 : option string)
  (TypeVar LengthVar : string) (StructDb : ACPI_STRUCT_DATABASE)
  (Finish : State -> State) (AcpiTableLength : Z) (fuel : nat)
  (StructPtr Offset : Z) (st : State) :
  TypeVar <> LengthVar ->
  0 <= Offset ->
  Offset + 2 <= AcpiTableLength ->
  AcpiTableLength <= 2 ^ 32 - 256 ->
  ReadUint8 mem (StructPtr + 1) = 0
  \/ AcpiTableLength < Offset + ReadUint8 mem (StructPtr + 1) ->
  exists st',
    StructWalk plat mem
      [ AcpiParser.mkParser Name0 1 0 None None (Some TypeVar) None None;
        AcpiParser.mkParser Name1 1 1 None None (Some LengthVar) None None;
        AcpiParser.mkParser Name2 2 2 None None None None None ]
      TypeVar LengthVar StructDb Finish AcpiTableLength (S fuel) StructPtr Offset st
    = Returned st'
    /\ ConOut st'
       = ConOut st ++ [EvInvalidStructLength (StructDb.Name StructDb)
                         (ReadUint8 mem (StructPtr + 1)) Offset AcpiTableLength]
    /\ mTableErrorCount st' = wrap32 (mTableErrorCount st + 1)
    /\ StructCounts st' = StructCounts st.
Proof.
  intros Hne HOffset Hroom HTable Hbad. cbn [StructWalk].
  destruct (Z.ltb_spec Offset AcpiTableLength); [|lia].
  rewrite (wrap32_small (AcpiTableLength - Offset)) by (unfold uint32; lia).
  match goal with |- context [ParseAcpi ?p ?m ?t ?i ?n ?ptr ?l ?a ?s] =>
    destruct (StructHeader_lookahead p m Name0 Name1 Name2 TypeVar LengthVar ptr l s)
      as (HI & HO & HE & HC & _); [lia|];
    destruct (ParseAcpi p m t i n ptr l a s) as [Parsed st1] end.
  cbn [snd] in *.
  rewrite HI, lookup_insert_eq, lookup_insert_ne, lookup_insert_eq by congruence.
  pose proof (byte_val_range (mem (StructPtr + 1))) as HL.
  fold (ReadUint8 mem (StructPtr + 1)) in HL.
  rewrite (wrap32_small (Offset + ReadUint8 mem (StructPtr + 1)))
    by (unfold uint32; lia).
  assert (Hcheck : (ReadUint8 mem (StructPtr + 1) =? 0)
                   || (AcpiTableLength <? Offset + ReadUint8 mem (StructPtr + 1))
                   = true).
  { apply orb_true_iff. destruct Hbad as [Hzero|Hpast];
      [left; now apply Z.eqb_eq | right; now apply Z.ltb_lt]. }
  rewrite Hcheck. eexists. split; [reflexivity|].
  cbn. rewrite HO, HE, HC. auto.
Qed.

(** X28. In the loops of [ParseAcpiMadt] and [ParseAcpiPptt], on a table
    of at most [2^32 - 256] bytes, at a structure whose length byte is
    inside the table and is zero or runs past the end of the table, the
    parser returns at once: one invalid-length error is printed and
    counted, and nothing else happens, so neither this structure nor any
    later one is handed to [ParseAcpiStruct], and no instance count
    changes. The bound keeps [Offset + Length] from wrapping. *)
Theorem invalid_length_aborts_walk plat mem (AcpiTableLength : Z) (fuel : nat)
  (StructPtr Offset : Z) (st : State) :
  0 <= Offset ->
  Offset + 2 <= AcpiTableLength ->
  AcpiTableLength <= 2 ^ 32 - 256 ->
  ReadUint8 mem (StructPtr + 1) = 0
  \/ AcpiTableLength < Offset + ReadUint8 mem (StructPtr + 1) ->
  (exists st',
     StructWalk plat mem MadtInterruptControllerHeaderParser
       "MadtInterruptControllerType" "MadtInterruptControllerLength"
       (MadtDatabase plat mem) (MadtFinish plat mem) AcpiTableLength (S fuel)
       StructPtr Offset st
     = Returned st'
     /\ ConOut st'
        = ConOut st ++ [EvInvalidStructLength "Interrupt Controller Structure"
                          (ReadUint8 mem (StructPtr + 1)) Offset AcpiTableLength]
     /\ mTableErrorCount st' = wrap32 (mTableErrorCount st + 1)
     /\ StructCounts st' = StructCounts st)
  /\ (exists st',
     StructWalk plat mem ProcessorTopologyStructureHeaderParser
       "ProcessorTopologyStructureType" "ProcessorTopologyStructureLength"
       (PpttDatabase plat mem) (PpttFinish plat mem) AcpiTableLength (S fuel)
       StructPtr Offset st
     = Returned st'
     /\ ConOut st'
        = ConOut st ++ [EvInvalidStructLength "Processor Topology Structure"
                          (ReadUint8 mem (StructPtr + 1)) Offset AcpiTableLength]
     /\ mTableErrorCount st' = wrap32 (mTableErrorCount st + 1)
     /\ StructCounts st' = StructCounts st).
Proof.
  intros HOffset Hroom HTable Hbad. split.
  - apply (StructWalk_invalid_length plat mem None (Some "Length"%string)
             (Some "Reserved"%string)); auto; discriminate.
  - apply (StructWalk_invalid_length plat mem (Some "Type"%string)
             (Some "Length"%string) (Some "Reserved"%string)); auto; discriminate.
Qed.

(** C8. The test [Offset + Length > AcpiTableLength] of both loops is
    made in [UINT32]. In a table of [2^32 - 1] bytes, at offset
    [2^32 - 16], a structure that declares 255 bytes runs past the end of
    the table, but the sum wraps to 239 and passes the test: the
    structure is handed to [ParseAcpiStruct] and counted, and the walk
    goes on at offset 239, 255 bytes further in memory. The only
    invalid-length error is the one for the zero length it finds there. *)
Theorem invalid_length_wraps :
  let plat := Sample.plat true in
  let Table := 2 ^ 32 - 1 in
  let Offset := 2 ^ 32 - 16 in
  (let mem := Sample.MemOf Cases.OverlongGicr in
   ReadUint8 mem (0 + 1) = 255
   /\ Offset + 2 <= Table < Offset + ReadUint8 mem (0 + 1)
   /\ (fun st => (List.filter IsWalkEvent (ConOut st),
                  GetCount (MadtDatabase plat mem) 14 st, mTableErrorCount st))
        <$> ReturnedState
              (StructWalk plat mem MadtInterruptControllerHeaderParser
                 "MadtInterruptControllerType" "MadtInterruptControllerLength"
                 (MadtDatabase plat mem) (MadtFinish plat mem) Table 2 0 Offset
                 Sample.InitialState)
      = Some ([ EvStructOffset Offset;
                EvInvalidStructLength "Interrupt Controller Structure" 0 239 Table ],
              1, 1))
  /\ (let mem := Sample.MemOf Cases.OverlongCache in
      ReadUint8 mem (0 + 1) = 255
      /\ Offset + 2 <= Table < Offset + ReadUint8 mem (0 + 1)
      /\ (fun st => (List.filter IsWalkEvent (ConOut st),
                     GetCount (PpttDatabase plat mem) 1 st))
           <$> ReturnedState
                 (StructWalk plat mem ProcessorTopologyStructureHeaderParser
                    "ProcessorTopologyStructureType" "ProcessorTopologyStructureLength"
                    (PpttDatabase plat mem) (PpttFinish plat mem) Table 2 0 Offset
                    Sample.InitialState)
         = Some ([ EvStructOffset Offset;
                   EvInvalidStructLength "Processor Topology Structure" 0 239 Table ],
                 1)).
Proof.
  cbv zeta. split.
  - split; [reflexivity|]. split; [by_computation|].
    vm_compute. reflexivity.
  - split; [reflexivity|]. split; [by_computation|].
    vm_compute. reflexivity.
Qed.

(** ** The table parsers return *)

Lemma frame_ParseAcpiStruct plat mem {A : Type} (f : State -> A) Indent Ptr StructDb
  Offset StructType Length OptArg0 OptArg1 st :
  EngineFrame f ->
  (forall v st, f (set_gIndent v st) = f st) ->
  (forall v st, f (set_StructCounts v st) = f st) ->
  Forall (fun Entry => HandlerKeeps f (StructInfo.Handler Entry))
         (StructDb.Entries StructDb) ->
  f (snd (ParseAcpiStruct plat mem Indent Ptr StructDb Offset StructType Length
                          OptArg0 OptArg1 st))
  = f st.
Proof.
  intros Hf Hg Hc HDb. unfold ParseAcpiStruct.
  set (st1 := PrintEv (EvStructOffset Offset)
                (PrintFieldName Indent (Some "* Offset *"%string) st)).
  assert (H1 : f st1 = f st)
    by (subst st1; now rewrite (frame_PrintEv f Hf), (frame_PrintFieldName f Hf)).
  destruct (StructDb.EntryCount StructDb <=? StructType).
  { cbn [snd]. now rewrite (frame_PrintEv f Hf), (frame_IncrementErrorCount f Hf). }
  destruct (StructDb.Entries StructDb !! Z.to_nat StructType) as [Entry|] eqn:E;
    [|exact H1].
  destruct (Forall_lookup_1 _ _ _ _ HDb E) as [HP HK].
  unfold HandlerPreserves in HP.
  destruct (StructInfo.ParserFunc (StructInfo.Handler Entry)) as [Func|].
  - cbn [snd]. unfold IncrementCount, SetCount. now rewrite Hc, HP.
  - destruct (StructInfo.ParserArray (StructInfo.Handler Entry)) as [Array|].
    + match goal with |- context [ParseAcpi ?p ?m ?t ?i ?n ?ptr ?l ?a ?s] =>
        pose proof (frame_ParseAcpi p m f Hf t i n ptr l a s Hg HP HK) as HA;
        destruct (ParseAcpi p m t i n ptr l a s) as [Offset' st'] end.
      cbn [snd] in *. unfold IncrementCount, SetCount. now rewrite Hc, HA.
    + cbn [snd]. unfold IncrementCount, SetCount.
      now rewrite (frame_PrintEv f Hf), Hc.
Qed.

(** The value of one static pointer is an observation of this kind. *)
Lemma EngineFrame_ItemPtr (Item : string) :
  EngineFrame (fun st => ItemPtrs st !! Item).
Proof. split; reflexivity. Qed.

Lemma ItemKept_other (Item Other : string) :
  Item <> Other -> ItemKept (fun st => ItemPtrs st !! Item) Other.
Proof.
  intros Hne st. split; intros; cbn.
  - now apply lookup_insert_ne.
  - now apply lookup_delete_ne.
Qed.

Lemma MadtDatabase_keeps_ItemPtr plat mem (Item : string) Indent Ptr Offset
  StructType Length OptArg0 OptArg1 st :
  ItemPtrs (snd (ParseAcpiStruct plat mem Indent Ptr (MadtDatabase plat mem) Offset
                                 StructType Length OptArg0 OptArg1 st)) !! Item
  = ItemPtrs st !! Item.
Proof.
  apply (frame_ParseAcpiStruct plat mem (fun st => ItemPtrs st !! Item));
    try reflexivity.
  - apply EngineFrame_ItemPtr.
  - apply MadtDatabase_handlers, EngineFrame_ItemPtr.
Qed.

Lemma PpttDatabase_keeps_ItemPtr plat mem (Item : string) Indent Ptr Offset
  StructType Length OptArg0 OptArg1 st :
  Item <> "NumberOfPrivateResources"%string ->
  ItemPtrs (snd (ParseAcpiStruct plat mem Indent Ptr (PpttDatabase plat mem) Offset
                                 StructType Length OptArg0 OptArg1 st)) !! Item
  = ItemPtrs st !! Item.
Proof.
  intros Hne.
  apply (frame_ParseAcpiStruct plat mem (fun st => ItemPtrs st !! Item));
    try reflexivity.
  - apply EngineFrame_ItemPtr.
  - apply PpttDatabase_handlers.
    + apply EngineFrame_ItemPtr.
    + intros. apply (frame_ParseAcpi plat mem (fun st => ItemPtrs st !! Item));
        auto using EngineFrame_ItemPtr.
    + now apply ItemKept_other.
Qed.

(** The look at a structure header of which only the type byte is inside
    the table resets the length pointer. *)
Lemma StructHeader_short plat mem (Name0 Name1 Name2 : option string)
  (TypeVar LengthVar : string) (Ptr : Z) (st : State) :
  ItemPtrs (snd (ParseAcpi plat mem false 0 None Ptr 1
             [ AcpiParser.mkParser Name0 1 0 None None (Some TypeVar) None None;
               AcpiParser.mkParser Name1 1 1 None None (Some LengthVar) None None;
               AcpiParser.mkParser Name2 2 2 None None None None None ] st))
    !! LengthVar = None.
Proof.
  unfold ParseAcpi, ParseAcpiEnter.
  cbn [ParseAcpiFields AcpiParser.Length].
  change (wrap32 (0 + 1)) with 1. change (wrap32 (1 + 1)) with 2.
  change (wrap32 (1 + 2)) with 3. cbn [Z.ltb Z.compare Pos.compare Pos.compare_cont].
  unfold ParseAcpiField, CheckFieldOffset, StoreItemPtr, ClearItemPtr.
  cbn -[wrap32]. apply lookup_delete_eq.
Qed.

(** Every turn of the loop that does not return moves the offset forward
    by at least one byte, so [AcpiTableLength - Offset] turns are enough,
    given that decoding a structure leaves the length pointer alone. *)
Lemma StructWalk_returns plat mem (Name0 Name1 Name2 : option string)
  (TypeVar LengthVar : string) (StructDb : ACPI_STRUCT_DATABASE)
  (Finish : State -> State) (AcpiTableLength : Z) :
  TypeVar <> LengthVar ->
  AcpiTableLength <= 2 ^ 32 - 256 ->
  (forall Indent Ptr Offset StructType Length OptArg0 OptArg1 st,
      ItemPtrs (snd (ParseAcpiStruct plat mem Indent Ptr StructDb Offset StructType
                                     Length OptArg0 OptArg1 st)) !! LengthVar
      = ItemPtrs st !! LengthVar) ->
  forall (fuel : nat) (StructPtr Offset : Z) (st : State),
    0 <= Offset ->
    AcpiTableLength - Offset <= Z.of_nat fuel ->
    exists st',
      StructWalk plat mem
        [ AcpiParser.mkParser Name0 1 0 None None (Some TypeVar) None None;
          AcpiParser.mkParser Name1 1 1 None None (Some LengthVar) None None;
          AcpiParser.mkParser Name2 2 2 None None None None None ]
        TypeVar LengthVar StructDb Finish AcpiTableLength fuel StructPtr Offset st
      = Returned st'.
Proof.
  intros Hne HTable Hkeep.
  induction fuel as [|fuel IH]; intros StructPtr Offset st HOffset Hfuel;
    cbn [StructWalk];
    destruct (Z.ltb_spec Offset AcpiTableLength); try lia; try (eexists; reflexivity).
  rewrite (wrap32_small (AcpiTableLength - Offset)) by (unfold uint32; lia).
  destruct (Z.eq_dec (AcpiTableLength - Offset) 1) as [Hone|Hmore].
  - rewrite Hone.
    pose proof (StructHeader_short plat mem Name0 Name1 Name2 TypeVar LengthVar
                  StructPtr st) as Hnone.
    destruct (ParseAcpi _ _ _ _ _ _ _ _ _) as [Parsed st1]. cbn [snd] in Hnone.
    rewrite Hnone. destruct (ItemPtrs st1 !! TypeVar); eexists; reflexivity.
  - match goal with |- context [ParseAcpi ?p ?m ?t ?i ?n ?ptr ?l ?a ?s] =>
      destruct (StructHeader_lookahead p m Name0 Name1 Name2 TypeVar LengthVar ptr l s)
        as (HI & _); [lia|];
      destruct (ParseAcpi p m t i n ptr l a s) as [Parsed st1] end.
    cbn [snd] in HI.
    assert (HT : ItemPtrs st1 !! TypeVar = Some StructPtr)
      by (rewrite HI, lookup_insert_ne, lookup_insert_eq by congruence; reflexivity).
    assert (HLen : ItemPtrs st1 !! LengthVar = Some (StructPtr + 1))
      by (rewrite HI, lookup_insert_eq; reflexivity).
    rewrite HT, HLen.
    pose proof (byte_val_range (mem (StructPtr + 1))) as HL.
    fold (ReadUint8 mem (StructPtr + 1)) in HL.
    rewrite !(wrap32_small (Offset + ReadUint8 mem (StructPtr + 1)))
      by (unfold uint32; lia).
    destruct (Z.eqb_spec (ReadUint8 mem (StructPtr + 1)) 0) as [|Hnz];
      [eexists; reflexivity|].
    destruct (Z.ltb_spec AcpiTableLength (Offset + ReadUint8 mem (StructPtr + 1)));
      [eexists; reflexivity|].
    cbn [orb].
    match goal with |- context [ParseAcpiStruct ?p ?m ?i ?ptr ?db ?o ?ty ?l ?a0 ?a1 ?s] =>
      pose proof (Hkeep i ptr o ty l a0 a1 s) as HK;
      destruct (ParseAcpiStruct p m i ptr db o ty l a0 a1 s) as [Ok st2] end.
    cbn [snd] in HK. rewrite HK, HLen.
    rewrite (wrap32_small (Offset + ReadUint8 mem (StructPtr + 1)))
      by (unfold uint32; lia).
    apply IH; lia.
Qed.

Lemma ParseAcpiFields_offset_range plat mem Trace AsciiName Length Parser :
  forall Ptr Offset st,
    uint32 Offset ->
    uint32 (snd (fst (ParseAcpiFields plat mem Trace AsciiName Length Parser
                                      Ptr Offset st))).
Proof.
  induction Parser as [|Field Parser IH]; intros Ptr Offset st HO;
    cbn [ParseAcpiFields]; [exact HO|].
  destruct (Length <? wrap32 (Offset + AcpiParser.Length Field));
    apply IH; [exact HO | apply wrap32_range].
Qed.

Lemma ParseAcpi_offset_range plat mem Trace Indent AsciiName Ptr Length Parser st :
  uint32 (fst (ParseAcpi plat mem Trace Indent AsciiName Ptr Length Parser st)).
Proof.
  unfold ParseAcpi.
  pose proof (ParseAcpiFields_offset_range plat mem Trace AsciiName Length Parser Ptr 0
                (ParseAcpiEnter plat Trace Indent AsciiName st)) as H.
  destruct (ParseAcpiFields _ _ _ _ _ _ _ _ _) as [[Ptr' Offset'] st'].
  apply H. unfold uint32. lia.
Qed.

(** X15. [ParseAcpiMadt] returns on every table of at most
    [2^32 - 256] bytes, whatever its contents and the header descriptors:
    every turn of the loop either returns or moves on by at least one
    byte, and neither of the two static pointers is NULL when it is read. *)
Theorem ParseAcpiMadt_returns plat mem PARSE_ACPI_HEADER (Trace : bool)
  (Ptr AcpiTableLength AcpiTableRevision : Z) (st : State) :
  AcpiTableLength <= 2 ^ 32 - 256 ->
  exists st',
    ParseAcpiMadt plat mem PARSE_ACPI_HEADER Trace Ptr AcpiTableLength
                  AcpiTableRevision st = Returned st'.
Proof.
  intros HTable. unfold ParseAcpiMadt.
  destruct Trace; [|eexists; reflexivity]. cbn [negb].
  match goal with |- context [ParseAcpi ?p ?m ?t ?i ?n ?ptr ?l ?a ?s] =>
    pose proof (ParseAcpi_offset_range p m t i n ptr l a s) as HO;
    destruct (ParseAcpi p m t i n ptr l a s) as [Offset st1] end.
  cbn [fst] in HO. unfold uint32 in HO.
  apply (StructWalk_returns plat mem None (Some "Length"%string)
           (Some "Reserved"%string)); try lia; try discriminate.
  intros. apply MadtDatabase_keeps_ItemPtr.
Qed.

(** X16. [ParseAcpiPptt] returns as well on every table of at most
    [2^32 - 256] bytes: the processor hierarchy node, which is decoded by
    a function with descriptors and a static pointer of its own, leaves
    the pointers of the structure header alone. *)
Theorem ParseAcpiPptt_returns plat mem PARSE_ACPI_HEADER (Trace : bool)
  (Ptr AcpiTableLength AcpiTableRevision : Z) (st : State) :
  AcpiTableLength <= 2 ^ 32 - 256 ->
  exists st',
    ParseAcpiPptt plat mem PARSE_ACPI_HEADER Trace Ptr AcpiTableLength
                  AcpiTableRevision st = Returned st'.
Proof.
  intros HTable. unfold ParseAcpiPptt.
  destruct Trace; [|eexists; reflexivity]. cbn [negb].
  match goal with |- context [ParseAcpi ?p ?m ?t ?i ?n ?ptr ?l ?a ?s] =>
    pose proof (ParseAcpi_offset_range p m t i n ptr l a s) as HO;
    destruct (ParseAcpi p m t i n ptr l a s) as [Offset st1] end.
  cbn [fst] in HO. unfold uint32 in HO.
  apply (StructWalk_returns plat mem (Some "Type"%string) (Some "Length"%string)
           (Some "Reserved"%string)); try lia; try discriminate.
  intros. apply PpttDatabase_keeps_ItemPtr. discriminate.
Qed.

Lemma invalid_length_aborts_walk_witness :
  ReadUint8 (Sample.MemOf Sample.MadtBytes) (60 + 1) = 0
  /\ exists st',
       StructWalk (Sample.plat true) (Sample.MemOf Sample.MadtBytes)
         MadtInterruptControllerHeaderParser
         "MadtInterruptControllerType" "MadtInterruptControllerLength"
         (MadtDatabase (Sample.plat true) (Sample.MemOf Sample.MadtBytes))
         (MadtFinish (Sample.plat true) (Sample.MemOf Sample.MadtBytes))
         64 1 60 60 Sample.InitialState
       = Returned st'
       /\ ConOut st'
          = ConOut Sample.InitialState
            ++ [EvInvalidStructLength "Interrupt Controller Structure"
                  (ReadUint8 (Sample.MemOf Sample.MadtBytes) (60 + 1)) 60 64]
       /\ mTableErrorCount st' = wrap32 (mTableErrorCount Sample.InitialState + 1)
       /\ StructCounts st' = StructCounts Sample.InitialState.
Proof.
  assert (Hzero : ReadUint8 (Sample.MemOf Sample.MadtBytes) (60 + 1) = 0)
    by reflexivity.
  split; [exact Hzero|].
  exact (proj1 (invalid_length_aborts_walk (Sample.plat true)
                  (Sample.MemOf Sample.MadtBytes) 64 0 60 60 Sample.InitialState
                  ltac:(lia) ltac:(lia) ltac:(lia) (or_introl Hzero))).
Defined.

(** ** The parsers on concrete tables *)

(** The scenario of the design document: the two descriptors [Type] and
    [Length] on the buffer [0x01, 0x18] capture the values 1 and 24 and
    consume 2 bytes. *)
Example ParseAcpi_type_length :
  let mem := Sample.MemOf [1; 24] in
  let r := ParseAcpi (Sample.plat true) mem false 0 None 0 2 Sample.TypeLength
                     Sample.InitialState in
  fst r = 2
  /\ (ReadUint8 mem <$> ItemPtrs (snd r) !! "TypePtr"%string) = Some 1
  /\ (ReadUint8 mem <$> ItemPtrs (snd r) !! "LengthPtr"%string) = Some 24
  /\ ConOut (snd r) = [] /\ mTableErrorCount (snd r) = 0.
Proof. vm_compute. repeat split. Qed.

(** The sample MADT: the GICR structure at offset 44 is decoded and
    counted, the zero length at offset 60 ends the parse with one error,
    and the table breakdown is not printed. *)
Example ParseAcpiMadt_zero_length :
  let mem := Sample.MemOf Sample.MadtBytes in
  exists st,
    ParseAcpiMadt (Sample.plat true) mem (Sample.AcpiHeader mem) true 0 64 5
                  Sample.InitialState = Returned st
    /\ last (ConOut st)
       = Some (EvInvalidStructLength "Interrupt Controller Structure" 0 60 64)
    /\ List.filter (fun e => match e with
                             | EvStructOffset _ | EvTableBreakdown
                             | EvInvalidStructLength _ _ _ _ => true
                             | _ => false
                             end) (ConOut st)
       = [EvStructOffset 44;
          EvInvalidStructLength "Interrupt Controller Structure" 0 60 64]
    /\ mTableErrorCount st = 1
    /\ GetCount (MadtDatabase (Sample.plat true) mem) 14 st = 1
    /\ gIndent st = 0.
Proof. vm_compute. eexists. repeat split. Qed.

(** The same table cut after the GICR structure parses cleanly. *)
Example ParseAcpiMadt_clean :
  let mem := Sample.MemOf Sample.MadtBytes in
  exists st,
    ParseAcpiMadt (Sample.plat true) mem (Sample.AcpiHeader mem) true 0 60 5
                  Sample.InitialState = Returned st
    /\ mTableErrorCount st = 0
    /\ List.filter (fun e => match e with
                             | EvInstanceCount _ _ | EvArchInvalid _ _ => true
                             | _ => false
                             end) (ConOut st)
       = [EvInstanceCount "GICC" 0; EvInstanceCount "GICD" 0;
          EvInstanceCount "GIC MSI Frame" 0; EvInstanceCount "GICR" 1;
          EvInstanceCount "GIC ITS" 0].
Proof. vm_compute. eexists. repeat split. Qed.

(** ** How far [ParseAcpi] reads *)

Lemma ParseAcpiFields_consumed plat mem Trace AsciiName Length Parser :
  LengthsOk Parser ->
  forall Ptr Offset st,
    0 <= Offset <= Length ->
    let Offset' := snd (fst (ParseAcpiFields plat mem Trace AsciiName Length Parser
                                             Ptr Offset st)) in
    0 <= Offset' <= Length /\ Offset' <= Offset + SumLengths Parser.
Proof.
  induction 1 as [|Field Parser Hlen HL IH]; intros Ptr Offset st HO;
    cbn [ParseAcpiFields SumLengths].
  - cbn. lia.
  - pose proof (SumLengths_nonneg Parser HL) as Hrest.
    destruct (Z.ltb_spec Length (wrap32 (Offset + AcpiParser.Length Field))) as [|Hin].
    + specialize (IH Ptr Offset (ClearItemPtr Field st) HO). cbv zeta in IH. lia.
    + pose proof (wrap32_range (Offset + AcpiParser.Length Field)) as Hr.
      unfold uint32 in Hr.
      assert (Hw : wrap32 (Offset + AcpiParser.Length Field)
                   <= Offset + AcpiParser.Length Field)
        by (unfold wrap32; apply Z.mod_le; lia).
      match goal with |- context [ParseAcpiFields ?p ?m ?t ?n ?l ?a ?ptr ?o ?s] =>
        specialize (IH ptr o s ltac:(lia)) end.
      cbv zeta in IH. lia.
Qed.

(** X1. [ParseAcpi] never reports more bytes than the buffer holds, nor
    more than the descriptors declare: for an unsigned buffer length the
    value it returns lies between 0 and [Length] and is at most the sum
    of the field lengths, whatever the descriptors, the memory and the
    callbacks are. *)
Theorem ParseAcpi_consumed_bounds plat mem (Trace : bool) (Indent : Z)
  (AsciiName : option string) (Ptr Length : Z) (Parser : list ACPI_PARSER)
  (st : State) :
  0 <= Length ->
  LengthsOk Parser ->
  let r := ParseAcpi plat mem Trace Indent AsciiName Ptr Length Parser st in
  0 <= fst r <= Length /\ fst r <= SumLengths Parser.
Proof.
  intros HLength HL. unfold ParseAcpi.
  pose proof (ParseAcpiFields_consumed plat mem Trace AsciiName Length Parser HL Ptr 0
                (ParseAcpiEnter plat Trace Indent AsciiName st) ltac:(lia)) as H.
  destruct (ParseAcpiFields _ _ _ _ _ _ _ _ _) as [[Ptr' Offset'] st'].
  cbn in *. lia.
Qed.

Lemma GicCParser_LengthsOk plat mem : LengthsOk (GicCParser plat mem).
Proof. unfold LengthsOk, GicCParser. repeat constructor; cbn; lia. Qed.

Lemma ParseAcpi_consumed_bounds_witness :
  0 <= 70
  /\ fst (ParseAcpi (Sample.plat true) (Sample.MemOf Sample.CacheBytes) true 2
            (Some "GICC [0]"%string) 0 70
            (GicCParser (Sample.plat true) (Sample.MemOf Sample.CacheBytes))
            Sample.InitialState) <= 70.
Proof.
  assert (H : 0 <= 70) by lia.
  split; [exact H|].
  exact (proj2 (proj1 (ParseAcpi_consumed_bounds (Sample.plat true)
                         (Sample.MemOf Sample.CacheBytes) true 2
                         (Some "GICC [0]"%string) 0 70
                         (GicCParser (Sample.plat true) (Sample.MemOf Sample.CacheBytes))
                         Sample.InitialState H (GicCParser_LengthsOk _ _)))).
Defined.

(** ** The pointers that [ParseAcpi] captures *)

Lemma FieldPreserves_lookup Field (Item : string) :
  FieldPreserves ItemPtrs Field ->
  FieldPreserves (fun st => ItemPtrs st !! Item) Field.
Proof.
  intros [HP HV]. split; intros; cbn.
  - now erewrite HP.
  - now erewrite HV.
Qed.

Lemma ItemPtrKept_not_named (Item : string) (Parser : list ACPI_PARSER) :
  Item ∉ ItemNames Parser ->
  Forall (ItemPtrKept (fun st => ItemPtrs st !! Item)) Parser.
Proof.
  intros Hnot. apply List.Forall_forall. intros Field HIn. unfold ItemPtrKept.
  destruct (AcpiParser.ItemPtr Field) as [Other|] eqn:E; [|exact I].
  apply ItemKept_other. intros ->. apply Hnot.
  unfold ItemNames. apply list_elem_of_omap. exists Field.
  split; [now apply list_elem_of_In | exact E].
Qed.

Lemma ItemPtrs_StoreItemPtr Field Item Ptr st :
  AcpiParser.ItemPtr Field = Some Item ->
  ItemPtrs (StoreItemPtr Field Ptr st) !! Item = Some Ptr.
Proof. intros E. unfold StoreItemPtr. rewrite E. cbn. apply lookup_insert_eq. Qed.

Lemma ItemPtrs_ClearItemPtr Field Item st :
  AcpiParser.ItemPtr Field = Some Item ->
  ItemPtrs (ClearItemPtr Field st) !! Item = None.
Proof. intros E. unfold ClearItemPtr. rewrite E. cbn. apply lookup_delete_eq. Qed.

Lemma ItemNames_cons Field Parser :
  ItemNames (Field :: Parser)
  = match AcpiParser.ItemPtr Field with
    | Some Item => Item :: ItemNames Parser
    | None => ItemNames Parser
    end.
Proof. reflexivity. Qed.

Lemma NoDup_ItemNames_cons Field Parser :
  NoDup (ItemNames (Field :: Parser)) ->
  NoDup (ItemNames Parser)
  /\ forall Item, AcpiParser.ItemPtr Field = Some Item -> Item ∉ ItemNames Parser.
Proof.
  rewrite ItemNames_cons. destruct (AcpiParser.ItemPtr Field) as [Item|].
  - intros H. apply NoDup_cons in H as [H1 H2]. split; [exact H2|].
    intros ? [= <-]. exact H1.
  - intros H. split; [exact H|]. discriminate.
Qed.

(** The pointers set or reset by the rest of the loop leave the pointer
    of an earlier descriptor alone when no name is used twice. *)
Lemma ParseAcpiFields_keeps_ItemPtr plat mem Trace AsciiName Length Parser
  (Item : string) Ptr Offset st :
  Forall (FieldPreserves ItemPtrs) Parser ->
  Item ∉ ItemNames Parser ->
  ItemPtrs (snd (ParseAcpiFields plat mem Trace AsciiName Length Parser Ptr Offset st))
    !! Item
  = ItemPtrs st !! Item.
Proof.
  intros HP Hnot.
  apply (frame_ParseAcpiFields plat mem (fun st => ItemPtrs st !! Item)
           (EngineFrame_ItemPtr Item)).
  - eapply Forall_impl; [exact HP|]. intros Field. apply FieldPreserves_lookup.
  - now apply ItemPtrKept_not_named.
Qed.



Lemma TypeLength_plain {A : Type} (f : State -> A) :
  Forall (FieldPreserves f) Sample.TypeLength.
Proof. unfold Sample.TypeLength. plain_fields. Qed.

Lemma TypeLength_LengthsOk : LengthsOk Sample.TypeLength.
Proof. unfold LengthsOk, Sample.TypeLength. repeat constructor; cbn; lia. Qed.

Lemma TypeLength_NoDup : NoDup (ItemNames Sample.TypeLength).
Proof. apply (bool_decide_unpack _). vm_compute. reflexivity. Qed.


(** ** A buffer that holds every field: what is captured *)

Lemma frame_DecodeFields plat mem {A : Type} (f : State -> A) Trace AsciiName Parser :
  EngineFrame f ->
  Forall (FieldPreserves f) Parser ->
  Forall (ItemPtrKept f) Parser ->
  forall Ptr Offset st,
    f (DecodeFields plat mem Trace AsciiName Parser Ptr Offset st) = f st.
Proof.
  intros Hf. induction 1 as [|Field Parser HF _ IH]; intros HK Ptr Offset st;
    [reflexivity|].
  apply Forall_cons_1 in HK as [HK HKs]. cbn [DecodeFields].
  rewrite IH by assumption. now apply frame_ParseAcpiField.
Qed.

Lemma DecodeFields_captures plat mem Trace AsciiName Parser :
  Forall (FieldPreserves ItemPtrs) Parser ->
  NoDup (ItemNames Parser) ->
  forall k Field Item Ptr Offset st,
    Parser !! k = Some Field ->
    AcpiParser.ItemPtr Field = Some Item ->
    ItemPtrs (DecodeFields plat mem Trace AsciiName Parser Ptr Offset st) !! Item
    = Some (Ptr + SumLengths (take k Parser)).
Proof.
  induction 1 as [|Head Parser HPhead HP IH]; intros Hdup k Field Item Ptr Offset st
    Hk HItem; [discriminate|].
  apply NoDup_ItemNames_cons in Hdup as [Hdup Hfresh].
  cbn [DecodeFields]. destruct k as [|k].
  - injection Hk as ->. cbn [take SumLengths].
    rewrite (frame_DecodeFields plat mem (fun st => ItemPtrs st !! Item)).
    + unfold ParseAcpiField. rewrite ItemPtrs_StoreItemPtr by assumption.
      f_equal. lia.
    + apply EngineFrame_ItemPtr.
    + eapply Forall_impl; [exact HP|]. intros F. apply FieldPreserves_lookup.
    + apply ItemPtrKept_not_named. auto.
  - cbn in Hk. cbn [take SumLengths].
    rewrite (IH Hdup k Field Item) by assumption. f_equal. lia.
Qed.

(** X3. When the buffer holds all the fields, [ParseAcpi] leaves in the
    static variable of every descriptor the address of its field, which
    is [Ptr] plus the sum of the lengths of the descriptors before it:
    the declared offsets play no part. The pointer variables are
    distinct and the callbacks do not write them. *)
Theorem ParseAcpi_captures_fields plat mem (Trace : bool) (Indent : Z)
  (AsciiName : option string) (Ptr Length : Z) (Parser : list ACPI_PARSER)
  (st : State) (k : nat) (Field : ACPI_PARSER) (Item : string) :
  LengthsOk Parser ->
  SumLengths Parser <= Length < 2 ^ 32 ->
  NoDup (ItemNames Parser) ->
  Forall (FieldPreserves ItemPtrs) Parser ->
  Parser !! k = Some Field ->
  AcpiParser.ItemPtr Field = Some Item ->
  ItemPtrs (snd (ParseAcpi plat mem Trace Indent AsciiName Ptr Length Parser st)) !! Item
  = Some (Ptr + SumLengths (take k Parser)).
Proof.
  intros HL Hfit Hdup HP Hk HItem. unfold ParseAcpi.
  rewrite ParseAcpiFields_fit by (auto; lia). cbn [snd].
  change (ItemPtrs (set_gIndent ?v ?s)) with (ItemPtrs s).
  now apply (DecodeFields_captures plat mem Trace AsciiName Parser HP Hdup k Field).
Qed.

Lemma ParseAcpi_captures_fields_witness :
  LengthsOk Sample.TypeLength
  /\ ItemPtrs (snd (ParseAcpi (Sample.plat true) (Sample.MemOf [1; 24]) false 0 None
                      100 2 Sample.TypeLength Sample.InitialState))
       !! "LengthPtr"%string
     = Some (100 + 1).
Proof.
  split; [exact TypeLength_LengthsOk|].
  exact (ParseAcpi_captures_fields (Sample.plat true) (Sample.MemOf [1; 24]) false 0
           None 100 2 Sample.TypeLength Sample.InitialState 1%nat
           (AcpiParser.mkParser (Some "Length"%string) 1 1 None None
                                (Some "LengthPtr"%string) None None)
           "LengthPtr"%string
           TypeLength_LengthsOk ltac:(by_computation) TypeLength_NoDup
           (TypeLength_plain ItemPtrs) eq_refl eq_refl).
Defined.

(** ** Parsing without tracing *)

Lemma ErrorCount_iter_S n c :
  Nat.iter n (fun Count => wrap32 (Count + 1)) (wrap32 (c + 1))
  = Nat.iter (S n) (fun Count => wrap32 (Count + 1)) c.
Proof. now rewrite Nat.iter_succ_r. Qed.

Lemma ParseAcpiFields_untraced plat mem AsciiName Length Parser :
  forall Ptr Offset st,
    let st' := snd (ParseAcpiFields plat mem false AsciiName Length Parser
                                    Ptr Offset st) in
    exists Errors,
      ConOut st' = ConOut st ++ Errors
      /\ forallb IsOffsetMismatch Errors = true
      /\ (GetConsistencyChecking plat = false -> Errors = [])
      /\ mTableErrorCount st'
         = Nat.iter (length Errors) (fun Count => wrap32 (Count + 1))
                    (mTableErrorCount st)
      /\ mTableWarningCount st' = mTableWarningCount st
      /\ StructCounts st' = StructCounts st
      /\ ConAttribute st' = ConAttribute st
      /\ gIndent st' = gIndent st.
Proof.
  induction Parser as [|Field Parser IH]; intros Ptr Offset st; cbn [ParseAcpiFields].
  - exists []. cbn. rewrite app_nil_r. repeat split.
  - destruct (Length <? wrap32 (Offset + AcpiParser.Length Field)).
    + cbv zeta.
      destruct (IH Ptr Offset (ClearItemPtr Field st))
        as (Errors & H1 & H2 & H3 & H4 & H5 & H6 & H7 & H8).
      exists Errors. unfold ClearItemPtr in *.
      destruct (AcpiParser.ItemPtr Field); auto 10.
    + cbv zeta. unfold ParseAcpiField, CheckFieldOffset.
      destruct (GetConsistencyChecking plat) eqn:Hcc; cbn [andb].
      * destruct (negb (Offset =? AcpiParser.Offset Field)).
        -- match goal with |- context [ParseAcpiFields ?p ?m ?t ?n ?l ?a ?ptr ?o ?s] =>
             destruct (IH ptr o s) as (Errors & H1 & H2 & H3 & H4 & H5 & H6 & H7 & H8) end.
           eexists (_ :: Errors). unfold StoreItemPtr in *.
           destruct (AcpiParser.ItemPtr Field); cbn in *;
             rewrite H1, <- app_assoc; cbn; rewrite H4, ErrorCount_iter_S;
             repeat split; auto; discriminate.
        -- match goal with |- context [ParseAcpiFields ?p ?m ?t ?n ?l ?a ?ptr ?o ?s] =>
             destruct (IH ptr o s) as (Errors & H1 & H2 & H3 & H4 & H5 & H6 & H7 & H8) end.
           exists Errors. unfold StoreItemPtr in *.
           destruct (AcpiParser.ItemPtr Field); cbn in *; repeat split; auto;
             discriminate.
      * match goal with |- context [ParseAcpiFields ?p ?m ?t ?n ?l ?a ?ptr ?o ?s] =>
          destruct (IH ptr o s) as (Errors & H1 & H2 & H3 & H4 & H5 & H6 & H7 & H8) end.
        exists Errors. unfold StoreItemPtr in *.
        destruct (AcpiParser.ItemPtr Field); cbn in *; repeat split; auto.
Qed.

(** X4. A call of [ParseAcpi] with [Trace] FALSE only captures pointers:
    it calls no formatter and no validator, counts no warning, touches no
    instance count and no text attribute, and restores the indent. All it
    can print are offset-mismatch errors, each counted once, and with
    consistency checking off it prints nothing at all. This holds for
    every descriptor list, whatever its callbacks would do. *)
Theorem ParseAcpi_untraced plat mem (Indent : Z) (AsciiName : option string)
  (Ptr Length : Z) (Parser : list ACPI_PARSER) (st : State) :
  let r := ParseAcpi plat mem false Indent AsciiName Ptr Length Parser st in
  exists Errors,
    ConOut (snd r) = ConOut st ++ Errors
    /\ forallb IsOffsetMismatch Errors = true
    /\ (GetConsistencyChecking plat = false -> Errors = [])
    /\ mTableErrorCount (snd r)
       = Nat.iter (length Errors) (fun Count => wrap32 (Count + 1)) (mTableErrorCount st)
    /\ mTableWarningCount (snd r) = mTableWarningCount st
    /\ StructCounts (snd r) = StructCounts st
    /\ ConAttribute (snd r) = ConAttribute st
    /\ gIndent (snd r) = IndentDepth st.
Proof.
  unfold ParseAcpi.
  destruct (ParseAcpiFields_untraced plat mem AsciiName Length Parser Ptr 0
              (ParseAcpiEnter plat false Indent AsciiName st))
    as (Errors & H1 & H2 & H3 & H4 & H5 & H6 & H7 & H8).
  destruct (ParseAcpiFields _ _ _ _ _ _ _ _ _) as [[Ptr' Offset'] st'].
  cbn [snd] in *. exists Errors. cbn -[wrap32 Nat.iter].
  rewrite H1, H4, H5, H6, H7, H8. cbn -[wrap32 Nat.iter].
  repeat split; auto.
  unfold IndentDepth. rewrite wrap32_sub_l. f_equal. lia.
Qed.

(** ** Buffers that end early *)

Lemma ClearItemPtrs_frame Parser : forall st,
  ConOut (ClearItemPtrs Parser st) = ConOut st
  /\ mTableErrorCount (ClearItemPtrs Parser st) = mTableErrorCount st
  /\ mTableWarningCount (ClearItemPtrs Parser st) = mTableWarningCount st
  /\ StructCounts (ClearItemPtrs Parser st) = StructCounts st.
Proof.
  unfold ClearItemPtrs.
  induction Parser as [|Field Parser IH]; intros st; cbn [fold_left]; [auto|].
  destruct (IH (ClearItemPtr Field st)) as (H1 & H2 & H3 & H4).
  rewrite H1, H2, H3, H4. unfold ClearItemPtr.
  destruct (AcpiParser.ItemPtr Field); auto.
Qed.

Lemma ItemPtrs_ClearItemPtrs Parser (Item : string) : forall st,
  ItemPtrs (ClearItemPtrs Parser st) !! Item
  = if decide (Item ∈ ItemNames Parser) then None else ItemPtrs st !! Item.
Proof.
  unfold ClearItemPtrs.
  induction Parser as [|Field Parser IH]; intros st; cbn [fold_left].
  - destruct (decide (Item ∈ ItemNames [])) as [H|]; [|reflexivity].
    cbn in H. now apply not_elem_of_nil in H.
  - rewrite IH, ItemNames_cons. unfold ClearItemPtr.
    destruct (AcpiParser.ItemPtr Field) as [Other|]; [|reflexivity].
    cbn [ItemPtrs set_ItemPtrs].
    destruct (decide (Item ∈ ItemNames Parser)) as [HIn|Hout].
    + rewrite decide_True by (apply elem_of_cons; now right). reflexivity.
    + destruct (decide (Item = Other)) as [->|Hne].
      * rewrite decide_True by (apply elem_of_cons; now left).
        apply lookup_delete_eq.
      * rewrite decide_False by (rewrite elem_of_cons; intros [?|?]; congruence).
        now apply lookup_delete_ne.
Qed.

(** X5. On an empty buffer (Length 0) [ParseAcpi] decodes nothing: it
    returns 0, resets the pointer of every descriptor to NULL, leaves
    every other pointer alone, counts no error and prints nothing but the
    table name. The fields have nonzero lengths (a field of length zero
    does fit an empty buffer). *)
Theorem ParseAcpi_empty_buffer plat mem (Trace : bool) (Indent : Z)
  (AsciiName : option string) (Ptr : Z) (Parser : list ACPI_PARSER) (st : State) :
  Forall (fun Field => 0 < AcpiParser.Length Field < 2 ^ 32) Parser ->
  let r := ParseAcpi plat mem Trace Indent AsciiName Ptr 0 Parser st in
  fst r = 0
  /\ (forall Item, Item ∈ ItemNames Parser -> ItemPtrs (snd r) !! Item = None)
  /\ (forall Item, Item ∉ ItemNames Parser ->
        ItemPtrs (snd r) !! Item = ItemPtrs st !! Item)
  /\ ConOut (snd r) = ConOut (ParseAcpiEnter plat Trace Indent AsciiName st)
  /\ mTableErrorCount (snd r) = mTableErrorCount st.
Proof.
  intros Hlen. unfold ParseAcpi. rewrite ParseAcpiFields_none_fit.
  2:{ eapply Forall_impl; [exact Hlen|]. cbn. intros Field H.
      rewrite Z.add_0_l, wrap32_small by (unfold uint32; lia). lia. }
  cbn [fst snd].
  change (ItemPtrs (set_gIndent ?v ?s)) with (ItemPtrs s).
  change (ConOut (set_gIndent ?v ?s)) with (ConOut s).
  change (mTableErrorCount (set_gIndent ?v ?s)) with (mTableErrorCount s).
  destruct (ClearItemPtrs_frame Parser (ParseAcpiEnter plat Trace Indent AsciiName st))
    as (H1 & H2 & _).
  assert (HI : ItemPtrs (ParseAcpiEnter plat Trace Indent AsciiName st) = ItemPtrs st).
  { unfold ParseAcpiEnter. destruct Trace, AsciiName; try reflexivity.
    destruct (GetColourHighlighting plat); reflexivity. }
  assert (HE : mTableErrorCount (ParseAcpiEnter plat Trace Indent AsciiName st)
               = mTableErrorCount st).
  { unfold ParseAcpiEnter. destruct Trace, AsciiName; try reflexivity.
    destruct (GetColourHighlighting plat); reflexivity. }
  repeat split; auto.
  - intros Item HIn. rewrite ItemPtrs_ClearItemPtrs. now rewrite decide_True.
  - intros Item Hout. rewrite ItemPtrs_ClearItemPtrs, decide_False by assumption.
    now rewrite HI.
  - congruence.
Qed.

Lemma ParseAcpi_empty_buffer_witness :
  Forall (fun Field => 0 < AcpiParser.Length Field < 2 ^ 32) Sample.TypeLength
  /\ fst (ParseAcpi (Sample.plat true) (Sample.MemOf []) false 0 None 0 0
            Sample.TypeLength Sample.InitialState) = 0.
Proof.
  assert (H : Forall (fun Field => 0 < AcpiParser.Length Field < 2 ^ 32)
                     Sample.TypeLength)
    by (unfold Sample.TypeLength; repeat constructor).
  split; [exact H|].
  exact (proj1 (ParseAcpi_empty_buffer (Sample.plat true) (Sample.MemOf []) false 0 None
                  0 Sample.TypeLength Sample.InitialState H)).
Defined.

Lemma LengthsAscend_cons Field Parser :
  LengthsAscend (Field :: Parser) = true ->
  Forall (fun Later => AcpiParser.Length Field <= AcpiParser.Length Later) Parser
  /\ LengthsAscend Parser = true.
Proof.
  cbn [LengthsAscend]. intros H. apply andb_prop in H as [H1 H2]. split; [|exact H2].
  apply List.Forall_forall. intros Later HIn.
  rewrite forallb_forall in H1. specialize (H1 Later HIn). lia.
Qed.

(** With ascending lengths, a field that does not fit is followed only by
    fields that do not fit either: the loop decodes a prefix of the list
    and resets the pointers of the rest. *)
Lemma ParseAcpiFields_ascending plat mem Trace AsciiName Length Parser :
  LengthsOk Parser ->
  LengthsAscend Parser = true ->
  forall Ptr Offset st,
    0 <= Offset <= Length ->
    Offset + SumLengths Parser < 2 ^ 32 ->
    exists k,
      (k <= length Parser)%nat
      /\ ParseAcpiFields plat mem Trace AsciiName Length Parser Ptr Offset st
         = (Ptr + SumLengths (take k Parser), Offset + SumLengths (take k Parser),
            ClearItemPtrs (drop k Parser)
              (DecodeFields plat mem Trace AsciiName (take k Parser) Ptr Offset st))
      /\ Offset + SumLengths (take k Parser) <= Length
      /\ Forall (fun Later =>
                   Length < Offset + SumLengths (take k Parser) + AcpiParser.Length Later)
                (drop k Parser).
Proof.
  intros HL. induction HL as [|Field Parser Hlen HL IH]; intros HA Ptr Offset st HO Hsum.
  - exists 0%nat. cbn. rewrite !Z.add_0_r. repeat split; auto; lia.
  - apply LengthsAscend_cons in HA as [Hlater HA].
    pose proof (SumLengths_nonneg Parser HL) as Hrest.
    cbn [SumLengths] in Hsum.
    destruct (Z.lt_ge_cases Length (Offset + AcpiParser.Length Field)) as [Hout|Hin].
    + exists 0%nat. cbn [take drop SumLengths DecodeFields length].
      rewrite !Z.add_0_r.
      assert (Hnone : Forall (fun Later => Length < Offset + AcpiParser.Length Later)
                             (Field :: Parser)).
      { apply List.Forall_cons; [exact Hout|].
        eapply Forall_impl; [exact Hlater|]. cbn. intros; lia. }
      split; [lia|]. split; [|split; [lia|exact Hnone]].
      apply ParseAcpiFields_none_fit.
      assert (HL' : LengthsOk (Field :: Parser)) by (constructor; assumption).
      pose proof (Length_le_SumLengths _ HL') as Hle.
      rewrite List.Forall_forall in *. intros Later HIn.
      specialize (Hnone Later HIn). specialize (Hle Later HIn). cbn in Hle.
      assert (0 <= AcpiParser.Length Later).
      { destruct HIn as [<-|HIn]; [exact Hlen|]. exact (HL Later HIn). }
      rewrite wrap32_small by (unfold uint32; lia). exact Hnone.
    + destruct (IH HA (Ptr + AcpiParser.Length Field) (Offset + AcpiParser.Length Field)
                  (ParseAcpiField plat mem Trace AsciiName Field Ptr Offset st)
                  ltac:(lia) ltac:(lia)) as (k & Hk & Heq & Hfit & Hrest').
      exists (S k). cbn [take drop SumLengths DecodeFields length ParseAcpiFields].
      rewrite wrap32_small by (unfold uint32; lia).
      destruct (Z.ltb_spec Length (Offset + AcpiParser.Length Field)); [lia|].
      rewrite Heq. split; [lia|]. split; [f_equal; f_equal; lia|]. split; [lia|].
      eapply Forall_impl; [exact Hrest'|]. cbn. intros; lia.
Qed.

(** X6. For a descriptor list whose lengths never decrease (the structure
    headers and most structure bodies of the MADT and PPTT parsers),
    [ParseAcpi] on a buffer of any length [N] decodes exactly the longest
    prefix of the fields that fits in [N] bytes, as it does on the whole
    buffer, resets the pointer of every other field, and returns the size
    of that prefix. So a NULL pointer after the call tells the caller
    that the field lies past the end of the buffer. *)
Theorem ParseAcpi_ascending_lengths plat mem (Trace : bool) (Indent : Z)
  (AsciiName : option string) (Ptr N : Z) (Parser : list ACPI_PARSER) (st : State) :
  LengthsOk Parser ->
  SumLengths Parser < 2 ^ 32 ->
  LengthsAscend Parser = true ->
  0 <= N ->
  exists k,
    (k <= length Parser)%nat
    /\ ParseAcpi plat mem Trace Indent AsciiName Ptr N Parser st
       = (SumLengths (take k Parser),
          ClearItemPtrs (drop k Parser)
            (snd (ParseAcpi plat mem Trace Indent AsciiName Ptr (SumLengths Parser)
                            (take k Parser) st)))
    /\ SumLengths (take k Parser) <= N
    /\ Forall (fun Later => N < SumLengths (take k Parser) + AcpiParser.Length Later)
              (drop k Parser).
Proof.
  intros HL Hsum HA HN.
  destruct (ParseAcpiFields_ascending plat mem Trace AsciiName N Parser HL HA Ptr 0
              (ParseAcpiEnter plat Trace Indent AsciiName st) ltac:(lia) ltac:(lia))
    as (k & Hk & Heq & Hfit & Hrest).
  exists k. rewrite !Z.add_0_l in *. split; [exact Hk|].
  split; [|split; [exact Hfit|]].
  - assert (HLt : LengthsOk (take k Parser)) by now apply Forall_take.
    assert (HLd : LengthsOk (drop k Parser)) by now apply Forall_drop.
    pose proof (SumLengths_nonneg _ HLd) as Hd.
    assert (HTotal : SumLengths Parser
                     = SumLengths (take k Parser) + SumLengths (drop k Parser))
      by (rewrite <- SumLengths_app, take_drop; reflexivity).
    unfold ParseAcpi. rewrite Heq.
    rewrite ParseAcpiFields_fit by (auto; lia).
    rewrite Z.add_0_l. cbn [snd].
    rewrite ClearItemPtrs_set_gIndent, gIndent_ClearItemPtrs. reflexivity.
  - exact Hrest.
Qed.

Lemma ParseAcpi_ascending_lengths_witness :
  LengthsAscend MadtInterruptControllerHeaderParser = true
  /\ exists k,
       (k <= length MadtInterruptControllerHeaderParser)%nat
       /\ ParseAcpi (Sample.plat true) (Sample.MemOf [14]) false 0 None 0 1
            MadtInterruptControllerHeaderParser Sample.InitialState
          = (SumLengths (take k MadtInterruptControllerHeaderParser),
             ClearItemPtrs (drop k MadtInterruptControllerHeaderParser)
               (snd (ParseAcpi (Sample.plat true) (Sample.MemOf [14]) false 0 None 0
                       (SumLengths MadtInterruptControllerHeaderParser)
                       (take k MadtInterruptControllerHeaderParser)
                       Sample.InitialState)))
       /\ SumLengths (take k MadtInterruptControllerHeaderParser) <= 1
       /\ Forall (fun Later =>
                    1 < SumLengths (take k MadtInterruptControllerHeaderParser)
                        + AcpiParser.Length Later)
                 (drop k MadtInterruptControllerHeaderParser).
Proof.
  split; [reflexivity|].
  exact (ParseAcpi_ascending_lengths (Sample.plat true) (Sample.MemOf [14]) false 0 None
           0 1 MadtInterruptControllerHeaderParser Sample.InitialState
           ltac:(unfold LengthsOk, MadtInterruptControllerHeaderParser;
                 repeat constructor; cbn; lia)
           ltac:(by_computation) eq_refl ltac:(lia)).
Defined.

(** ** Resetting and summing the instance counts *)

Lemma ResetCounts_other (StructDb : ACPI_STRUCT_DATABASE) (Indices : list nat)
  (Key : string * nat) : forall st,
  (forall Index, In Index Indices -> Key <> (StructDb.Name StructDb, Index)) ->
  StructCounts (fold_left (fun st Index => SetCount StructDb Index 0 st) Indices st)
    !! Key
  = StructCounts st !! Key.
Proof.
  induction Indices as [|Head Indices IH]; intros st Hne; cbn [fold_left];
    [reflexivity|].
  rewrite IH by (intros Index HIn; apply Hne; now right).
  cbn. apply lookup_insert_ne. intros Heq. apply (Hne Head); [now left|congruence].
Qed.

Lemma ResetCounts_zero (StructDb : ACPI_STRUCT_DATABASE) (Indices : list nat)
  (Index : nat) : forall st,
  In Index Indices ->
  StructCounts (fold_left (fun st Index => SetCount StructDb Index 0 st) Indices st)
    !! (StructDb.Name StructDb, Index)
  = Some 0.
Proof.
  induction Indices as [|Head Indices IH]; intros st HIn; [destruct HIn|].
  cbn [fold_left].
  destruct (in_dec Nat.eq_dec Index Indices) as [Hlater|Hnot]; [now apply IH|].
  destruct HIn as [->|HIn]; [|contradiction].
  rewrite ResetCounts_other by (intros i Hi Heq; apply Hnot; congruence).
  cbn. apply lookup_insert_eq.
Qed.

Lemma ResetCounts_frame (StructDb : ACPI_STRUCT_DATABASE) (Indices : list nat) :
  forall st,
    let st' := fold_left (fun st Index => SetCount StructDb Index 0 st) Indices st in
    ConOut st' = ConOut st /\ mTableErrorCount st' = mTableErrorCount st
    /\ mTableWarningCount st' = mTableWarningCount st
    /\ ItemPtrs st' = ItemPtrs st /\ gIndent st' = gIndent st.
Proof.
  induction Indices as [|Head Indices IH]; intros st; cbn [fold_left]; [cbn; auto|].
  apply (IH (SetCount StructDb Head 0 st)).
Qed.

Lemma SumCounts_fold (g : nat -> Z) (Indices : list nat) : forall a,
  fold_left (fun Total Index => wrap32 (Total + g Index)) Indices (wrap32 a)
  = wrap32 (a + fold_right Z.add 0 (map g Indices)).
Proof.
  induction Indices as [|Head Indices IH]; intros a; cbn [fold_left map fold_right].
  - now rewrite Z.add_0_r.
  - assert (H : wrap32 (wrap32 a + g Head) = wrap32 (a + g Head))
      by (unfold wrap32; apply Zplus_mod_idemp_l).
    rewrite H, IH. f_equal. lia.
Qed.

(** [SumAcpiStructCounts] is the sum of the counts modulo [2^32]. *)
Lemma SumAcpiStructCounts_TotalCount StructDb st :
  SumAcpiStructCounts StructDb st = wrap32 (TotalCount StructDb st).
Proof.
  unfold SumAcpiStructCounts, TotalCount.
  change 0 with (wrap32 0) at 1. now rewrite SumCounts_fold.
Qed.

(** X7. [ResetAcpiStructCounts] sets the count of every entry of the
    database to zero, so that [SumAcpiStructCounts] is 0 afterwards; it
    leaves the counts of every other database alone, and nothing else
    of the state changes. *)
Theorem ResetAcpiStructCounts_zero (StructDb : ACPI_STRUCT_DATABASE) (st : State) :
  let st' := ResetAcpiStructCounts StructDb st in
  (forall Index, (Index < length (StructDb.Entries StructDb))%nat ->
     GetCount StructDb Index st' = 0)
  /\ (forall DbName Index,
        DbName <> StructDb.Name StructDb
        \/ (length (StructDb.Entries StructDb) <= Index)%nat ->
        CountAt DbName Index st' = CountAt DbName Index st)
  /\ SumAcpiStructCounts StructDb st' = 0
  /\ ConOut st' = ConOut st
  /\ mTableErrorCount st' = mTableErrorCount st
  /\ mTableWarningCount st' = mTableWarningCount st
  /\ ItemPtrs st' = ItemPtrs st
  /\ gIndent st' = gIndent st.
Proof.
  intros st'.
  assert (Hzero : forall Index, (Index < length (StructDb.Entries StructDb))%nat ->
                    GetCount StructDb Index st' = 0).
  { intros Index Hlt. unfold GetCount, CountAt. subst st'.
    unfold ResetAcpiStructCounts. rewrite ResetCounts_zero; [reflexivity|].
    apply in_seq. lia. }
  split; [exact Hzero|]. split; [|split].
  - intros DbName Index Hother. unfold CountAt. subst st'.
    unfold ResetAcpiStructCounts. rewrite ResetCounts_other; [reflexivity|].
    intros i Hi Heq. apply in_seq in Hi. injection Heq as -> ->.
    destruct Hother as [H|H]; [congruence|lia].
  - rewrite SumAcpiStructCounts_TotalCount. unfold TotalCount.
    assert (Hall : forall l, (forall i, In i l ->
                               (i < length (StructDb.Entries StructDb))%nat) ->
              fold_right Z.add 0 (map (fun Index => GetCount StructDb Index st') l) = 0).
    { induction l as [|i l IH]; intros Hl; cbn; [reflexivity|].
      rewrite Hzero by (apply Hl; now left).
      rewrite IH by (intros; apply Hl; now right). reflexivity. }
    rewrite Hall; [reflexivity|]. intros i Hi. apply in_seq in Hi. lia.
  - apply ResetCounts_frame.
Qed.

Lemma TotalCount_update (g g' : nat -> Z) (k : nat) (Indices : list nat) :
  NoDup Indices -> In k Indices ->
  (forall i, i <> k -> g' i = g i) ->
  fold_right Z.add 0 (map g' Indices)
  = fold_right Z.add 0 (map g Indices) + (g' k - g k).
Proof.
  intros Hdup HIn Hother.
  assert (Hsame : forall l, ~ In k l ->
            fold_right Z.add 0 (map g' l) = fold_right Z.add 0 (map g l)).
  { induction l as [|i l IH]; intros Hnot; cbn; [reflexivity|].
    rewrite Hother by (intros ->; apply Hnot; now left).
    rewrite IH by (intros H; apply Hnot; now right). reflexivity. }
  induction Hdup as [|i l Hfresh Hdup IH]; [destruct HIn|]. cbn.
  rewrite list_elem_of_In in Hfresh.
  destruct HIn as [->|HIn].
  - rewrite Hsame by assumption. lia.
  - rewrite IH by assumption.
    rewrite Hother by (intros ->; contradiction). lia.
Qed.

(** X8. Every structure that [ParseAcpiStruct] accepts (a type code
    inside the database) raises [SumAcpiStructCounts] by exactly one, in
    [UINT32] arithmetic, whichever way the entry is decoded. The sum that
    the function computes is the sum of the counts modulo [2^32]. *)
Theorem SumAcpiStructCounts_after_dispatch plat mem (Indent Ptr : Z)
  (StructDb : ACPI_STRUCT_DATABASE) (Offset StructType Length : Z)
  (OptArg0 OptArg1 : option Z) (st : State) (Entry : ACPI_STRUCT_INFO) :
  0 <= StructType < StructDb.EntryCount StructDb ->
  StructDb.Entries StructDb !! Z.to_nat StructType = Some Entry ->
  HandlerPreserves StructCounts (StructInfo.Handler Entry) ->
  let r := ParseAcpiStruct plat mem Indent Ptr StructDb Offset StructType Length
                           OptArg0 OptArg1 st in
  SumAcpiStructCounts StructDb (snd r) = wrap32 (SumAcpiStructCounts StructDb st + 1)
  /\ SumAcpiStructCounts StructDb st = wrap32 (TotalCount StructDb st).
Proof.
  intros [Hpos Hlt] HEntry HH r. split; [|apply SumAcpiStructCounts_TotalCount].
  pose proof (ParseAcpiStruct_StructCounts plat mem Indent Ptr StructDb Offset
                StructType Length OptArg0 OptArg1 st Entry Hlt HEntry HH) as HC.
  fold r in HC. rewrite !SumAcpiStructCounts_TotalCount. unfold TotalCount.
  set (k := Z.to_nat StructType) in *.
  rewrite (TotalCount_update (fun Index => GetCount StructDb Index st)
             (fun Index => GetCount StructDb Index (snd r)) k).
  - assert (Hk : GetCount StructDb k (snd r) = wrap32 (GetCount StructDb k st + 1)).
    { unfold GetCount at 1, CountAt. rewrite HC, lookup_insert_eq. reflexivity. }
    rewrite Hk. unfold wrap32.
    rewrite Z.add_sub_assoc, Zminus_mod, Zplus_mod, Zmod_mod, <- Zplus_mod, <- Zminus_mod.
    rewrite Zplus_mod_idemp_l. f_equal. lia.
  - apply NoDup_seq.
  - apply in_seq. unfold StructDb.EntryCount in Hlt. lia.
  - intros i Hne. unfold GetCount, CountAt. rewrite HC.
    rewrite lookup_insert_ne by congruence. reflexivity.
Qed.

Lemma SumAcpiStructCounts_after_dispatch_witness :
  (0 <= 1 < StructDb.EntryCount (PpttDatabase (Sample.plat true)
                                              (Sample.MemOf Sample.CacheBytes)))
  /\ SumAcpiStructCounts
       (PpttDatabase (Sample.plat true) (Sample.MemOf Sample.CacheBytes))
       (snd (ParseAcpiStruct (Sample.plat true) (Sample.MemOf Sample.CacheBytes) 2 0
               (PpttDatabase (Sample.plat true) (Sample.MemOf Sample.CacheBytes))
               36 1 24 None None Sample.InitialState))
     = wrap32 (SumAcpiStructCounts
                 (PpttDatabase (Sample.plat true) (Sample.MemOf Sample.CacheBytes))
                 Sample.InitialState + 1).
Proof.
  assert (Hrange : 0 <= 1 < StructDb.EntryCount
                              (PpttDatabase (Sample.plat true)
                                            (Sample.MemOf Sample.CacheBytes)))
    by (unfold StructDb.EntryCount; cbn; lia).
  split; [exact Hrange|].
  exact (proj1 (SumAcpiStructCounts_after_dispatch (Sample.plat true)
                  (Sample.MemOf Sample.CacheBytes) 2 0
                  (PpttDatabase (Sample.plat true) (Sample.MemOf Sample.CacheBytes))
                  36 1 24 None None Sample.InitialState
                  (ADD_ACPI_STRUCT_INFO_ARRAY "Cache" 1
                     (Z.lor (Z.lor (Z.lor 1 2) 4) 8)
                     (CacheTypeStructureParser (Sample.plat true)
                                               (Sample.MemOf Sample.CacheBytes)))
                  Hrange eq_refl
                  (Forall_lookup_1 _ _ 1%nat _
                     (PpttDatabase_preserves_StructCounts (Sample.plat true)
                        (Sample.MemOf Sample.CacheBytes))
                     eq_refl))).
Defined.

(** ** Validating the counts again, and off ARM *)

(** X9. [ValidateAcpiStructCounts] can be called again on the same
    counts: the second call returns the same verdict, prints the same
    report after the first one, and the counts are still those before the
    first call. *)
Theorem ValidateAcpiStructCounts_twice plat (StructDb : ACPI_STRUCT_DATABASE)
  (st : State) :
  (forall Index, 0 <= GetCount StructDb Index st) ->
  let r1 := ValidateAcpiStructCounts plat StructDb st in
  let r2 := ValidateAcpiStructCounts plat StructDb (snd r1) in
  fst r2 = fst r1
  /\ ConOut (snd r2)
     = ConOut (snd r1) ++ drop (length (ConOut st)) (ConOut (snd r1))
  /\ StructCounts (snd r2) = StructCounts st.
Proof.
  intros Hpos r1 r2.
  set (Indices := seq 0 (length (StructDb.Entries StructDb))).
  assert (Hin : Forall (fun Index => (Index < length (StructDb.Entries StructDb))%nat)
                       Indices).
  { apply List.Forall_forall. intros Index H. apply in_seq in H. lia. }
  destruct (ValidateCountStep_fold plat StructDb st Indices Hpos Hin true
              (PrintEv EvTableBreakdown st) eq_refl) as (A1 & A2 & _ & A4).
  change (fold_left _ _ _) with r1 in A1, A2, A4.
  destruct (ValidateCountStep_fold plat StructDb st Indices Hpos Hin true
              (PrintEv EvTableBreakdown (snd r1)) A4) as (B1 & B2 & _ & B4).
  change (fold_left _ _ _) with r2 in B1, B2, B4.
  split; [congruence|]. split; [|exact B4].
  rewrite B2, ConOut_PrintEv, <- app_assoc. f_equal.
  rewrite A2, ConOut_PrintEv, <- app_assoc, drop_app_length. reflexivity.
Qed.

Lemma ValidateAcpiStructCounts_twice_witness :
  (forall Index, 0 <= GetCount Sample.Arch4 Index Sample.Arch4State)
  /\ fst (ValidateAcpiStructCounts (Sample.plat true) Sample.Arch4
            (snd (ValidateAcpiStructCounts (Sample.plat true) Sample.Arch4
                                           Sample.Arch4State)))
     = fst (ValidateAcpiStructCounts (Sample.plat true) Sample.Arch4 Sample.Arch4State).
Proof.
  split; [exact Arch4State_counts_nonnegative|].
  exact (proj1 (ValidateAcpiStructCounts_twice (Sample.plat true) Sample.Arch4
                  Sample.Arch4State Arch4State_counts_nonnegative)).
Defined.

Lemma ValidateCountStep_off_arm plat StructDb (Entries : list ACPI_STRUCT_INFO) :
  MDE_CPU_ARM_OR_AARCH64 plat = false ->
  Forall (fun Entry => StructInfo.CompatArch Entry <> 0) Entries ->
  forall (First : nat) (AllValid : bool) (st : State),
    (forall i Entry, Entries !! i = Some Entry ->
       StructDb.Entries StructDb !! (First + i)%nat = Some Entry) ->
    let r := fold_left (ValidateCountStep plat StructDb) (seq First (length Entries))
                       (AllValid, st) in
    fst r = AllValid
    /\ mTableErrorCount (snd r) = mTableErrorCount st
    /\ StructCounts (snd r) = StructCounts st
    /\ ConOut (snd r)
       = ConOut st
         ++ imap (fun i Entry => EvInstanceCount (StructInfo.Name Entry)
                                   (GetCount StructDb (First + i) st)) Entries.
Proof.
  intros Hx86. induction 1 as [|Entry Entries Hmask _ IH]; intros First AllValid st Hdb.
  - cbn. now rewrite app_nil_r.
  - cbn [length seq fold_left].
    assert (HEntry : StructDb.Entries StructDb !! First = Some Entry)
      by (rewrite <- (Nat.add_0_r First); now apply Hdb).
    assert (Hvalid : IsAcpiStructTypeValid plat (Z.of_nat First) StructDb = true).
    { unfold IsAcpiStructTypeValid, StructDb.EntryCount.
      pose proof (lookup_lt_Some _ _ _ HEntry).
      destruct (Z.leb_spec (Z.of_nat (length (StructDb.Entries StructDb)))
                           (Z.of_nat First)); [lia|].
      rewrite Nat2Z.id, HEntry, Hx86.
      now destruct (Z.eqb_spec (StructInfo.CompatArch Entry) 0). }
    assert (Hstep : ValidateCountStep plat StructDb (AllValid, st) First
                    = (AllValid, PrintEv (EvInstanceCount (StructInfo.Name Entry)
                                            (GetCount StructDb First st)) st))
      by (unfold ValidateCountStep; now rewrite HEntry, Hvalid).
    cbv zeta. rewrite Hstep.
    destruct (IH (S First) AllValid
                (PrintEv (EvInstanceCount (StructInfo.Name Entry)
                            (GetCount StructDb First st)) st))
      as (H1 & H2 & H3 & H4).
    { intros i E HE. rewrite Nat.add_succ_l, <- Nat.add_succ_r.
      now apply (Hdb (S i)). }
    cbv zeta in *. split; [exact H1|]. split; [exact H2|]. split; [exact H3|].
    rewrite H4, ConOut_PrintEv, <- app_assoc. cbn [imap app]. rewrite Nat.add_0_r.
    f_equal. f_equal. apply imap_ext. intros i E HE. cbn.
    f_equal. unfold GetCount, CountAt. cbn. f_equal. f_equal. f_equal. lia.
Qed.

(** X10. On a build that is neither ARM nor AArch64 the architecture
    check is not made: [IsAcpiStructTypeValid] accepts every entry with a
    nonzero compatibility mask, so [ValidateAcpiStructCounts] returns TRUE
    and counts no error whatever the instance counts are, and prints the
    count of every entry, the ARM-only ones included. *)
Theorem ValidateAcpiStructCounts_off_arm plat (StructDb : ACPI_STRUCT_DATABASE)
  (st : State) :
  MDE_CPU_ARM_OR_AARCH64 plat = false ->
  Forall (fun Entry => StructInfo.CompatArch Entry <> 0) (StructDb.Entries StructDb) ->
  let r := ValidateAcpiStructCounts plat StructDb st in
  fst r = true
  /\ mTableErrorCount (snd r) = mTableErrorCount st
  /\ ConOut (snd r)
     = ConOut st
       ++ EvTableBreakdown
          :: imap (fun Index Entry => EvInstanceCount (StructInfo.Name Entry)
                                        (GetCount StructDb Index st))
                  (StructDb.Entries StructDb).
Proof.
  intros Hx86 Hmask. unfold ValidateAcpiStructCounts.
  destruct (ValidateCountStep_off_arm plat StructDb (StructDb.Entries StructDb)
              Hx86 Hmask 0 true (PrintEv EvTableBreakdown st))
    as (H1 & H2 & _ & H4); [intros i E HE; exact HE|].
  cbv zeta in *. split; [exact H1|]. split; [exact H2|].
  rewrite H4, ConOut_PrintEv, <- app_assoc. reflexivity.
Qed.

Lemma MadtDatabase_masks_x64 mem :
  Forall (fun Entry => StructInfo.CompatArch Entry <> 0)
         (StructDb.Entries (MadtDatabase Cases.plat_x64 mem)).
Proof. cbn. unfold MadtStructs. repeat constructor; cbn; discriminate. Qed.

Lemma ValidateAcpiStructCounts_off_arm_witness :
  MDE_CPU_ARM_OR_AARCH64 Cases.plat_x64 = false
  /\ fst (ValidateAcpiStructCounts Cases.plat_x64
            (MadtDatabase Cases.plat_x64 (Sample.MemOf []))
            (IncrementCount (MadtDatabase Cases.plat_x64 (Sample.MemOf [])) 11
                            Sample.InitialState))
     = true.
Proof.
  split; [reflexivity|].
  exact (proj1 (ValidateAcpiStructCounts_off_arm Cases.plat_x64
                  (MadtDatabase Cases.plat_x64 (Sample.MemOf []))
                  (IncrementCount (MadtDatabase Cases.plat_x64 (Sample.MemOf [])) 11
                                  Sample.InitialState)
                  eq_refl (MadtDatabase_masks_x64 (Sample.MemOf [])))).
Defined.

(** ** The checksum byte *)

Lemma ByteSum_outside mem Address b (n : nat) : forall Ptr,
  Address < Ptr \/ Ptr + Z.of_nat n <= Address ->
  ByteSum (MemSet mem Address b) n Ptr = ByteSum mem n Ptr.
Proof.
  induction n as [|n IH]; intros Ptr Hout; cbn [ByteSum]; [reflexivity|].
  rewrite IH by lia. unfold MemSet at 1.
  destruct (Z.eqb_spec Ptr Address); [lia|reflexivity].
Qed.

Lemma ByteSum_MemSet mem b (n : nat) : forall Ptr i,
  0 <= i < Z.of_nat n ->
  ByteSum (MemSet mem (Ptr + i) b) n Ptr
  = ByteSum mem n Ptr - byte_val (mem (Ptr + i)) + byte_val b.
Proof.
  induction n as [|n IH]; intros Ptr i Hi; [lia|]. cbn [ByteSum].
  destruct (Z.eq_dec i 0) as [->|Hnz].
  - rewrite Z.add_0_r, ByteSum_outside by lia. unfold MemSet.
    rewrite Z.eqb_refl. lia.
  - replace (Ptr + i) with (Ptr + 1 + (i - 1)) by lia.
    rewrite IH by lia. unfold MemSet.
    destruct (Z.eqb_spec Ptr (Ptr + 1 + (i - 1))); [lia|]. lia.
Qed.

(** X11. Whatever the other bytes of a table are, exactly one value of
    the byte at any position [i] of the table makes [VerifyChecksum]
    return TRUE: the two's complement, modulo 256, of the sum of the
    other bytes. *)
Theorem VerifyChecksum_checksum_byte plat mem (Log : bool) (Ptr Length i : Z)
  (b : byte) (st : State) :
  0 <= i < Length ->
  let Others := ByteSum mem (Z.to_nat Length) Ptr - byte_val (mem (Ptr + i)) in
  fst (VerifyChecksum plat (MemSet mem (Ptr + i) b) Log Ptr Length st) = true
  <-> byte_val b = (- Others) mod 256.
Proof.
  intros Hi Others. unfold VerifyChecksum. cbn [fst].
  change 0 with (wrap8 0) at 1. rewrite ChecksumLoop_ByteSum.
  rewrite ByteSum_MemSet by lia. fold Others.
  pose proof (byte_val_range b) as Hb. unfold wrap8.
  change (2 ^ 8) with 256. rewrite Z.eqb_eq.
  split; intros H; Z.div_mod_to_equations; lia.
Qed.

Lemma VerifyChecksum_checksum_byte_witness :
  0 <= 3 < 4
  /\ (fst (VerifyChecksum (Sample.plat true)
             (MemSet (Sample.MemOf [65; 80; 73; 0]) (0 + 3) x26) true 0 4
             Sample.InitialState) = true
      <-> byte_val x26
          = (- (ByteSum (Sample.MemOf [65; 80; 73; 0]) (Z.to_nat 4) 0
                - byte_val (Sample.MemOf [65; 80; 73; 0] (0 + 3)))) mod 256).
Proof.
  assert (H : 0 <= 3 < 4) by lia.
  split; [exact H|].
  exact (VerifyChecksum_checksum_byte (Sample.plat true)
           (Sample.MemOf [65; 80; 73; 0]) true 0 4 3 x26 Sample.InitialState H).
Defined.

(** X12. [VerifyChecksum] leaves the console as it found it but for the
    one status line it prints when [Log] is TRUE: the text attribute is
    the original one again, with colours on as well as off, and the
    indent, the static pointers, the instance counts and the warning
    counter are untouched. *)
Theorem VerifyChecksum_console plat mem (Log : bool) (Ptr Length : Z) (st : State) :
  let Sum := ByteSum mem (Z.to_nat Length) Ptr mod 256 in
  let st' := snd (VerifyChecksum plat mem Log Ptr Length st) in
  ConAttribute st' = ConAttribute st
  /\ ConOut st'
     = ConOut st
       ++ (if Log
           then [if Sum =? 0 then EvChecksumOk else EvChecksumFailed Sum]
           else [])
  /\ gIndent st' = gIndent st
  /\ ItemPtrs st' = ItemPtrs st
  /\ StructCounts st' = StructCounts st
  /\ mTableWarningCount st' = mTableWarningCount st.
Proof.
  assert (Hloop : ChecksumLoop mem (Z.to_nat Length) Ptr 0
                  = ByteSum mem (Z.to_nat Length) Ptr mod 256).
  { change 0 with (wrap8 0) at 1. rewrite ChecksumLoop_ByteSum. reflexivity. }
  unfold VerifyChecksum. rewrite Hloop. cbn zeta. cbn [snd].
  destruct Log; [|cbn; rewrite app_nil_r; auto 10].
  destruct (ByteSum mem (Z.to_nat Length) Ptr mod 256 =? 0);
    destruct (GetColourHighlighting plat); cbn; auto 10.
Qed.

(** ** The walk over the structures: one byte left, and going on *)

Lemma StructHeader_one_byte plat mem (Name0 Name1 Name2 : option string)
  (TypeVar LengthVar : string) (Ptr : Z) (st : State) :
  let st' := snd (ParseAcpi plat mem false 0 None Ptr 1
             [ AcpiParser.mkParser Name0 1 0 None None (Some TypeVar) None None;
               AcpiParser.mkParser Name1 1 1 None None (Some LengthVar) None None;
               AcpiParser.mkParser Name2 2 2 None None None None None ] st) in
  ItemPtrs st' !! LengthVar = None
  /\ ConOut st' = ConOut st
  /\ mTableErrorCount st' = mTableErrorCount st
  /\ StructCounts st' = StructCounts st.
Proof.
  unfold ParseAcpi, ParseAcpiEnter.
  cbn [ParseAcpiFields AcpiParser.Length].
  change (wrap32 (0 + 1)) with 1. change (wrap32 (1 + 1)) with 2.
  change (wrap32 (1 + 2)) with 3. cbn [Z.ltb Z.compare Pos.compare Pos.compare_cont].
  unfold ParseAcpiField, CheckFieldOffset, StoreItemPtr, ClearItemPtr.
  cbn [AcpiParser.Offset AcpiParser.ItemPtr]. rewrite Z.eqb_refl, andb_false_r.
  cbn -[wrap32]. repeat split. apply lookup_delete_eq.
Qed.

Lemma StructWalk_one_byte plat mem (Name0 Name1 Name2 : option string)
  (TypeVar LengthVar : string) (StructDb : ACPI_STRUCT_DATABASE)
  (Finish : State -> State) (AcpiTableLength : Z) (fuel : nat)
  (StructPtr Offset : Z) (st : State) :
  Offset + 1 = AcpiTableLength ->
  exists st',
    StructWalk plat mem
      [ AcpiParser.mkParser Name0 1 0 None None (Some TypeVar) None None;
        AcpiParser.mkParser Name1 1 1 None None (Some LengthVar) None None;
        AcpiParser.mkParser Name2 2 2 None None None None None ]
      TypeVar LengthVar StructDb Finish AcpiTableLength (S fuel) StructPtr Offset st
    = Returned st'
    /\ ConOut st' = ConOut st ++ [EvInsufficientHeader (StructDb.Name StructDb) 1]
    /\ mTableErrorCount st' = wrap32 (mTableErrorCount st + 1)
    /\ StructCounts st' = StructCounts st.
Proof.
  intros Hone. cbn [StructWalk].
  destruct (Z.ltb_spec Offset AcpiTableLength); [|lia].
  replace (AcpiTableLength - Offset) with 1 by lia. change (wrap32 1) with 1.
  destruct (StructHeader_one_byte plat mem Name0 Name1 Name2 TypeVar LengthVar
              StructPtr st) as (HN & HO & HE & HC).
  destruct (ParseAcpi _ _ _ _ _ _ _ _ _) as [Parsed st1]. cbn [snd] in *.
  rewrite HN.
  destruct (ItemPtrs st1 !! TypeVar); eexists; (split; [reflexivity|]);
    cbn; rewrite HO, HE, HC; auto.
Qed.

(** X13. In the loops of [ParseAcpiMadt] and [ParseAcpiPptt], when a
    single byte of the table is left the structure header cannot be read:
    the parser prints and counts one insufficient-length error (with the
    one remaining byte) and returns, without decoding a structure and
    without the final validation of the counts. *)
Theorem insufficient_header_aborts_walk plat mem (AcpiTableLength : Z) (fuel : nat)
  (StructPtr Offset : Z) (st : State) :
  Offset + 1 = AcpiTableLength ->
  (exists st',
     StructWalk plat mem MadtInterruptControllerHeaderParser
       "MadtInterruptControllerType" "MadtInterruptControllerLength"
       (MadtDatabase plat mem) (MadtFinish plat mem) AcpiTableLength (S fuel)
       StructPtr Offset st
     = Returned st'
     /\ ConOut st'
        = ConOut st ++ [EvInsufficientHeader "Interrupt Controller Structure" 1]
     /\ mTableErrorCount st' = wrap32 (mTableErrorCount st + 1)
     /\ StructCounts st' = StructCounts st)
  /\ (exists st',
     StructWalk plat mem ProcessorTopologyStructureHeaderParser
       "ProcessorTopologyStructureType" "ProcessorTopologyStructureLength"
       (PpttDatabase plat mem) (PpttFinish plat mem) AcpiTableLength (S fuel)
       StructPtr Offset st
     = Returned st'
     /\ ConOut st'
        = ConOut st ++ [EvInsufficientHeader "Processor Topology Structure" 1]
     /\ mTableErrorCount st' = wrap32 (mTableErrorCount st + 1)
     /\ StructCounts st' = StructCounts st).
Proof.
  intros Hone. split.
  - now apply (StructWalk_one_byte plat mem None (Some "Length"%string)
                 (Some "Reserved"%string)).
  - now apply (StructWalk_one_byte plat mem (Some "Type"%string)
                 (Some "Length"%string) (Some "Reserved"%string)).
Qed.

Lemma insufficient_header_aborts_walk_witness :
  60 + 1 = 61
  /\ exists st',
       StructWalk (Sample.plat true) (Sample.MemOf Sample.MadtBytes)
         MadtInterruptControllerHeaderParser
         "MadtInterruptControllerType" "MadtInterruptControllerLength"
         (MadtDatabase (Sample.plat true) (Sample.MemOf Sample.MadtBytes))
         (MadtFinish (Sample.plat true) (Sample.MemOf Sample.MadtBytes))
         61 1 60 60 Sample.InitialState
       = Returned st'
       /\ ConOut st'
          = ConOut Sample.InitialState
            ++ [EvInsufficientHeader "Interrupt Controller Structure" 1]
       /\ mTableErrorCount st' = wrap32 (mTableErrorCount Sample.InitialState + 1)
       /\ StructCounts st' = StructCounts Sample.InitialState.
Proof.
  assert (H : 60 + 1 = 61) by reflexivity.
  split; [exact H|].
  exact (proj1 (insufficient_header_aborts_walk (Sample.plat true)
                  (Sample.MemOf Sample.MadtBytes) 61 0 60 60 Sample.InitialState H)).
Defined.

Lemma StructWalk_step plat mem (Name0 Name1 Name2 : option string)
  (TypeVar LengthVar : string) (StructDb : ACPI_STRUCT_DATABASE)
  (Finish : State -> State) (AcpiTableLength : Z) (fuel : nat)
  (StructPtr Offset : Z) (st : State) :
  TypeVar <> LengthVar ->
  (forall Indent Ptr Offset StructType Length OptArg0 OptArg1 st,
      ItemPtrs (snd (ParseAcpiStruct plat mem Indent Ptr StructDb Offset StructType
                                     Length OptArg0 OptArg1 st)) !! LengthVar
      = ItemPtrs st !! LengthVar) ->
  0 <= Offset ->
  Offset + 2 <= AcpiTableLength ->
  AcpiTableLength <= 2 ^ 32 - 256 ->
  ReadUint8 mem (StructPtr + 1) <> 0 ->
  Offset + ReadUint8 mem (StructPtr + 1) <= AcpiTableLength ->
  let HeaderParser :=
    [ AcpiParser.mkParser Name0 1 0 None None (Some TypeVar) None None;
      AcpiParser.mkParser Name1 1 1 None None (Some LengthVar) None None;
      AcpiParser.mkParser Name2 2 2 None None None None None ] in
  let Seen := snd (ParseAcpi plat mem false 0 None StructPtr
                             (AcpiTableLength - Offset) HeaderParser st) in
  StructWalk plat mem HeaderParser TypeVar LengthVar StructDb Finish AcpiTableLength
             (S fuel) StructPtr Offset st
  = StructWalk plat mem HeaderParser TypeVar LengthVar StructDb Finish AcpiTableLength
      fuel (StructPtr + ReadUint8 mem (StructPtr + 1))
      (Offset + ReadUint8 mem (StructPtr + 1))
      (snd (ParseAcpiStruct plat mem 2 StructPtr StructDb Offset
              (ReadUint8 mem StructPtr) (ReadUint8 mem (StructPtr + 1))
              None None Seen)).
Proof.
  intros Hne Hkeep HOffset Hroom HTable Hnz Hfit HeaderParser Seen.
  subst Seen HeaderParser. cbn [StructWalk].
  destruct (Z.ltb_spec Offset AcpiTableLength); [|lia].
  rewrite (wrap32_small (AcpiTableLength - Offset)) by (unfold uint32; lia).
  match goal with |- context [ParseAcpi ?p ?m ?t ?i ?n ?ptr ?l ?a ?s] =>
    destruct (StructHeader_lookahead p m Name0 Name1 Name2 TypeVar LengthVar ptr l s)
      as (HI & _); [lia|];
    destruct (ParseAcpi p m t i n ptr l a s) as [Parsed st1] end.
  cbn [snd] in *.
  assert (HT : ItemPtrs st1 !! TypeVar = Some StructPtr)
    by (rewrite HI, lookup_insert_ne, lookup_insert_eq by congruence; reflexivity).
  assert (HLen : ItemPtrs st1 !! LengthVar = Some (StructPtr + 1))
    by (rewrite HI, lookup_insert_eq; reflexivity).
  rewrite HT, HLen.
  pose proof (byte_val_range (mem (StructPtr + 1))) as HL.
  fold (ReadUint8 mem (StructPtr + 1)) in HL.
  rewrite !(wrap32_small (Offset + ReadUint8 mem (StructPtr + 1)))
    by (unfold uint32; lia).
  destruct (Z.eqb_spec (ReadUint8 mem (StructPtr + 1)) 0) as [|_]; [contradiction|].
  destruct (Z.ltb_spec AcpiTableLength (Offset + ReadUint8 mem (StructPtr + 1)));
    [lia|].
  cbn [orb].
  match goal with |- context [ParseAcpiStruct ?p ?m ?i ?ptr ?db ?o ?ty ?l ?a0 ?a1 ?s] =>
    pose proof (Hkeep i ptr o ty l a0 a1 s) as HK;
    destruct (ParseAcpiStruct p m i ptr db o ty l a0 a1 s) as [Ok st2] end.
  cbn [snd] in *. rewrite HK, HLen.
  rewrite (wrap32_small (Offset + ReadUint8 mem (StructPtr + 1)))
    by (unfold uint32; lia).
  reflexivity.
Qed.

(** X14. One turn of the loops of [ParseAcpiMadt] and [ParseAcpiPptt]
    on a structure whose length byte is valid (nonzero, not past the end
    of the table): the structure is handed to [ParseAcpiStruct] with the
    offset, the type byte and the length byte, and the walk goes on right
    after it, at [Offset + Length]. This does not depend on the type
    being known or implemented (the result of [ParseAcpiStruct] is not
    looked at), and decoding the structure cannot disturb the length
    that is read again through the static pointer, not even in the
    processor hierarchy node, which parses with descriptors of its own. *)
Theorem walk_continues_after_dispatch plat mem (AcpiTableLength : Z) (fuel : nat)
  (StructPtr Offset : Z) (st : State) :
  0 <= Offset ->
  Offset + 2 <= AcpiTableLength ->
  AcpiTableLength <= 2 ^ 32 - 256 ->
  ReadUint8 mem (StructPtr + 1) <> 0 ->
  Offset + ReadUint8 mem (StructPtr + 1) <= AcpiTableLength ->
  let StructType := ReadUint8 mem StructPtr in
  let StructLength := ReadUint8 mem (StructPtr + 1) in
  let MadtWalk := StructWalk plat mem MadtInterruptControllerHeaderParser
                    "MadtInterruptControllerType" "MadtInterruptControllerLength"
                    (MadtDatabase plat mem) (MadtFinish plat mem) AcpiTableLength in
  let PpttWalk := StructWalk plat mem ProcessorTopologyStructureHeaderParser
                    "ProcessorTopologyStructureType" "ProcessorTopologyStructureLength"
                    (PpttDatabase plat mem) (PpttFinish plat mem) AcpiTableLength in
  MadtWalk (S fuel) StructPtr Offset st
  = MadtWalk fuel (StructPtr + StructLength) (Offset + StructLength)
      (snd (ParseAcpiStruct plat mem 2 StructPtr (MadtDatabase plat mem) Offset
              StructType StructLength None None
              (snd (ParseAcpi plat mem false 0 None StructPtr
                              (AcpiTableLength - Offset)
                              MadtInterruptControllerHeaderParser st))))
  /\ PpttWalk (S fuel) StructPtr Offset st
     = PpttWalk fuel (StructPtr + StructLength) (Offset + StructLength)
         (snd (ParseAcpiStruct plat mem 2 StructPtr (PpttDatabase plat mem) Offset
                 StructType StructLength None None
                 (snd (ParseAcpi plat mem false 0 None StructPtr
                                 (AcpiTableLength - Offset)
                                 ProcessorTopologyStructureHeaderParser st)))).
Proof.
  intros HOffset Hroom HTable Hnz Hfit. split.
  - apply (StructWalk_step plat mem None (Some "Length"%string)
             (Some "Reserved"%string)); auto; try discriminate.
    intros. apply MadtDatabase_keeps_ItemPtr.
  - apply (StructWalk_step plat mem (Some "Type"%string) (Some "Length"%string)
             (Some "Reserved"%string)); auto; try discriminate.
    intros. apply PpttDatabase_keeps_ItemPtr. discriminate.
Qed.

Lemma walk_continues_after_dispatch_witness :
  ReadUint8 (Sample.MemOf Sample.MadtBytes) (44 + 1) <> 0
  /\ StructWalk (Sample.plat true) (Sample.MemOf Sample.MadtBytes)
       MadtInterruptControllerHeaderParser
       "MadtInterruptControllerType" "MadtInterruptControllerLength"
       (MadtDatabase (Sample.plat true) (Sample.MemOf Sample.MadtBytes))
       (MadtFinish (Sample.plat true) (Sample.MemOf Sample.MadtBytes)) 64 2 44 44
       Sample.InitialState
     = StructWalk (Sample.plat true) (Sample.MemOf Sample.MadtBytes)
         MadtInterruptControllerHeaderParser
         "MadtInterruptControllerType" "MadtInterruptControllerLength"
         (MadtDatabase (Sample.plat true) (Sample.MemOf Sample.MadtBytes))
         (MadtFinish (Sample.plat true) (Sample.MemOf Sample.MadtBytes)) 64 1
         (44 + ReadUint8 (Sample.MemOf Sample.MadtBytes) (44 + 1))
         (44 + ReadUint8 (Sample.MemOf Sample.MadtBytes) (44 + 1))
         (snd (ParseAcpiStruct (Sample.plat true) (Sample.MemOf Sample.MadtBytes) 2 44
                 (MadtDatabase (Sample.plat true) (Sample.MemOf Sample.MadtBytes)) 44
                 (ReadUint8 (Sample.MemOf Sample.MadtBytes) 44)
                 (ReadUint8 (Sample.MemOf Sample.MadtBytes) (44 + 1)) None None
                 (snd (ParseAcpi (Sample.plat true) (Sample.MemOf Sample.MadtBytes)
                         false 0 None 44 (64 - 44)
                         MadtInterruptControllerHeaderParser Sample.InitialState)))).
Proof.
  assert (Hnz : ReadUint8 (Sample.MemOf Sample.MadtBytes) (44 + 1) <> 0)
    by (vm_compute; discriminate).
  split; [exact Hnz|].
  exact (proj1 (walk_continues_after_dispatch (Sample.plat true)
                  (Sample.MemOf Sample.MadtBytes) 64 1 44 44 Sample.InitialState
                  ltac:(lia) ltac:(lia) ltac:(by_computation) Hnz
                  ltac:(vm_compute; discriminate))).
Defined.

(** ** The table parsers return: on a concrete table *)

Lemma ParseAcpiMadt_returns_witness :
  64 <= 2 ^ 32 - 256
  /\ exists st',
       ParseAcpiMadt (Sample.plat true) (Sample.MemOf Sample.MadtBytes)
                     (Sample.AcpiHeader (Sample.MemOf Sample.MadtBytes)) true 0 64 5
                     Sample.InitialState = Returned st'.
Proof.
  assert (H : 64 <= 2 ^ 32 - 256) by (vm_compute; discriminate).
  split; [exact H|].
  exact (ParseAcpiMadt_returns (Sample.plat true) (Sample.MemOf Sample.MadtBytes)
           (Sample.AcpiHeader (Sample.MemOf Sample.MadtBytes)) true 0 64 5
           Sample.InitialState H).
Defined.

Lemma ParseAcpiPptt_returns_witness :
  60 <= 2 ^ 32 - 256
  /\ exists st',
       ParseAcpiPptt (Sample.plat true) (Sample.MemOf Sample.CacheBytes)
                     (Sample.AcpiHeader (Sample.MemOf Sample.CacheBytes)) true 0 60 2
                     Sample.InitialState = Returned st'.
Proof.
  assert (H : 60 <= 2 ^ 32 - 256) by (vm_compute; discriminate).
  split; [exact H|].
  exact (ParseAcpiPptt_returns (Sample.plat true) (Sample.MemOf Sample.CacheBytes)
           (Sample.AcpiHeader (Sample.MemOf Sample.CacheBytes)) true 0 60 2
           Sample.InitialState H).
Defined.

(** ** Little-endian reads *)

Lemma lor_shiftl_add (a b k : Z) :
  0 <= k -> 0 <= a < 2 ^ k -> Z.lor a (Z.shiftl b k) = a + b * 2 ^ k.
Proof.
  intros Hk Ha. rewrite <- Z.shiftl_mul_pow2 by assumption.
  rewrite <- Z.add_lor_land.
  assert (Hland : Z.land a (Z.shiftl b k) = 0).
  { apply Z.bits_inj'. intros n Hn. rewrite Z.land_spec, Z.bits_0.
    destruct (Z.lt_ge_cases n k).
    - rewrite Z.shiftl_spec_low by assumption. apply andb_false_r.
    - rewrite <- (Z.mod_small a (2 ^ k)) by assumption.
      rewrite Z.mod_pow2_bits_high by lia. reflexivity. }
  rewrite Hland. lia.
Qed.

Lemma ReadUint8_range mem Ptr : 0 <= ReadUint8 mem Ptr < 2 ^ 8.
Proof. unfold ReadUint8. pose proof (byte_val_range (mem Ptr)). lia. Qed.

Lemma ReadUint16_range mem Ptr : 0 <= ReadUint16 mem Ptr < 2 ^ 16.
Proof.
  unfold ReadUint16.
  pose proof (ReadUint8_range mem Ptr). pose proof (ReadUint8_range mem (Ptr + 1)).
  rewrite lor_shiftl_add by lia. lia.
Qed.

Lemma ReadUint32_range mem Ptr : 0 <= ReadUint32 mem Ptr < 2 ^ 32.
Proof.
  unfold ReadUint32.
  pose proof (ReadUint16_range mem Ptr). pose proof (ReadUint16_range mem (Ptr + 2)).
  rewrite lor_shiftl_add by lia. lia.
Qed.

(** ** The processor hierarchy node of the PPTT *)

Lemma ProcessorHierarchyNode_LengthsOk :
  LengthsOk ProcessorHierarchyNodeStructureParser.
Proof.
  unfold LengthsOk, ProcessorHierarchyNodeStructureParser.
  repeat constructor; cbn; lia.
Qed.

Lemma ProcessorHierarchyNode_plain {A : Type} (f : State -> A) :
  Forall (FieldPreserves f) ProcessorHierarchyNodeStructureParser.
Proof. unfold ProcessorHierarchyNodeStructureParser. plain_fields. Qed.

(** A node shorter than its 20 fixed bytes: the pointer to the number of
    private resources is NULL after the fields are parsed. *)
Lemma ProcessorHierarchyNode_short plat mem Trace Indent AsciiName Ptr Length st :
  0 <= Length < 20 ->
  ItemPtrs (snd (ParseAcpi plat mem Trace Indent AsciiName Ptr Length
                           ProcessorHierarchyNodeStructureParser st))
    !! "NumberOfPrivateResources"%string
  = None.
Proof.
  intros HLength. unfold ParseAcpi.
  destruct (ParseAcpiFields_ascending plat mem Trace AsciiName Length
              ProcessorHierarchyNodeStructureParser ProcessorHierarchyNode_LengthsOk
              eq_refl Ptr 0 (ParseAcpiEnter plat Trace Indent AsciiName st)
              ltac:(lia) ltac:(by_computation))
    as (k & Hk & Heq & Hfit & _).
  rewrite Heq. cbn [snd].
  change (ItemPtrs (set_gIndent ?v ?s)) with (ItemPtrs s).
  rewrite ItemPtrs_ClearItemPtrs. apply decide_True.
  do 7 (destruct k as [|k]; [cbn; constructor|]).
  unfold ProcessorHierarchyNodeStructureParser in Hfit. cbn in Hfit.
  rewrite take_nil in Hfit. cbn in Hfit. lia.
Qed.

(** X18. A processor hierarchy node that is shorter than its 20 fixed
    bytes: after the fields that fit are traced,
    [DumpProcessorHierarchyNodeStructure] prints and counts one
    insufficient-length error and reads no private resource. *)
Theorem DumpProcessorHierarchyNodeStructure_short plat mem (Ptr Length : Z)
  (OptArg0 OptArg1 : option Z) (st : State) :
  0 <= Length < 20 ->
  let Name := PrintAcpiStructName "Processor"
                (CountAt PpttDatabaseName
                         (Z.to_nat EFI_ACPI_6_3_PPTT_TYPE_PROCESSOR) st) 80 in
  let Parsed := snd (ParseAcpi plat mem true 2 (Some Name) Ptr Length
                               ProcessorHierarchyNodeStructureParser st) in
  DumpProcessorHierarchyNodeStructure plat mem Ptr Length OptArg0 OptArg1 st
  = PrintEv (EvMessage "ERROR: Insufficient %a Structure length. Length = %d.\n"
                       [Length])
            (IncrementErrorCount Parsed).
Proof.
  intros HLength Name Parsed. unfold DumpProcessorHierarchyNodeStructure.
  fold Name. cbv zeta.
  pose proof (ProcessorHierarchyNode_short plat mem true 2 (Some Name) Ptr Length st
                HLength) as HNone.
  fold Parsed in HNone. subst Parsed.
  destruct (ParseAcpi _ _ _ _ _ _ _ _ _) as [Offset st1]. cbn [snd] in *.
  now rewrite HNone.
Qed.

Lemma DumpProcessorHierarchyNodeStructure_short_witness :
  0 <= 12 < 20
  /\ DumpProcessorHierarchyNodeStructure (Sample.plat true) (Sample.MemOf []) 0 12
       None None Sample.InitialState
     = PrintEv (EvMessage "ERROR: Insufficient %a Structure length. Length = %d.\n"
                          [12])
               (IncrementErrorCount
                  (snd (ParseAcpi (Sample.plat true) (Sample.MemOf []) true 2
                          (Some (PrintAcpiStructName "Processor"
                                   (CountAt PpttDatabaseName
                                      (Z.to_nat EFI_ACPI_6_3_PPTT_TYPE_PROCESSOR)
                                      Sample.InitialState) 80))
                          0 12 ProcessorHierarchyNodeStructureParser
                          Sample.InitialState))).
Proof.
  assert (H : 0 <= 12 < 20) by lia.
  split; [exact H|].
  exact (DumpProcessorHierarchyNodeStructure_short (Sample.plat true) (Sample.MemOf [])
           0 12 None None Sample.InitialState H).
Defined.

Lemma DumpPrivateResources_lines plat mem (Ptr Base : Z) (n : nat) :
  forall (k : nat) (st : State),
    0 <= Base ->
    Base + 4 * Z.of_nat (k + n) < 2 ^ 32 ->
    DumpPrivateResources plat mem n Ptr (Base + 4 * Z.of_nat k) (Z.of_nat k) st
    = fold_left (fun st i => PrivateResourceLine plat mem (Z.of_nat i)
                               (Ptr + Base + 4 * Z.of_nat i) st)
                (seq k n) st.
Proof.
  induction n as [|n IH]; intros k st HBase Hend; cbn [DumpPrivateResources seq fold_left];
    [reflexivity|].
  cbv zeta.
  rewrite (wrap32_small (Base + 4 * Z.of_nat k + 4)) by (unfold uint32; lia).
  rewrite (wrap32_small (Z.of_nat k + 1)) by (unfold uint32; lia).
  replace (Base + 4 * Z.of_nat k + 4) with (Base + 4 * Z.of_nat (S k)) by lia.
  replace (Z.of_nat k + 1) with (Z.of_nat (S k)) by lia.
  rewrite IH by lia. unfold PrivateResourceLine at 2, PrivateResourceName.
  replace (Ptr + (Base + 4 * Z.of_nat k)) with (Ptr + Base + 4 * Z.of_nat k) by lia.
  reflexivity.
Qed.

(** X19. A processor hierarchy node of at least 20 bytes, on a build
    with a 64-bit [UINTN]. If the private resources the node declares do
    not fit in its length, one error is printed and counted and none is
    read. Otherwise the function prints exactly the declared number of
    resources, resource [i] being the 32-bit value at offset [20 + 4 i]
    of the node, and every one of these reads lies inside the node. *)
Theorem DumpProcessorHierarchyNodeStructure_resources plat mem (Ptr Length : Z)
  (OptArg0 OptArg1 : option Z) (st : State) :
  UINTN_BITS plat = 64 ->
  20 <= Length < 2 ^ 32 ->
  let Count := ReadUint32 mem (Ptr + 16) in
  let Name := PrintAcpiStructName "Processor"
                (CountAt PpttDatabaseName
                         (Z.to_nat EFI_ACPI_6_3_PPTT_TYPE_PROCESSOR) st) 80 in
  let Parsed := snd (ParseAcpi plat mem true 2 (Some Name) Ptr Length
                               ProcessorHierarchyNodeStructureParser st) in
  DumpProcessorHierarchyNodeStructure plat mem Ptr Length OptArg0 OptArg1 st
  = (if Length <? 20 + 4 * Count
     then PrintEv (EvMessage
            "ERROR: Invalid Number of Private Resources. PrivateResourceCount = %d. RemainingBufferLength = %d. Parsing of this structure aborted.\n"
            [Count; Length - 20]) (IncrementErrorCount Parsed)
     else fold_left (fun st i => PrivateResourceLine plat mem (Z.of_nat i)
                                   (Ptr + 20 + 4 * Z.of_nat i) st)
                    (seq 0 (Z.to_nat Count)) Parsed)
  /\ (20 + 4 * Count <= Length ->
      forall i, (i < Z.to_nat Count)%nat ->
        Ptr <= Ptr + 20 + 4 * Z.of_nat i
        /\ Ptr + 20 + 4 * Z.of_nat i + 4 <= Ptr + Length).
Proof.
  intros H64 HLength Count Name Parsed.
  pose proof (ReadUint32_range mem (Ptr + 16)) as HCount. fold Count in HCount.
  split; [|intros; lia].
  unfold DumpProcessorHierarchyNodeStructure. fold Name. cbv zeta.
  assert (HParsed : ParseAcpi plat mem true 2 (Some Name) Ptr Length
                              ProcessorHierarchyNodeStructureParser st
                    = (20, Parsed)).
  { subst Parsed. unfold ParseAcpi.
    rewrite ParseAcpiFields_fit
      by (auto using ProcessorHierarchyNode_LengthsOk; cbn; lia).
    reflexivity. }
  assert (HItem : ItemPtrs Parsed !! "NumberOfPrivateResources"%string
                  = Some (Ptr + 16)).
  { subst Parsed. unfold ParseAcpi.
    rewrite ParseAcpiFields_fit
      by (auto using ProcessorHierarchyNode_LengthsOk; cbn; lia).
    cbn [snd]. change (ItemPtrs (set_gIndent ?v ?s)) with (ItemPtrs s).
    rewrite (DecodeFields_captures plat mem true (Some Name)
               ProcessorHierarchyNodeStructureParser
               (ProcessorHierarchyNode_plain ItemPtrs)
               ltac:(apply (bool_decide_unpack _); vm_compute; reflexivity)
               6%nat _ "NumberOfPrivateResources"%string Ptr 0 _ eq_refl eq_refl).
    reflexivity. }
  rewrite HParsed, HItem. fold Count.
  unfold wrapN. rewrite H64.
  rewrite (Z.mod_small (Count * 4)) by lia.
  rewrite (Z.mod_small (20 + Count * 4)) by lia.
  replace (20 + Count * 4) with (20 + 4 * Count) by lia.
  destruct (Z.ltb_spec Length (20 + 4 * Count)) as [Hbad|Hok].
  - rewrite (wrap32_small (Length - 20)) by (unfold uint32; lia). reflexivity.
  - pose proof (DumpPrivateResources_lines plat mem Ptr 20 (Z.to_nat Count) 0 Parsed
                  ltac:(lia) ltac:(lia)) as H.
    cbn [Z.of_nat] in H. rewrite Z.mul_0_r, Z.add_0_r in H. exact H.
Qed.

Lemma DumpProcessorHierarchyNodeStructure_resources_witness :
  UINTN_BITS (Sample.plat true) = 64
  /\ DumpProcessorHierarchyNodeStructure (Sample.plat true) (Sample.MemOf Cases.NodeBytes)
       0 28 None None Sample.InitialState
     = fold_left (fun st i => PrivateResourceLine (Sample.plat true)
                                (Sample.MemOf Cases.NodeBytes) (Z.of_nat i)
                                (0 + 20 + 4 * Z.of_nat i) st)
                 (seq 0 2)
                 (snd (ParseAcpi (Sample.plat true) (Sample.MemOf Cases.NodeBytes) true 2
                         (Some (PrintAcpiStructName "Processor"
                                  (CountAt PpttDatabaseName
                                     (Z.to_nat EFI_ACPI_6_3_PPTT_TYPE_PROCESSOR)
                                     Sample.InitialState) 80))
                         0 28 ProcessorHierarchyNodeStructureParser
                         Sample.InitialState)).
Proof.
  split; [reflexivity|].
  exact (proj1 (DumpProcessorHierarchyNodeStructure_resources (Sample.plat true)
                  (Sample.MemOf Cases.NodeBytes) 0 28 None None Sample.InitialState
                  eq_refl ltac:(by_computation))).
Defined.

(** ** The indent across a whole table *)

Lemma ValidateCountStep_gIndent plat StructDb (Indices : list nat) : forall acc,
  gIndent (snd (fold_left (ValidateCountStep plat StructDb) Indices acc))
  = gIndent (snd acc).
Proof.
  induction Indices as [|Index Indices IH]; intros [AllValid st]; cbn [fold_left];
    [reflexivity|].
  rewrite IH. unfold ValidateCountStep.
  destruct (StructDb.Entries StructDb !! Index); [|reflexivity].
  destruct (IsAcpiStructTypeValid plat (Z.of_nat Index) StructDb); [reflexivity|].
  destruct (0 <? GetCount StructDb Index st); reflexivity.
Qed.

Lemma ValidateAcpiStructCounts_IndentDepth plat StructDb st :
  IndentDepth (snd (ValidateAcpiStructCounts plat StructDb st)) = IndentDepth st.
Proof.
  unfold IndentDepth, ValidateAcpiStructCounts. now rewrite ValidateCountStep_gIndent.
Qed.

Lemma MadtFinish_IndentDepth plat mem st :
  IndentDepth (MadtFinish plat mem st) = IndentDepth st.
Proof.
  unfold MadtFinish. destruct (GetConsistencyChecking plat); [|reflexivity].
  pose proof (ValidateAcpiStructCounts_IndentDepth plat (MadtDatabase plat mem) st) as H.
  destruct (ValidateAcpiStructCounts plat (MadtDatabase plat mem) st) as [Ok st1].
  cbn [snd] in H. destruct (1 <? _); exact H.
Qed.

Lemma PpttFinish_IndentDepth plat mem st :
  IndentDepth (PpttFinish plat mem st) = IndentDepth st.
Proof.
  unfold PpttFinish. destruct (GetConsistencyChecking plat); [|reflexivity].
  apply ValidateAcpiStructCounts_IndentDepth.
Qed.

Lemma StructWalk_IndentDepth plat mem HeaderParser TypeVar LengthVar StructDb Finish
  AcpiTableLength :
  Forall (FieldPreserves IndentDepth) HeaderParser ->
  Forall (fun Entry => HandlerPreserves IndentDepth (StructInfo.Handler Entry))
         (StructDb.Entries StructDb) ->
  (forall st, IndentDepth (Finish st) = IndentDepth st) ->
  forall (fuel : nat) (StructPtr Offset : Z) (st st' : State),
    StructWalk plat mem HeaderParser TypeVar LengthVar StructDb Finish AcpiTableLength
               fuel StructPtr Offset st = Returned st' ->
    IndentDepth st' = IndentDepth st.
Proof.
  intros HHeader HDb HFinish.
  induction fuel as [|fuel IH]; intros StructPtr Offset st st'; cbn [StructWalk];
    destruct (Offset <? AcpiTableLength); try discriminate;
    try (intros [= <-]; apply HFinish).
  match goal with |- context [ParseAcpi ?p ?m ?t ?i ?n ?ptr ?l ?a ?s] =>
    pose proof (ParseAcpi_preserves_IndentDepth p m t i n ptr l a s HHeader) as H1;
    destruct (ParseAcpi p m t i n ptr l a s) as [Parsed st1] end.
  cbn [snd] in H1.
  destruct (ItemPtrs st1 !! TypeVar) as [TypePtr|];
    [|intros [= <-]; exact H1].
  destruct (ItemPtrs st1 !! LengthVar) as [LengthPtr|];
    [|intros [= <-]; exact H1].
  destruct (_ || _); [intros [= <-]; exact H1|].
  match goal with |- context [ParseAcpiStruct ?p ?m ?i ?ptr ?db ?o ?ty ?l ?a0 ?a1 ?s] =>
    pose proof (ParseAcpiStruct_preserves_IndentDepth p m i ptr db o ty l a0 a1 s HDb)
      as H2;
    destruct (ParseAcpiStruct p m i ptr db o ty l a0 a1 s) as [Ok st2] end.
  cbn [snd] in H2.
  destruct (ItemPtrs st2 !! LengthVar); [|discriminate].
  intros Hwalk. rewrite (IH _ _ _ _ Hwalk). congruence.
Qed.

Lemma ResetAcpiStructCounts_IndentDepth StructDb st :
  IndentDepth (ResetAcpiStructCounts StructDb st) = IndentDepth st.
Proof.
  unfold IndentDepth, ResetAcpiStructCounts.
  now rewrite (proj2 (proj2 (proj2 (proj2 (ResetCounts_frame StructDb _ st))))).
Qed.

(** X17. A whole run of [ParseAcpiMadt] or [ParseAcpiPptt] on a table of
    at most [2^32 - 256] bytes returns, and returns with the indent it
    was called with, on every path: the normal end, the two error
    returns inside the loop, and with [Trace] FALSE. The descriptors of
    the table header are assumed to preserve the indent, as those of the
    structures are proved to. *)
Theorem table_parsers_restore_indent plat mem PARSE_ACPI_HEADER (Trace : bool)
  (Ptr AcpiTableLength AcpiTableRevision : Z) (st : State) :
  AcpiTableLength <= 2 ^ 32 - 256 ->
  (forall Info, Forall (FieldPreserves IndentDepth) (PARSE_ACPI_HEADER Info)) ->
  (exists st',
     ParseAcpiMadt plat mem PARSE_ACPI_HEADER Trace Ptr AcpiTableLength
                   AcpiTableRevision st = Returned st'
     /\ IndentDepth st' = IndentDepth st)
  /\ (exists st',
     ParseAcpiPptt plat mem PARSE_ACPI_HEADER Trace Ptr AcpiTableLength
                   AcpiTableRevision st = Returned st'
     /\ IndentDepth st' = IndentDepth st).
Proof.
  intros HTable HHeader. split.
  - unfold ParseAcpiMadt. destruct Trace; [|eexists; split; reflexivity]. cbn [negb].
    match goal with |- context [ParseAcpi ?p ?m ?t ?i ?n ?ptr ?l ?a ?s] =>
      pose proof (ParseAcpi_offset_range p m t i n ptr l a s) as HO;
      assert (H1 : IndentDepth (snd (ParseAcpi p m t i n ptr l a s)) = IndentDepth st);
      [|destruct (ParseAcpi p m t i n ptr l a s) as [Offset st1]] end.
    { rewrite ParseAcpi_preserves_IndentDepth.
      - apply ResetAcpiStructCounts_IndentDepth.
      - unfold MadtParser. apply Forall_app. split; [apply HHeader|plain_fields]. }
    cbn [fst snd] in *. unfold uint32 in HO.
    destruct (StructWalk_returns plat mem None (Some "Length"%string)
                (Some "Reserved"%string) "MadtInterruptControllerType"
                "MadtInterruptControllerLength" (MadtDatabase plat mem)
                (MadtFinish plat mem) AcpiTableLength ltac:(discriminate) HTable
                ltac:(intros; apply MadtDatabase_keeps_ItemPtr)
                (Z.to_nat AcpiTableLength) (Ptr + Offset) Offset st1
                ltac:(lia) ltac:(lia)) as [st' Hwalk].
    exists st'. split; [exact Hwalk|]. rewrite <- H1.
    eapply StructWalk_IndentDepth; [| | |exact Hwalk].
    + unfold MadtInterruptControllerHeaderParser. plain_fields.
    + apply MadtDatabase_preserves_IndentDepth.
    + apply MadtFinish_IndentDepth.
  - unfold ParseAcpiPptt. destruct Trace; [|eexists; split; reflexivity]. cbn [negb].
    match goal with |- context [ParseAcpi ?p ?m ?t ?i ?n ?ptr ?l ?a ?s] =>
      pose proof (ParseAcpi_offset_range p m t i n ptr l a s) as HO;
      assert (H1 : IndentDepth (snd (ParseAcpi p m t i n ptr l a s)) = IndentDepth st);
      [|destruct (ParseAcpi p m t i n ptr l a s) as [Offset st1]] end.
    { rewrite ParseAcpi_preserves_IndentDepth.
      - apply ResetAcpiStructCounts_IndentDepth.
      - apply HHeader. }
    cbn [fst snd] in *. unfold uint32 in HO.
    destruct (StructWalk_returns plat mem (Some "Type"%string) (Some "Length"%string)
                (Some "Reserved"%string) "ProcessorTopologyStructureType"
                "ProcessorTopologyStructureLength" (PpttDatabase plat mem)
                (PpttFinish plat mem) AcpiTableLength ltac:(discriminate) HTable
                ltac:(intros; apply PpttDatabase_keeps_ItemPtr; discriminate)
                (Z.to_nat AcpiTableLength) (Ptr + Offset) Offset st1
                ltac:(lia) ltac:(lia)) as [st' Hwalk].
    exists st'. split; [exact Hwalk|]. rewrite <- H1.
    eapply StructWalk_IndentDepth; [| | |exact Hwalk].
    + unfold ProcessorTopologyStructureHeaderParser. plain_fields.
    + apply PpttDatabase_preserves_IndentDepth.
    + apply PpttFinish_IndentDepth.
Qed.

Lemma AcpiHeader_preserves_IndentDepth mem Info :
  Forall (FieldPreserves IndentDepth) (Sample.AcpiHeader mem Info).
Proof.
  unfold Sample.AcpiHeader.
  repeat (apply List.Forall_cons;
          [ first [ apply FieldPreserves_plain; reflexivity
                  | split; cbn; intros ? ? ? ? H; try discriminate;
                    injection H as <-; reflexivity ] | ]).
  apply List.Forall_nil.
Qed.

Lemma table_parsers_restore_indent_witness :
  64 <= 2 ^ 32 - 256
  /\ exists st',
       ParseAcpiMadt (Sample.plat true) (Sample.MemOf Sample.MadtBytes)
                     (Sample.AcpiHeader (Sample.MemOf Sample.MadtBytes)) true 0 64 5
                     Sample.InitialState = Returned st'
       /\ IndentDepth st' = IndentDepth Sample.InitialState.
Proof.
  assert (H : 64 <= 2 ^ 32 - 256) by (vm_compute; discriminate).
  split; [exact H|].
  exact (proj1 (table_parsers_restore_indent (Sample.plat true)
                  (Sample.MemOf Sample.MadtBytes)
                  (Sample.AcpiHeader (Sample.MemOf Sample.MadtBytes)) true 0 64 5
                  Sample.InitialState H
                  (AcpiHeader_preserves_IndentDepth (Sample.MemOf Sample.MadtBytes)))).
Defined.

(** ** The cache line size *)

Lemma land_pred_pow2 (x : Z) :
  0 < x -> (Z.land x (x - 1) = 0 <-> exists k, 0 <= k /\ x = 2 ^ k).
Proof.
  intros Hx. split.
  - intros Hland.
    destruct (Z.log2_spec x Hx) as [Hlow Hhigh].
    pose proof (Z.log2_nonneg x) as Hk.
    exists (Z.log2 x). split; [exact Hk|].
    destruct (Z.eq_dec x (2 ^ Z.log2 x)) as [|Hne]; [assumption|exfalso].
    assert (Hlog : Z.log2 (x - 1) = Z.log2 x).
    { apply Z.log2_unique; [exact Hk|]. lia. }
    assert (Hbit : Z.testbit (Z.land x (x - 1)) (Z.log2 x) = true).
    { rewrite Z.land_spec, Z.bit_log2 by lia.
      rewrite <- Hlog, Z.bit_log2 by lia. reflexivity. }
    rewrite Hland, Z.bits_0 in Hbit. discriminate.
  - intros (k & Hk & ->).
    replace (2 ^ k - 1) with (Z.ones k) by (rewrite Z.ones_equiv; lia).
    rewrite Z.land_ones by assumption. apply Z.mod_same. lia.
Qed.

Lemma PrintEv_changes e st st' : ConOut st' = ConOut st -> PrintEv e st' <> st.
Proof.
  intros HO Heq. apply (f_equal (fun s => length (ConOut s))) in Heq.
  rewrite ConOut_PrintEv, length_app, HO in Heq. cbn in Heq. lia.
Qed.

(** X20. On an ARM build, [ValidateCacheLineSize] accepts a line size
    (leaves the state as it is) exactly when the 16-bit value lies
    between the two limits and is a power of two; in every other case it
    counts exactly one error. The lower limit is positive. *)
Theorem ValidateCacheLineSize_accepts plat mem (Ptr : Z) (Context : option Z)
  (st : State) :
  MDE_CPU_ARM_OR_AARCH64 plat = true ->
  0 < PPTT_ARM_CACHE_LINE_SIZE_MIN plat ->
  let LineSize := ReadUint16 mem Ptr in
  let st' := ValidateCacheLineSize plat mem Ptr Context st in
  (st' = st
   <-> (PPTT_ARM_CACHE_LINE_SIZE_MIN plat <= LineSize <= PPTT_ARM_CACHE_LINE_SIZE_MAX plat
        /\ exists k, 0 <= k /\ LineSize = 2 ^ k))
  /\ (st' <> st ->
      mTableErrorCount st' = wrap32 (mTableErrorCount st + 1)
      /\ length (ConOut st') = S (length (ConOut st))).
Proof.
  intros HArm HMin LineSize st'. subst st'. unfold ValidateCacheLineSize.
  rewrite HArm. fold LineSize. cbv zeta.
  destruct (Z.ltb_spec LineSize (PPTT_ARM_CACHE_LINE_SIZE_MIN plat)) as [Hlow|Hlow];
    cbn [orb].
  { split.
    - split; [intros H; exfalso; revert H; now apply PrintEv_changes | lia].
    - intros _. cbn. rewrite length_app. cbn. split; [reflexivity|lia]. }
  destruct (Z.ltb_spec (PPTT_ARM_CACHE_LINE_SIZE_MAX plat) LineSize) as [Hhigh|Hhigh].
  { split.
    - split; [intros H; exfalso; revert H; now apply PrintEv_changes | lia].
    - intros _. cbn. rewrite length_app. cbn. split; [reflexivity|lia]. }
  pose proof (land_pred_pow2 LineSize ltac:(lia)) as Hpow.
  destruct (Z.eqb_spec (Z.land LineSize (LineSize - 1)) 0) as [Hz|Hnz]; cbn [negb].
  - split; [|intros H; now contradiction H].
    split; [intros _; split; [lia|now apply Hpow] | reflexivity].
  - split.
    + split; [intros H; exfalso; revert H; now apply PrintEv_changes|].
      intros [_ Hk]. apply Hpow in Hk. contradiction.
    + intros _. cbn. rewrite length_app. cbn. split; [reflexivity|lia].
Qed.

Lemma ValidateCacheLineSize_accepts_witness :
  MDE_CPU_ARM_OR_AARCH64 (Sample.plat true) = true
  /\ (ValidateCacheLineSize (Sample.plat true) (Sample.MemOf Sample.CacheBytes) 22 None
        Sample.InitialState = Sample.InitialState
      <-> (PPTT_ARM_CACHE_LINE_SIZE_MIN (Sample.plat true)
           <= ReadUint16 (Sample.MemOf Sample.CacheBytes) 22
           <= PPTT_ARM_CACHE_LINE_SIZE_MAX (Sample.plat true)
           /\ exists k, 0 <= k /\ ReadUint16 (Sample.MemOf Sample.CacheBytes) 22 = 2 ^ k)).
Proof.
  split; [reflexivity|].
  exact (proj1 (ValidateCacheLineSize_accepts (Sample.plat true)
                  (Sample.MemOf Sample.CacheBytes) 22 None Sample.InitialState
                  eq_refl ltac:(cbn; lia))).
Defined.

(** ** The raw dump *)

Lemma land_15 (i : nat) : Z.land (Z.of_nat i) 15 = Z.of_nat (i mod 16).
Proof.
  change 15 with (Z.ones 4). rewrite Z.land_ones by lia.
  now rewrite Nat2Z.inj_mod.
Qed.

Lemma LineFill_le_16 (i : nat) : (LineFill i <= 16)%nat.
Proof.
  destruct i as [|j]; cbn [LineFill]; [lia|].
  pose proof (Nat.mod_upper_bound j 16). lia.
Qed.

Lemma LineFill_le (i : nat) : (LineFill i <= i)%nat.
Proof.
  destruct i as [|j]; cbn [LineFill]; [lia|].
  pose proof (Nat.Div0.mod_le j 16). lia.
Qed.

Lemma LineFill_start (i : nat) : (i mod 16 = 0)%nat -> LineFill (S i) = 1%nat.
Proof. intros H. cbn [LineFill]. now rewrite H. Qed.

Lemma LineFill_inside (i : nat) :
  (i mod 16 <> 0)%nat -> (LineFill i < 16)%nat /\ LineFill (S i) = S (LineFill i).
Proof.
  intros H. destruct i as [|j]; [now contradiction H|]. cbn [LineFill].
  pose proof (Nat.mod_upper_bound j 16 ltac:(lia)) as Hj.
  pose proof (Nat.mod_upper_bound (S j) 16 ltac:(lia)) as HSj.
  assert (Hmod : (S j mod 16 = S (j mod 16))%nat \/ (S j mod 16 = 0)%nat).
  { pose proof (Nat.div_mod_eq j 16). pose proof (Nat.div_mod_eq (S j) 16). lia. }
  destruct Hmod as [Hmod|Hmod]; [|contradiction]. lia.
Qed.

Lemma Printable_nonzero c : Printable c <> 0.
Proof. unfold Printable. destruct ((32 <=? c) && (c <? 127)) eqn:E; lia. Qed.

Lemma AsciiString_terminated (Chars Rest : list Z) :
  Forall (fun c => c <> 0) Chars -> AsciiString (Chars ++ 0 :: Rest) = Chars.
Proof.
  induction 1 as [|c Chars Hc _ IH]; cbn; [reflexivity|].
  destruct (Z.eqb_spec c 0); [contradiction|]. now rewrite IH.
Qed.

Lemma RawText_nonzero mem Ptr First Count :
  Forall (fun c => c <> 0) (RawText mem Ptr First Count).
Proof.
  unfold RawText. apply Forall_map, List.Forall_forall. intros i _.
  apply Printable_nonzero.
Qed.

Lemma RawText_S mem Ptr First Count :
  RawText mem Ptr First (S Count)
  = RawText mem Ptr First Count
    ++ [Printable (ReadUint8 mem (Ptr + Z.of_nat (First + Count)))].
Proof. unfold RawText. now rewrite seq_S, map_app. Qed.

(** Ending the string at [Index] prints the text kept so far. *)
Lemma StoreChar_terminate mem Ptr (Buffer : list Z) (First Index : nat) :
  (Index < length Buffer)%nat ->
  take Index Buffer = RawText mem Ptr First Index ->
  exists Buffer',
    StoreChar Buffer Index 0 = Some Buffer'
    /\ length Buffer' = length Buffer
    /\ AsciiString Buffer' = RawText mem Ptr First Index.
Proof.
  intros Hlt Htake. unfold StoreChar. rewrite decide_True by assumption.
  eexists. split; [reflexivity|]. split; [apply length_insert|].
  rewrite insert_take_drop by assumption. rewrite Htake.
  apply AsciiString_terminated, RawText_nonzero.
Qed.

(** Keeping one more character. *)
Lemma StoreChar_append mem Ptr (Buffer : list Z) (First Index : nat) :
  (Index < length Buffer)%nat ->
  take Index Buffer = RawText mem Ptr First Index ->
  exists Buffer',
    StoreChar Buffer Index (Printable (ReadUint8 mem (Ptr + Z.of_nat (First + Index))))
    = Some Buffer'
    /\ length Buffer' = length Buffer
    /\ take (S Index) Buffer' = RawText mem Ptr First (S Index).
Proof.
  intros Hlt Htake. unfold StoreChar. rewrite decide_True by assumption.
  eexists. split; [reflexivity|]. split; [apply length_insert|].
  rewrite (take_S_r _ _ _ (list_lookup_insert_eq _ _ _ Hlt)).
  rewrite take_insert_ge by lia. now rewrite Htake, RawText_S.
Qed.

Lemma PrintEv_fold_app (Events1 Events2 : list Event) st :
  fold_left (fun st e => PrintEv e st) (Events1 ++ Events2) st
  = fold_left (fun st e => PrintEv e st) Events2
      (fold_left (fun st e => PrintEv e st) Events1 st).
Proof. apply fold_left_app. Qed.

Lemma DumpRawLoop_step mem Ptr (i : nat) (Buffer : list Z) (st : State) :
  length Buffer = 17%nat ->
  take (LineFill i) Buffer = RawText mem Ptr (i - LineFill i) (LineFill i) ->
  exists Buffer',
    length Buffer' = 17%nat
    /\ take (LineFill (S i)) Buffer'
       = RawText mem Ptr (S i - LineFill (S i)) (LineFill (S i))
    /\ forall n,
         DumpRawLoop mem (S n) (Ptr + Z.of_nat i) (Z.of_nat i) Buffer (LineFill i) st
         = DumpRawLoop mem n (Ptr + Z.of_nat (S i)) (Z.of_nat (S i)) Buffer'
             (LineFill (S i))
             (fold_left (fun st e => PrintEv e st) (RawByte mem Ptr i) st).
Proof.
  intros HLen HText.
  pose proof (LineFill_le_16 i) as H16. pose proof (LineFill_le i) as Hle.
  assert (HPtr : Ptr + Z.of_nat i + 1 = Ptr + Z.of_nat (S i)) by lia.
  assert (HCount : Z.of_nat i + 1 = Z.of_nat (S i)) by lia.
  unfold RawByte. cbn [DumpRawLoop]. rewrite HPtr, HCount, !land_15.
  destruct (Z.eqb_spec (Z.of_nat (i mod 16)) 0) as [Hstart|Hinside].
  - (* a new line *)
    destruct (StoreChar_terminate mem Ptr Buffer (i - LineFill i) (LineFill i)
                ltac:(lia) HText) as (Buffer1 & HS1 & HL1 & HA1).
    destruct (StoreChar_append mem Ptr Buffer1 i 0 ltac:(lia) eq_refl)
      as (Buffer2 & HS2 & HL2 & HA2).
    rewrite Nat.add_0_r in HS2.
    assert (HFill : LineFill (S i) = 1%nat) by (apply LineFill_start; lia).
    exists Buffer2. split; [congruence|]. split.
    + rewrite HFill, HA2. f_equal; lia.
    + intros n. rewrite HS1. cbn [mbind option_bind]. rewrite HA1, HS2, HFill.
      reflexivity.
  - (* inside a line *)
    destruct (LineFill_inside i ltac:(lia)) as [Hlt HFill].
    destruct (StoreChar_append mem Ptr Buffer (i - LineFill i) (LineFill i)
                ltac:(lia) HText) as (Buffer2 & HS2 & HL2 & HA2).
    replace (i - LineFill i + LineFill i)%nat with i in HS2 by lia.
    exists Buffer2. split; [congruence|]. split.
    + rewrite HFill, HA2. f_equal; lia.
    + intros n. destruct (Z.land (Z.of_nat i) 7 =? 0);
        cbn [mbind option_bind]; rewrite HS2, HFill; reflexivity.
Qed.

Lemma DumpRawLoop_output mem Ptr (n : nat) : forall (i : nat) (Buffer : list Z) st,
  length Buffer = 17%nat ->
  take (LineFill i) Buffer = RawText mem Ptr (i - LineFill i) (LineFill i) ->
  exists Buffer',
    DumpRawLoop mem n (Ptr + Z.of_nat i) (Z.of_nat i) Buffer (LineFill i) st
    = Some (Buffer', LineFill (i + n),
            fold_left (fun st e => PrintEv e st)
                      (flat_map (RawByte mem Ptr) (seq i n)) st)
    /\ length Buffer' = 17%nat
    /\ take (LineFill (i + n)) Buffer'
       = RawText mem Ptr (i + n - LineFill (i + n)) (LineFill (i + n)).
Proof.
  induction n as [|n IH]; intros i Buffer st HLen HText.
  - exists Buffer. rewrite Nat.add_0_r. cbn; auto.
  - destruct (DumpRawLoop_step mem Ptr i Buffer st HLen HText)
      as (Buffer1 & HL1 & HT1 & Hstep).
    rewrite Hstep. cbn [seq flat_map]. rewrite PrintEv_fold_app.
    replace (i + S n)%nat with (S i + n)%nat by lia.
    now apply IH.
Qed.

Lemma PrintEv_iter e (n : nat) st :
  Nat.iter n (PrintEv e) st = fold_left (fun st e => PrintEv e st) (repeat e n) st.
Proof.
  revert st. induction n as [|n IH]; intros st; [reflexivity|].
  rewrite Nat.iter_succ_r. cbn [repeat fold_left]. apply IH.
Qed.

Lemma DumpRaw_RawDump mem (Garbage : nat -> Z) (Ptr Length : Z) (st : State) :
  DumpRaw mem Garbage Ptr Length st
  = Some (fold_left (fun st e => PrintEv e st) (RawDump mem Ptr Length) st).
Proof.
  unfold DumpRaw, RawDump. cbv zeta.
  destruct (DumpRawLoop_output mem Ptr (Z.to_nat Length) 0 (StackArray Garbage 17)
              (PrintEv (EvMessage "Length   : %d\n" [Length])
                 (PrintEv (EvMessage "Address  : 0x%p\n" [Ptr]) st))
              ltac:(reflexivity) ltac:(reflexivity))
    as (Buffer & Hloop & HLen & HText).
  change (Z.of_nat 0) with 0 in Hloop. change (LineFill 0) with 0%nat in Hloop.
  change (0 + Z.to_nat Length)%nat with (Z.to_nat Length) in Hloop, HText.
  rewrite Z.add_0_r in Hloop.
  rewrite Hloop. cbn [mbind option_bind].
  pose proof (LineFill_le_16 (Z.to_nat Length)) as H16.
  destruct (StoreChar_terminate mem Ptr Buffer
              (Z.to_nat Length - LineFill (Z.to_nat Length))
              (LineFill (Z.to_nat Length)) ltac:(lia) HText)
    as (Buffer' & HS & _ & HA).
  rewrite HS. cbn [mbind option_bind]. rewrite HA. f_equal.
  rewrite !PrintEv_fold_app. cbn [fold_left]. f_equal.
  unfold RawPadding. cbv zeta.
  destruct (Z.land Length 15 =? 0); cbn [negb]; [reflexivity|].
  rewrite PrintEv_iter. f_equal. f_equal.
  destruct (Z.land Length 15 <=? 8); f_equal; lia.
Qed.

(** X22. [DumpRaw] never writes outside its 17-character line buffer, for
    whatever length, and what it prints does not depend on what the
    buffer held on entry: after the address and the length, each byte in
    hexadecimal, 16 to a line with a separator after the eighth; every
    line starts with the text of the previous line (its bytes, a dot for
    each that is not printable) and the offset; the last line is padded
    and followed by its own text. Nothing is counted. *)
Theorem DumpRaw_output mem (Garbage : nat -> Z) (Ptr Length : Z) (st : State) :
  exists st',
    DumpRaw mem Garbage Ptr Length st = Some st'
    /\ ConOut st' = ConOut st ++ RawDump mem Ptr Length
    /\ mTableErrorCount st' = mTableErrorCount st
    /\ StructCounts st' = StructCounts st.
Proof.
  eexists. split; [apply DumpRaw_RawDump|].
  apply (PrintEv_fold (RawDump mem Ptr Length) st).
Qed.

(** ** The columns of the raw dump *)

Lemma land_7 (i : nat) : Z.land (Z.of_nat i) 7 = Z.of_nat (i mod 8).
Proof.
  change 7 with (Z.ones 3). rewrite Z.land_ones by lia.
  now rewrite Nat2Z.inj_mod.
Qed.

Lemma LineFill_mod (i : nat) : (i mod 16 <> 0)%nat -> LineFill i = (i mod 16)%nat.
Proof.
  intros H. destruct i as [|j]; [now contradiction H|]. cbn [LineFill].
  pose proof (Nat.mod_upper_bound j 16 ltac:(lia)).
  pose proof (Nat.mod_upper_bound (S j) 16 ltac:(lia)).
  pose proof (Nat.div_mod_eq j 16). pose proof (Nat.div_mod_eq (S j) 16). lia.
Qed.

Lemma LineFill_full (i : nat) :
  (1 <= i)%nat -> (i mod 16 = 0)%nat -> LineFill i = 16%nat.
Proof.
  intros Hpos H. destruct i as [|j]; [lia|]. cbn [LineFill].
  pose proof (Nat.mod_upper_bound j 16 ltac:(lia)).
  pose proof (Nat.div_mod_eq j 16). pose proof (Nat.div_mod_eq (S j) 16). lia.
Qed.

Lemma mod_8_16 (i : nat) :
  (i mod 8 = 0)%nat <-> (i mod 16 = 0)%nat \/ (i mod 16 = 8)%nat.
Proof.
  pose proof (Nat.mod_upper_bound i 16 ltac:(lia)).
  pose proof (Nat.mod_upper_bound i 8 ltac:(lia)).
  pose proof (Nat.div_mod_eq i 16). pose proof (Nat.div_mod_eq i 8). lia.
Qed.

Lemma RawByte_start mem Ptr (i : nat) :
  (i mod 16 = 0)%nat ->
  RawByte mem Ptr i
  = [EvMessage "  %a\n%08X : "
               (RawText mem Ptr (i - LineFill i) (LineFill i) ++ [Z.of_nat i]);
     EvMessage "%02X " [ReadUint8 mem (Ptr + Z.of_nat i)]].
Proof. intros H. unfold RawByte. rewrite land_15, H. reflexivity. Qed.

Lemma RawByte_half mem Ptr (i : nat) :
  (i mod 16 = 8)%nat ->
  RawByte mem Ptr i
  = [EvMessage "- " []; EvMessage "%02X " [ReadUint8 mem (Ptr + Z.of_nat i)]].
Proof.
  intros H. unfold RawByte. rewrite land_15, land_7, H.
  rewrite (proj2 (mod_8_16 i)) by (now right). reflexivity.
Qed.

Lemma RawByte_other mem Ptr (i : nat) :
  (i mod 16 <> 0)%nat -> (i mod 16 <> 8)%nat ->
  RawByte mem Ptr i = [EvMessage "%02X " [ReadUint8 mem (Ptr + Z.of_nat i)]].
Proof.
  intros H0 H8. unfold RawByte. rewrite land_15, land_7.
  destruct (Z.eqb_spec (Z.of_nat (i mod 16)) 0); [lia|].
  destruct (Z.eqb_spec (Z.of_nat (i mod 8)) 0) as [Hhalf|]; [|reflexivity].
  pose proof (mod_8_16 i). lia.
Qed.

(** The bytes from position [i] on close one line of 50 characters at
    every multiple of 16. *)
Lemma HexColumns_bytes mem Ptr (Tail : list Event) (n : nat) : forall i,
  (1 <= i)%nat ->
  HexColumns (flat_map (RawByte mem Ptr) (seq i n) ++ Tail) (HexFill i)
  = repeat 50%nat (length (List.filter (fun j => j mod 16 =? 0)%nat (seq i n)))
    ++ HexColumns Tail (HexFill (i + n)).
Proof.
  induction n as [|n IH]; intros i Hpos.
  - cbn [seq flat_map List.filter length repeat app]. now rewrite Nat.add_0_r.
  - cbn [seq flat_map List.filter].
    replace (i + S n)%nat with (S i + n)%nat by lia.
    destruct (Nat.eqb_spec (i mod 16) 0) as [Hstart|Hinside].
    + rewrite RawByte_start by assumption. cbn [app HexColumns length repeat].
      change (EndsLine (EvMessage "  %a\n%08X : " ?v)) with true. cbv iota.
      change (EndsLine (EvMessage "%02X " ?v)) with false. cbv iota.
      change (HexWidth (EvMessage "%02X " ?v)) with 3%nat.
      assert (H50 : HexFill i = 50%nat)
        by (unfold HexFill; rewrite LineFill_full by assumption; reflexivity).
      assert (H3 : (0 + 3)%nat = HexFill (S i))
        by (unfold HexFill; rewrite LineFill_start by assumption; reflexivity).
      rewrite H50, H3, IH by lia. reflexivity.
    + destruct (LineFill_inside i Hinside) as [_ HS].
      pose proof (LineFill_mod i Hinside) as HL.
      pose proof (Nat.mod_upper_bound i 16 ltac:(lia)) as Hr.
      destruct (Nat.eq_dec (i mod 16)%nat 8%nat) as [H8|H8].
      * rewrite RawByte_half by assumption. cbn [app HexColumns].
        change (EndsLine (EvMessage "- " ?v)) with false. cbv iota.
        change (EndsLine (EvMessage "%02X " ?v)) with false. cbv iota.
        change (HexWidth (EvMessage "- " ?v)) with 2%nat.
        change (HexWidth (EvMessage "%02X " ?v)) with 3%nat.
        assert (HW : (HexFill i + 2 + 3)%nat = HexFill (S i))
          by (unfold HexFill; rewrite HS, HL, H8; reflexivity).
        rewrite HW, IH by lia. reflexivity.
      * rewrite RawByte_other by assumption. cbn [app HexColumns].
        change (EndsLine (EvMessage "%02X " ?v)) with false. cbv iota.
        change (HexWidth (EvMessage "%02X " ?v)) with 3%nat.
        assert (HW : (HexFill i + 3)%nat = HexFill (S i)).
        { unfold HexFill. rewrite HS, HL.
          destruct (Nat.ltb_spec 8 (i mod 16)); destruct (Nat.ltb_spec 8 (S (i mod 16)));
            lia. }
        rewrite HW, IH by lia. reflexivity.
Qed.

Lemma HexColumns_padding (p : nat) (Tail : list Event) : forall w,
  HexColumns (repeat (EvMessage " " []) p ++ Tail) w = HexColumns Tail (w + p).
Proof.
  induction p as [|p IH]; intros w; cbn [repeat app HexColumns].
  - now rewrite Nat.add_0_r.
  - change (EndsLine (EvMessage " " [])) with false. cbv iota.
    change (HexWidth (EvMessage " " [])) with 1%nat. rewrite IH. f_equal. lia.
Qed.

Lemma multiples_of_16 (m : nat) :
  length (List.filter (fun j => j mod 16 =? 0)%nat (seq 1 m)) = (m / 16)%nat.
Proof.
  induction m as [|m IH]; [reflexivity|].
  rewrite seq_S, List.filter_app, length_app, IH. cbn [List.filter Nat.add].
  pose proof (Nat.mod_upper_bound m 16 ltac:(lia)).
  pose proof (Nat.mod_upper_bound (S m) 16 ltac:(lia)).
  pose proof (Nat.div_mod_eq m 16). pose proof (Nat.div_mod_eq (S m) 16).
  destruct (Nat.eqb_spec (S m mod 16) 0); cbn [length]; lia.
Qed.

(** The padding brings the last line to the width of a full one. *)
Lemma HexFill_padded (n : nat) :
  (1 <= n)%nat -> (HexFill n + RawPadding (Z.of_nat n) = 50)%nat.
Proof.
  intros Hpos. unfold RawPadding, HexFill. cbv zeta. rewrite land_15.
  pose proof (Nat.mod_upper_bound n 16 ltac:(lia)) as Hr.
  destruct (Z.eqb_spec (Z.of_nat (n mod 16)) 0) as [Hz|Hnz].
  - rewrite LineFill_full by lia. reflexivity.
  - rewrite LineFill_mod by lia.
    destruct (Nat.ltb_spec 8 (n mod 16));
      destruct (Z.leb_spec (Z.of_nat (n mod 16)) 8); lia.
Qed.

(** X23. Every line of the dump has a hexadecimal column of the same
    width, 50 characters, the last line included whatever the number of
    bytes on it, so that the text columns are aligned; and the dump has
    one line for every 16 bytes or part of it. *)
Theorem DumpRaw_aligned mem (Garbage : nat -> Z) (Ptr Length : Z) (st : State) :
  0 <= Length ->
  exists st',
    DumpRaw mem Garbage Ptr Length st = Some st'
    /\ HexColumns (drop (length (ConOut st) + 3) (ConOut st')) 0
       = repeat 50%nat (Z.to_nat ((Length + 15) / 16)).
Proof.
  intros HLength. eexists. split; [apply DumpRaw_RawDump|].
  rewrite (proj1 (PrintEv_fold (RawDump mem Ptr Length) st)).
  rewrite drop_app_add. unfold RawDump. cbv zeta.
  destruct (Z.to_nat Length) as [|n] eqn:E.
  - assert (Length = 0) by lia. subst Length. reflexivity.
  - assert (HL : Length = Z.of_nat (S n)) by lia.
    cbn [seq flat_map].
    change (RawByte mem Ptr 0)
      with ([EvMessage "  %a\n%08X : " (RawText mem Ptr 0 0 ++ [0]);
             EvMessage "%02X " [ReadUint8 mem (Ptr + 0)]]).
    cbn [app drop HexColumns].
    change (EndsLine (EvMessage "%02X " ?v)) with false. cbv iota.
    change (HexWidth (EvMessage "%02X " ?v)) with 3%nat.
    change (0 + 3)%nat with (HexFill 1).
    rewrite HexColumns_bytes by lia. rewrite HexColumns_padding.
    cbn [HexColumns]. change (EndsLine (EvMessage "  %a\n\n" ?v)) with true.
    cbv iota. cbn [Nat.add]. rewrite HL, HexFill_padded by lia.
    rewrite multiples_of_16.
    replace (Z.to_nat ((Z.of_nat (S n) + 15) / 16)) with (n / 16 + 1)%nat.
    + now rewrite repeat_app.
    + pose proof (Nat.mod_upper_bound n 16 ltac:(lia)).
      pose proof (Nat.div_mod_eq n 16).
      assert (Hdiv : (Z.of_nat (S n) + 15) / 16 = Z.of_nat (n / 16) + 1).
      { symmetry. apply (Z.div_unique _ 16 _ (Z.of_nat (n mod 16))); lia. }
      rewrite Hdiv. lia.
Qed.

Lemma DumpRaw_aligned_witness :
  0 <= 18
  /\ exists st',
       DumpRaw (Sample.MemOf Sample.CacheBytes) (fun _ => 7) 0 18 Sample.InitialState
       = Some st'
       /\ HexColumns (drop (length (ConOut Sample.InitialState) + 3) (ConOut st')) 0
          = repeat 50%nat (Z.to_nat ((18 + 15) / 16)).
Proof.
  assert (H : 0 <= 18) by lia.
  split; [exact H|].
  exact (DumpRaw_aligned (Sample.MemOf Sample.CacheBytes) (fun _ => 7) 0 18
           Sample.InitialState H).
Defined.

(** ** The values that are printed *)

Lemma ReadUint16_LittleEndian mem Ptr : ReadUint16 mem Ptr = LittleEndian mem 2 Ptr.
Proof.
  unfold ReadUint16. pose proof (ReadUint8_range mem Ptr).
  rewrite lor_shiftl_add by lia. cbn [LittleEndian]. lia.
Qed.

Lemma ReadUint32_LittleEndian mem Ptr : ReadUint32 mem Ptr = LittleEndian mem 4 Ptr.
Proof.
  unfold ReadUint32. pose proof (ReadUint16_range mem Ptr).
  rewrite lor_shiftl_add by lia. rewrite !ReadUint16_LittleEndian.
  cbn [LittleEndian]. replace (Ptr + 1 + 1) with (Ptr + 2) by lia. lia.
Qed.

Lemma DumpUint64_value mem Ptr :
  Z.lor (Z.shiftl (ReadUint32 mem (Ptr + 4)) 32) (ReadUint32 mem Ptr)
  = LittleEndian mem 8 Ptr.
Proof.
  pose proof (ReadUint32_range mem Ptr).
  rewrite Z.lor_comm, lor_shiftl_add by lia.
  rewrite !ReadUint32_LittleEndian. cbn [LittleEndian].
  replace (Ptr + 4) with (Ptr + 1 + 1 + 1 + 1) by lia. lia.
Qed.

Lemma DumpUint64_LittleEndian mem Format Ptr st :
  DumpUint64 mem Format Ptr st = PrintEv (EvValue Format [LittleEndian mem 8 Ptr]) st.
Proof. unfold DumpUint64. cbv zeta. now rewrite DumpUint64_value. Qed.

(** X24. [DumpUint64] reads the field as two 32-bit halves, the high one
    first, and prints the value of the eight bytes as one little-endian
    number, which is below [2^64]. *)
Theorem DumpUint64_little_endian mem (Format : string) (Ptr : Z) (st : State) :
  DumpUint64 mem Format Ptr st
  = PrintEv (EvValue Format [LittleEndian mem 8 Ptr]) st
  /\ 0 <= LittleEndian mem 8 Ptr < 2 ^ 64.
Proof.
  split; [apply DumpUint64_LittleEndian|].
  rewrite <- DumpUint64_value. pose proof (ReadUint32_range mem Ptr).
  pose proof (ReadUint32_range mem (Ptr + 4)).
  rewrite Z.lor_comm, lor_shiftl_add by lia. lia.
Qed.

(** ** The Generic Address Structure *)

(** Tracing a field that has a format string only, at its declared
    offset: the name, the value, a new line. *)
Lemma ParseAcpiField_plain plat mem AsciiName (Field : ACPI_PARSER) (Format : string)
  (Ptr Offset : Z) (st : State) :
  AcpiParser.PrintFormatter Field = None ->
  AcpiParser.Format Field = Some Format ->
  AcpiParser.FieldValidator Field = None ->
  AcpiParser.ItemPtr Field = None ->
  Offset = AcpiParser.Offset Field ->
  ParseAcpiField plat mem true AsciiName Field Ptr Offset st
  = PrintEv EvNewLine
      (DumpByLength mem AsciiName Field Format Ptr
         (PrintFieldName 2 (AcpiParser.NameStr Field) st)).
Proof.
  intros HF HFmt HV HI ->.
  unfold ParseAcpiField, CheckFieldOffset, TraceField, ValidateField, StoreItemPtr.
  rewrite HF, HFmt, HV, HI, Z.eqb_refl, andb_false_r.
  now destruct (GetConsistencyChecking plat).
Qed.

Lemma gIndent_PrintEv e st : gIndent (PrintEv e st) = gIndent st.
Proof. reflexivity. Qed.

Lemma PrintEv_set_gIndent e v st :
  PrintEv e (set_gIndent v st) = set_gIndent v (PrintEv e st).
Proof. reflexivity. Qed.

Lemma set_gIndent_twice v w st : set_gIndent v (set_gIndent w st) = set_gIndent v st.
Proof. reflexivity. Qed.

(** X25. On a buffer of at least 12 bytes [DumpGasStruct] returns 12 and
    prints, after a new line, the five fields of the structure with the
    values at offsets 0, 1, 2, 3 and 4 (the last one 64 bits wide), each
    at the indent of the caller plus [Indent] plus 2. Nothing else
    happens: no error or warning is counted, with consistency checking on
    as well as off, no static pointer is set and the indent is restored. *)
Theorem DumpGasStruct_fields plat mem (Ptr Indent Length : Z) (st : State) :
  12 <= Length < 2 ^ 32 ->
  let r := DumpGasStruct plat mem Ptr Indent Length st in
  let Column := wrap32 (wrap32 (gIndent st + Indent) + 2) in
  fst r = 12
  /\ snd r
     = set_gIndent (IndentDepth st)
         (fold_left (fun st e => PrintEv e st)
            [EvNewLine;
             EvFieldName Column (Some "Address Space ID"%string);
             EvValue "0x%x" [ReadUint8 mem Ptr]; EvNewLine;
             EvFieldName Column (Some "Register Bit Width"%string);
             EvValue "0x%x" [ReadUint8 mem (Ptr + 1)]; EvNewLine;
             EvFieldName Column (Some "Register Bit Offset"%string);
             EvValue "0x%x" [ReadUint8 mem (Ptr + 2)]; EvNewLine;
             EvFieldName Column (Some "Address Size"%string);
             EvValue "0x%x" [ReadUint8 mem (Ptr + 3)]; EvNewLine;
             EvFieldName Column (Some "Address"%string);
             EvValue "0x%lx" [LittleEndian mem 8 (Ptr + 4)]; EvNewLine]
            st).
Proof.
  intros HLength r Column. subst r. unfold DumpGasStruct, ParseAcpi.
  rewrite ParseAcpiFields_fit;
    [|unfold LengthsOk, GasParser; repeat constructor; cbn; lia
     |lia|lia|cbn; lia].
  cbn [fst snd]. split; [reflexivity|].
  unfold GasParser. cbn [DecodeFields].
  repeat (erewrite ParseAcpiField_plain; [|reflexivity..]).
  unfold DumpByLength. cbn [AcpiParser.Length AcpiParser.NameStr Z.eqb Pos.eqb].
  unfold DumpUint8. rewrite DumpUint64_LittleEndian.
  unfold PrintFieldName. rewrite !gIndent_PrintEv.
  change (ParseAcpiEnter plat true Indent None (PrintEv EvNewLine st))
    with (set_gIndent (wrap32 (gIndent st + Indent)) (PrintEv EvNewLine st)).
  change (gIndent (set_gIndent ?v ?s)) with v.
  rewrite !PrintEv_set_gIndent, set_gIndent_twice. fold Column.
  cbn [fold_left].
  replace (Ptr + 1 + 1) with (Ptr + 2) by lia.
  replace (Ptr + 2 + 1) with (Ptr + 3) by lia.
  replace (Ptr + 3 + 1) with (Ptr + 4) by lia.
  f_equal. unfold IndentDepth. rewrite wrap32_sub_l. f_equal. lia.
Qed.

Lemma DumpGasStruct_fields_witness :
  12 <= 12 < 2 ^ 32
  /\ fst (DumpGasStruct (Sample.plat true) (Sample.MemOf Sample.GasBytes) 4 2 12
            Sample.InitialState) = 12.
Proof.
  assert (H : 12 <= 12 < 2 ^ 32) by by_computation.
  split; [exact H|].
  exact (proj1 (DumpGasStruct_fields (Sample.plat true) (Sample.MemOf Sample.GasBytes)
                  4 2 12 Sample.InitialState H)).
Defined.

(** ** The end of [ParseAcpiMadt] *)

(** The code after the loop of [ParseAcpiMadt], for any database and any
    entry of which a single instance is required. *)
Lemma single_instance_check plat (StructDb : ACPI_STRUCT_DATABASE) (Single : nat)
  (Message : Event) (st : State) :
  (forall Index, 0 <= GetCount StructDb Index st) ->
  let Indices := seq 0 (length (StructDb.Entries StructDb)) in
  let Found := length (List.filter (IsRejectedFound plat StructDb st) Indices) in
  let Several := 1 <? GetCount StructDb Single st in
  let st' :=
    (let '(_, st) := ValidateAcpiStructCounts plat StructDb st in
     if 1 <? GetCount StructDb Single st
     then PrintEv Message (IncrementErrorCount st)
     else st) in
  mTableErrorCount st'
  = Nat.iter (Found + if Several then 1 else 0) (fun Count => wrap32 (Count + 1))
             (mTableErrorCount st)
  /\ ConOut st'
     = ConOut st
       ++ EvTableBreakdown :: flat_map (MaskReport plat StructDb st) Indices
       ++ (if Several then [Message] else [])
  /\ StructCounts st' = StructCounts st.
Proof.
  intros Hpos Indices Found Several st'. subst st'.
  destruct (ValidateAcpiStructCounts_masks plat StructDb st Hpos) as (_ & H2 & H3 & H4).
  fold Indices in H2, H3. fold Found in H3.
  destruct (ValidateAcpiStructCounts plat StructDb st) as [Ok st1]. cbn [snd] in *.
  rewrite (GetCount_same_counts StructDb _ st1 st H4). fold Several.
  destruct Several.
  - unfold IncrementErrorCount.
    change (mTableErrorCount (PrintEv ?e (set_mTableErrorCount ?v ?s))) with v.
    change (ConOut (PrintEv ?e (set_mTableErrorCount ?v ?s))) with (ConOut s ++ [e]).
    change (StructCounts (PrintEv ?e (set_mTableErrorCount ?v ?s)))
      with (StructCounts s).
    rewrite H2, H3, H4, Nat.add_1_r.
    split; [reflexivity|]. split; [|reflexivity].
    rewrite <- app_assoc. reflexivity.
  - rewrite H2, H3, H4, Nat.add_0_r, app_nil_r. auto.
Qed.

(** X26. After the loop, with consistency checking on, [ParseAcpiMadt]
    validates the counts and then requires a single GICD. The errors it
    counts are one for each structure type that was found although the
    build does not accept its mask (on an ARM or AArch64 build a mask
    without the ARM and the AARCH64 bit, elsewhere an empty mask), and one
    more if more than one GICD was found; the message about the GICD
    comes last. The counts themselves are left as the walk produced
    them. *)
Theorem MadtFinish_errors plat mem (st : State) :
  GetConsistencyChecking plat = true ->
  (forall Index, 0 <= GetCount (MadtDatabase plat mem) Index st) ->
  let Db := MadtDatabase plat mem in
  let Indices := seq 0 (length (StructDb.Entries Db)) in
  let Found := length (List.filter (IsRejectedFound plat Db st) Indices) in
  let Several := 1 <? GetCount Db (Z.to_nat EFI_ACPI_6_3_GICD) st in
  let st' := MadtFinish plat mem st in
  mTableErrorCount st'
  = Nat.iter (Found + if Several then 1 else 0) (fun Count => wrap32 (Count + 1))
             (mTableErrorCount st)
  /\ ConOut st'
     = ConOut st
       ++ EvTableBreakdown :: flat_map (MaskReport plat Db st) Indices
       ++ (if Several then [EvMessage "ERROR: Only one %a must be present\n" []]
           else [])
  /\ StructCounts st' = StructCounts st.
Proof.
  intros Hcc Hpos. unfold MadtFinish. rewrite Hcc.
  exact (single_instance_check plat (MadtDatabase plat mem)
           (Z.to_nat EFI_ACPI_6_3_GICD)
           (EvMessage "ERROR: Only one %a must be present\n" []) st Hpos).
Qed.

Lemma MadtFound_counts_nonnegative plat mem :
  forall Index, 0 <= GetCount (MadtDatabase plat mem) Index Cases.MadtFound.
Proof.
  apply counts_nonnegative. cbn.
  apply map_Forall_insert_2; [lia|].
  apply map_Forall_insert_2; [lia|].
  apply map_Forall_empty.
Qed.

Lemma MadtFinish_errors_witness :
  let st' := MadtFinish (Sample.plat true) (Sample.MemOf []) Cases.MadtFound in
  GetConsistencyChecking (Sample.plat true) = true
  /\ mTableErrorCount st' = 2
  /\ ConOut st'
     = [EvTableBreakdown; EvArchInvalid "Processor Local APIC" 1;
        EvInstanceCount "GICC" 0; EvInstanceCount "GICD" 2;
        EvInstanceCount "GIC MSI Frame" 0; EvInstanceCount "GICR" 0;
        EvInstanceCount "GIC ITS" 0;
        EvMessage "ERROR: Only one %a must be present\n" []].
Proof.
  cbv zeta. split; [reflexivity|].
  destruct (MadtFinish_errors (Sample.plat true) (Sample.MemOf []) Cases.MadtFound eq_refl
              (MadtFound_counts_nonnegative (Sample.plat true) (Sample.MemOf [])))
    as (H1 & H2 & _).
  split.
  - refine (eq_trans H1 _). vm_compute. reflexivity.
  - refine (eq_trans H2 _). vm_compute. reflexivity.
Defined.

(** ** The cache attributes *)

Lemma reserved_bits_clear (b : byte) :
  (Z.land (byte_val b) 224 =? 0) = (byte_val b <? 32).
Proof. destruct b; reflexivity. Qed.

(** X21. [ValidateCacheAttributes] accepts exactly the attribute bytes
    below 32, those with bits 7:5 clear, and does nothing for them; for
    any other byte it counts one error and calls [Print] once. The byte
    is handed to [Print], but the text of the message has no conversion
    for it, so what is printed does not show the byte. *)
Theorem ValidateCacheAttributes_accepts mem (Ptr : Z) (Context : option Z) (st : State) :
  let Attributes := ReadUint8 mem Ptr in
  ValidateCacheAttributes mem Ptr Context st
  = if Attributes <? 32 then st
    else PrintEv (EvMessage
                    "\nERROR: Attributes bits [7:5] are reserved and must be zero."
                    [Attributes])
                 (IncrementErrorCount st).
Proof.
  unfold ValidateCacheAttributes, ReadUint8. cbv zeta.
  rewrite reserved_bits_clear. now destruct (byte_val (mem Ptr) <? 32).
Qed.

(** ** One wrong declared offset: what is decoded *)

Lemma DecodeFields_app plat mem Trace AsciiName Parser1 Parser2 :
  forall Ptr Offset st,
    DecodeFields plat mem Trace AsciiName (Parser1 ++ Parser2) Ptr Offset st
    = DecodeFields plat mem Trace AsciiName Parser2
        (Ptr + SumLengths Parser1) (Offset + SumLengths Parser1)
        (DecodeFields plat mem Trace AsciiName Parser1 Ptr Offset st).
Proof.
  induction Parser1 as [|Field Parser1 IH]; intros Ptr Offset st;
    cbn [app DecodeFields SumLengths].
  - now rewrite !Z.add_0_r.
  - rewrite IH. f_equal; lia.
Qed.

Lemma ConsistentOffsets_lookup Parser : forall Start k Field,
  ConsistentOffsets Start Parser = true ->
  Parser !! k = Some Field ->
  AcpiParser.Offset Field = Start + SumLengths (take k Parser).
Proof.
  induction Parser as [|Head Parser IH]; intros Start [|k] Field HC Hk;
    try discriminate; cbn [ConsistentOffsets] in HC;
    apply andb_prop in HC as [H1 H2].
  - injection Hk as ->. apply Z.eqb_eq in H1. cbn. lia.
  - cbn in Hk. cbn [take SumLengths]. rewrite (IH _ _ _ H2 Hk). lia.
Qed.

Lemma ItemNames_SetOffset Offset' Field : forall Parser k,
  Parser !! k = Some Field ->
  ItemNames (<[k := SetOffset Offset' Field]> Parser) = ItemNames Parser.
Proof.
  induction Parser as [|Head Parser IH]; intros [|k] Hk; try discriminate.
  - injection Hk as ->. reflexivity.
  - cbn in Hk. change (<[S k := ?x]> (Head :: Parser))
      with (Head :: <[k := x]> Parser).
    rewrite !ItemNames_cons, IH by assumption. reflexivity.
Qed.

Lemma SumLengths_take_SetOffset Offset' Field : forall Parser k j,
  Parser !! k = Some Field ->
  SumLengths (take j (<[k := SetOffset Offset' Field]> Parser))
  = SumLengths (take j Parser).
Proof.
  induction Parser as [|Head Parser IH]; intros [|k] [|j] Hk; try discriminate;
    try reflexivity.
  - injection Hk as ->. reflexivity.
  - cbn in Hk. change (<[S k := ?x]> (Head :: Parser))
      with (Head :: <[k := x]> Parser).
    cbn [take SumLengths]. now rewrite IH.
Qed.

Lemma lookup_SetOffset Offset' Field (Parser : list ACPI_PARSER) (k j : nat) Other :
  Parser !! k = Some Field ->
  Parser !! j = Some Other ->
  exists Other',
    <[k := SetOffset Offset' Field]> Parser !! j = Some Other'
    /\ AcpiParser.ItemPtr Other' = AcpiParser.ItemPtr Other.
Proof.
  intros Hk Hj. destruct (Nat.eq_dec k j) as [->|Hne].
  - exists (SetOffset Offset' Field). split.
    + apply list_lookup_insert_eq. now apply lookup_lt_Some in Hk.
    + cbn. congruence.
  - exists Other. split; [|reflexivity].
    now rewrite list_lookup_insert_ne.
Qed.

(** The error counter over the fields of a list that fits: one error per
    declared offset that is not the running one, when the callbacks
    leave the counter alone. *)
Lemma ErrorCount_DumpByLength mem AsciiName Field Format Ptr st :
  mTableErrorCount (DumpByLength mem AsciiName Field Format Ptr st)
  = mTableErrorCount st.
Proof.
  unfold DumpByLength, DumpUint8, DumpUint16, DumpUint32, DumpUint64.
  repeat match goal with |- context [if ?c then _ else _] => destruct c end;
    reflexivity.
Qed.

Lemma ErrorCount_TraceField plat mem AsciiName Field Ptr st :
  FieldPreserves mTableErrorCount Field ->
  mTableErrorCount (TraceField plat mem AsciiName Field Ptr st) = mTableErrorCount st.
Proof.
  intros [HP HV]. unfold TraceField, PrintFieldName.
  change (mTableErrorCount (PrintEv ?e ?s)) with (mTableErrorCount s).
  destruct (AcpiParser.PrintFormatter Field) as [Formatter|] eqn:E.
  - now rewrite (HP Formatter) by reflexivity.
  - destruct (AcpiParser.Format Field) as [Format|]; [|reflexivity].
    unfold ValidateField.
    destruct (GetConsistencyChecking plat).
    + destruct (AcpiParser.FieldValidator Field) as [Validator|] eqn:EV.
      * rewrite (HV Validator) by reflexivity. now rewrite ErrorCount_DumpByLength.
      * now rewrite ErrorCount_DumpByLength.
    + now rewrite ErrorCount_DumpByLength.
Qed.

Lemma ErrorCount_ParseAcpiField plat mem Trace AsciiName Field Ptr Offset st :
  FieldPreserves mTableErrorCount Field ->
  mTableErrorCount (ParseAcpiField plat mem Trace AsciiName Field Ptr Offset st)
  = if GetConsistencyChecking plat && negb (Offset =? AcpiParser.Offset Field)
    then wrap32 (mTableErrorCount st + 1) else mTableErrorCount st.
Proof.
  intros HF. unfold ParseAcpiField.
  assert (HS : forall s, mTableErrorCount (StoreItemPtr Field Ptr s) = mTableErrorCount s)
    by (intros s; unfold StoreItemPtr; now destruct (AcpiParser.ItemPtr Field)).
  rewrite HS.
  assert (HC : mTableErrorCount (CheckFieldOffset plat AsciiName Field Offset st)
               = if GetConsistencyChecking plat
                    && negb (Offset =? AcpiParser.Offset Field)
                 then wrap32 (mTableErrorCount st + 1) else mTableErrorCount st).
  { unfold CheckFieldOffset.
    now destruct (GetConsistencyChecking plat
                  && negb (Offset =? AcpiParser.Offset Field)). }
  destruct Trace; [rewrite ErrorCount_TraceField by assumption|]; exact HC.
Qed.

Lemma ErrorCount_DecodeFields plat mem Trace AsciiName Parser :
  Forall (FieldPreserves mTableErrorCount) Parser ->
  forall Ptr Offset st,
    mTableErrorCount (DecodeFields plat mem Trace AsciiName Parser Ptr Offset st)
    = Nat.iter (if GetConsistencyChecking plat
                then MismatchedOffsets Offset Parser else 0%nat)
               (fun Count => wrap32 (Count + 1)) (mTableErrorCount st).
Proof.
  induction 1 as [|Field Parser HF _ IH]; intros Ptr Offset st;
    cbn [DecodeFields MismatchedOffsets].
  - now destruct (GetConsistencyChecking plat).
  - rewrite IH, ErrorCount_ParseAcpiField by assumption.
    rewrite (Z.eqb_sym Offset).
    destruct (GetConsistencyChecking plat); [|reflexivity].
    destruct (AcpiParser.Offset Field =? Offset); cbn [andb negb]; [reflexivity|].
    now rewrite Nat.iter_succ_r.
Qed.

Lemma ErrorCount_ParseAcpiEnter plat Trace Indent AsciiName st :
  mTableErrorCount (ParseAcpiEnter plat Trace Indent AsciiName st)
  = mTableErrorCount st.
Proof.
  unfold ParseAcpiEnter. destruct Trace; [|reflexivity].
  destruct AsciiName; [|reflexivity].
  now destruct (GetColourHighlighting plat).
Qed.

(** The loop on a list that fits, split at field [k]. *)
Lemma DecodeFields_split plat mem Trace AsciiName Parser k Field Ptr st :
  Parser !! k = Some Field ->
  DecodeFields plat mem Trace AsciiName Parser Ptr 0 st
  = DecodeReporting plat mem Trace AsciiName Parser k Field
      (CheckFieldOffset plat AsciiName Field) Ptr st.
Proof.
  intros Hk. rewrite <- (take_drop_middle _ _ _ Hk) at 1.
  rewrite DecodeFields_app. cbn [DecodeFields]. unfold DecodeReporting, ParseAcpiField.
  rewrite Z.add_0_l. reflexivity.
Qed.

(** C7. Take a descriptor list with consistent offsets and a buffer that
    holds all its fields, and change the declared offset of descriptor
    [k]. [ParseAcpi] then reports exactly one offset-mismatch error when
    consistency checking is on and none when it is off, and decodes at
    the running offset either way:
    - it returns the sum of all the lengths;
    - its final state is that of the unchanged list with one step put in
      when field [k] is reached, before the field is traced: with
      checking on, one error is counted and one offset mismatch printed,
      naming the running offset and the declared one; with checking off,
      nothing. Field [k] and the fields after it are decoded at the same
      addresses as in the unchanged list;
    - the error counter goes up by one with checking on and stays with
      checking off, when the callbacks of the list do not count errors;
    - every captured pointer is [Ptr] plus the size of the fields before
      it, when the pointer variables are distinct and the callbacks do
      not write them. *)
Theorem ParseAcpi_one_wrong_offset plat mem (Trace : bool) (Indent : Z)
  (AsciiName : option string) (Ptr Length : Z) (Parser : list ACPI_PARSER)
  (k : nat) (Field : ACPI_PARSER) (Offset' : Z) (st : State) :
  LengthsOk Parser ->
  ConsistentOffsets 0 Parser = true ->
  SumLengths Parser <= Length < 2 ^ 32 ->
  Forall (FieldPreserves OffsetMismatches) Parser ->
  Parser !! k = Some Field ->
  Offset' <> AcpiParser.Offset Field ->
  let Parser' := <[k := SetOffset Offset' Field]> Parser in
  let r := ParseAcpi plat mem Trace Indent AsciiName Ptr Length Parser' st in
  let Report := fun (CurrentOffset : Z) (st : State) =>
    if GetConsistencyChecking plat
    then PrintEv (EvOffsetMismatch AsciiName (AcpiParser.NameStr Field)
                                   CurrentOffset Offset')
                 (IncrementErrorCount st)
    else st in
  let Leave := fun st : State => set_gIndent (wrap32 (gIndent st - Indent)) st in
  let Enter := ParseAcpiEnter plat Trace Indent AsciiName st in
  fst r = SumLengths Parser
  /\ OffsetMismatches (snd r)
     = (OffsetMismatches st + if GetConsistencyChecking plat then 1 else 0)%nat
  /\ snd r = Leave (DecodeReporting plat mem Trace AsciiName Parser k Field
                      Report Ptr Enter)
  /\ snd (ParseAcpi plat mem Trace Indent AsciiName Ptr Length Parser st)
     = Leave (DecodeReporting plat mem Trace AsciiName Parser k Field
                (fun _ st => st) Ptr Enter)
  /\ (Forall (FieldPreserves mTableErrorCount) Parser ->
      mTableErrorCount (snd r)
      = if GetConsistencyChecking plat then wrap32 (mTableErrorCount st + 1)
        else mTableErrorCount st)
  /\ (NoDup (ItemNames Parser) ->
      Forall (FieldPreserves ItemPtrs) Parser ->
      forall j Other Item,
        Parser !! j = Some Other ->
        AcpiParser.ItemPtr Other = Some Item ->
        ItemPtrs (snd r) !! Item = Some (Ptr + SumLengths (take j Parser)))
  /\ (GetConsistencyChecking plat = false ->
      r = ParseAcpi plat mem Trace Indent AsciiName Ptr Length Parser st).
Proof.
  intros HL HC Hfit HP Hk Hne Parser' r Report Leave Enter.
  assert (HS : SumLengths Parser' = SumLengths Parser)
    by now apply SumLengths_SetOffset.
  assert (HL' : LengthsOk Parser') by now apply LengthsOk_SetOffset.
  assert (Hk' : Parser' !! k = Some (SetOffset Offset' Field))
    by (apply list_lookup_insert_eq; now apply lookup_lt_Some in Hk).
  assert (HOffset : AcpiParser.Offset Field = SumLengths (take k Parser))
    by (rewrite (ConsistentOffsets_lookup Parser 0 k Field HC Hk); lia).
  assert (Hr : r = (SumLengths Parser,
                    Leave (DecodeFields plat mem Trace AsciiName Parser' Ptr 0 Enter))).
  { subst r. unfold ParseAcpi. fold Enter.
    rewrite ParseAcpiFields_fit by (auto; lia). now rewrite HS. }
  assert (Hwhole : ParseAcpi plat mem Trace Indent AsciiName Ptr Length Parser st
                   = (SumLengths Parser,
                      Leave (DecodeFields plat mem Trace AsciiName Parser Ptr 0 Enter))).
  { unfold ParseAcpi. fold Enter. now rewrite ParseAcpiFields_fit by (auto; lia). }
  destruct (ParseAcpi_fit plat mem Trace Indent AsciiName Ptr Length Parser' st HL')
    as [_ H2]; [lia | now apply FieldPreserves_SetOffset |].
  fold r in H2.
  split; [now rewrite Hr|]. split; [|split; [|split; [|split; [|split]]]].
  - rewrite H2. unfold Parser'.
    rewrite (MismatchedOffsets_SetOffset Offset' Field Parser k 0 HC Hk Hne).
    reflexivity.
  - rewrite Hr. cbn [snd]. f_equal.
    rewrite (DecodeFields_split plat mem Trace AsciiName Parser' k _ Ptr Enter Hk').
    unfold DecodeReporting, Parser'.
    rewrite take_insert_ge, drop_insert_lt by lia.
    replace (CheckFieldOffset plat AsciiName (SetOffset Offset' Field)
               (SumLengths (take k Parser)))
      with (Report (SumLengths (take k Parser))); [reflexivity|].
    unfold CheckFieldOffset, Report. cbn [SetOffset AcpiParser.Offset AcpiParser.NameStr].
    destruct (GetConsistencyChecking plat); [|reflexivity].
    destruct (Z.eqb_spec (SumLengths (take k Parser)) Offset'); [congruence|reflexivity].
  - rewrite Hwhole. cbn [snd]. f_equal.
    rewrite (DecodeFields_split plat mem Trace AsciiName Parser k Field Ptr Enter Hk).
    unfold DecodeReporting, CheckFieldOffset.
    rewrite HOffset, Z.eqb_refl, andb_false_r. reflexivity.
  - intros HE. rewrite Hr. cbn [snd]. unfold Leave.
    change (mTableErrorCount (set_gIndent ?v ?s)) with (mTableErrorCount s).
    rewrite ErrorCount_DecodeFields by now apply FieldPreserves_SetOffset.
    unfold Parser'.
    rewrite (MismatchedOffsets_SetOffset Offset' Field Parser k 0 HC Hk Hne).
    unfold Enter. rewrite ErrorCount_ParseAcpiEnter.
    now destruct (GetConsistencyChecking plat).
  - intros Hdup HI j Other Item Hj HItem. rewrite Hr. cbn [snd]. unfold Leave.
    change (ItemPtrs (set_gIndent ?v ?s)) with (ItemPtrs s).
    destruct (lookup_SetOffset Offset' Field Parser k j Other Hk Hj)
      as (Other' & Hj' & HItem').
    rewrite (DecodeFields_captures plat mem Trace AsciiName Parser'
               (FieldPreserves_SetOffset ItemPtrs Parser k Field Offset' HI Hk)
               ltac:(unfold Parser'; now rewrite ItemNames_SetOffset)
               j Other' Item Ptr 0 Enter Hj' ltac:(congruence)).
    unfold Parser'. now rewrite SumLengths_take_SetOffset.
  - intros Hoff. rewrite Hr, Hwhole. f_equal. f_equal.
    unfold Parser'. now apply DecodeFields_SetOffset.
Qed.

(** With checking on, the two-field lookahead with the offset of the
    length field declared as 5: one error is printed and counted, naming
    the running offset 1 and the declared offset 5, and the length is
    still captured at address 1, inside the buffer. *)
Lemma ParseAcpi_one_wrong_offset_witness :
  let r := ParseAcpi (Sample.plat true) (Sample.MemOf [1; 24]) false 0 None 0 2
             (<[1%nat := SetOffset 5 (AcpiParser.mkParser (Some "Length"%string) 1 1
                                        None None (Some "LengthPtr"%string) None None)]>
                Sample.TypeLength)
             Sample.InitialState in
  LengthsOk Sample.TypeLength
  /\ fst r = 2
  /\ ConOut (snd r) = [EvOffsetMismatch None (Some "Length"%string) 1 5]
  /\ mTableErrorCount (snd r) = 1
  /\ ItemPtrs (snd r) !! "LengthPtr"%string = Some 1
  /\ ItemPtrs (snd r) !! "TypePtr"%string = Some 0.
Proof.
  cbv zeta. split; [exact TypeLength_LengthsOk|].
  destruct (ParseAcpi_one_wrong_offset (Sample.plat true) (Sample.MemOf [1; 24])
              false 0 None 0 2 Sample.TypeLength 1%nat
              (AcpiParser.mkParser (Some "Length"%string) 1 1 None None
                                   (Some "LengthPtr"%string) None None)
              5 Sample.InitialState TypeLength_LengthsOk eq_refl
              ltac:(by_computation) (TypeLength_plain OffsetMismatches)
              eq_refl ltac:(cbn; lia))
    as (H1 & _ & H3 & _ & H5 & H6 & _).
  split; [exact H1|].
  split; [rewrite H3; vm_compute; reflexivity|].
  split; [exact (H5 (TypeLength_plain mTableErrorCount))|].
  split.
  - exact (H6 TypeLength_NoDup (TypeLength_plain ItemPtrs) 1%nat _ _ eq_refl eq_refl).
  - exact (H6 TypeLength_NoDup (TypeLength_plain ItemPtrs) 0%nat _ _ eq_refl eq_refl).
Defined.

(** ** A buffer that ends inside a field *)

(** The running offset never goes back when no sum wraps. *)
Lemma ParseAcpiFields_advances plat mem Trace AsciiName Length Parser :
  LengthsOk Parser ->
  forall Ptr Offset st,
    0 <= Offset ->
    Offset + SumLengths Parser < 2 ^ 32 ->
    Offset <= snd (fst (ParseAcpiFields plat mem Trace AsciiName Length Parser
                                        Ptr Offset st)).
Proof.
  induction 1 as [|Field Parser Hlen HL IH]; intros Ptr Offset st HO Hsum;
    cbn [ParseAcpiFields SumLengths] in *; [cbn; lia|].
  pose proof (SumLengths_nonneg Parser HL) as Hrest.
  rewrite wrap32_small by (unfold uint32; lia).
  destruct (Length <? Offset + AcpiParser.Length Field).
  - apply IH; lia.
  - match goal with |- context [ParseAcpiFields ?p ?m ?t ?n ?l ?a ?ptr ?o ?s] =>
      specialize (IH ptr o s ltac:(lia) ltac:(lia)) end.
    lia.
Qed.

Lemma ItemNames_app Parser1 Parser2 :
  ItemNames (Parser1 ++ Parser2) = ItemNames Parser1 ++ ItemNames Parser2.
Proof. unfold ItemNames. apply omap_app. Qed.

(** X27. A buffer that ends strictly inside field [k]. [ParseAcpi]
    decodes fields [0..k-1] as it does on the whole buffer and resets the
    pointer of field [k]; the loop then goes on with the later fields at
    the offset where field [k] starts. So the value returned lies between
    that offset and [N]; the pointer of field [k] is still NULL at the
    end, when the pointer variables are distinct and the callbacks do
    not write them; and when none of the later fields fits in what is
    left of the buffer at the start of field [k], all their pointers are
    reset and the offset of field [k] is returned. *)
Theorem ParseAcpi_truncated plat mem (Trace : bool) (Indent : Z)
  (AsciiName : option string) (Ptr N : Z) (Parser : list ACPI_PARSER) (k : nat)
  (Field : ACPI_PARSER) (st : State) :
  LengthsOk Parser ->
  SumLengths Parser < 2 ^ 32 ->
  Parser !! k = Some Field ->
  let Start := SumLengths (take k Parser) in
  Start < N < Start + AcpiParser.Length Field ->
  let Leave := fun st : State => set_gIndent (wrap32 (gIndent st - Indent)) st in
  let Before := DecodeFields plat mem Trace AsciiName (take k Parser) Ptr 0
                  (ParseAcpiEnter plat Trace Indent AsciiName st) in
  let Rest := ParseAcpiFields plat mem Trace AsciiName N (drop (S k) Parser)
                (Ptr + Start) Start (ClearItemPtr Field Before) in
  let r := ParseAcpi plat mem Trace Indent AsciiName Ptr N Parser st in
  ParseAcpi plat mem Trace Indent AsciiName Ptr (SumLengths Parser) (take k Parser) st
  = (Start, Leave Before)
  /\ r = (snd (fst Rest), Leave (snd Rest))
  /\ Start <= fst r <= N
  /\ (NoDup (ItemNames Parser) ->
      Forall (FieldPreserves ItemPtrs) Parser ->
      forall Item, AcpiParser.ItemPtr Field = Some Item ->
        ItemPtrs (snd r) !! Item = None)
  /\ (Forall (fun Later => N < Start + AcpiParser.Length Later) (drop (S k) Parser) ->
      r = (Start, Leave (ClearItemPtrs (drop k Parser) Before))).
Proof.
  intros HL HSum Hk Start HN Leave Before Rest r.
  assert (Hsplit : Parser = take k Parser ++ Field :: drop (S k) Parser)
    by (symmetry; now apply take_drop_middle).
  assert (HLt : LengthsOk (take k Parser)) by now apply Forall_take.
  assert (HLd : LengthsOk (drop (S k) Parser)) by now apply Forall_drop.
  assert (HField : 0 <= AcpiParser.Length Field)
    by exact (Forall_lookup_1 _ _ _ _ HL Hk).
  pose proof (SumLengths_nonneg _ HLt) as HStart. fold Start in HStart.
  pose proof (SumLengths_nonneg _ HLd) as HRest.
  assert (HTotal : SumLengths Parser
                   = Start + (AcpiParser.Length Field + SumLengths (drop (S k) Parser))).
  { rewrite Hsplit at 1. rewrite SumLengths_app. reflexivity. }
  assert (Hloop : ParseAcpiFields plat mem Trace AsciiName N Parser Ptr 0
                    (ParseAcpiEnter plat Trace Indent AsciiName st)
                  = Rest).
  { rewrite Hsplit at 1. rewrite ParseAcpiFields_app.
    rewrite ParseAcpiFields_fit by (auto; fold Start; lia). fold Start Before.
    cbn [ParseAcpiFields]. rewrite Z.add_0_l.
    rewrite wrap32_small by (unfold uint32; lia).
    destruct (Z.ltb_spec N (Start + AcpiParser.Length Field)); [reflexivity|lia]. }
  assert (Hr : r = (snd (fst Rest), Leave (snd Rest))).
  { subst r. unfold ParseAcpi. rewrite Hloop.
    now destruct Rest as [[Ptr' Offset'] st']. }
  split; [|split; [exact Hr|split; [|split]]].
  - unfold ParseAcpi. rewrite ParseAcpiFields_fit by (auto; fold Start; lia).
    fold Start Before. now rewrite Z.add_0_l.
  - rewrite Hr. cbn [fst]. subst Rest. split.
    + apply ParseAcpiFields_advances; [assumption|lia|lia].
    + apply (ParseAcpiFields_consumed plat mem Trace AsciiName N (drop (S k) Parser)
               HLd (Ptr + Start) Start (ClearItemPtr Field Before)). lia.
  - intros Hdup HP Item HItem. rewrite Hr. cbn [snd]. unfold Leave.
    change (ItemPtrs (set_gIndent ?v ?s)) with (ItemPtrs s). subst Rest.
    rewrite Hsplit, ItemNames_app in Hdup. apply NoDup_app in Hdup as (_ & _ & Hdup).
    apply NoDup_ItemNames_cons in Hdup as [_ Hfresh].
    rewrite ParseAcpiFields_keeps_ItemPtr by (auto using Forall_drop).
    now apply ItemPtrs_ClearItemPtr.
  - intros HLater. rewrite Hr. subst Rest. rewrite ParseAcpiFields_none_fit.
    + cbn [fst snd]. now rewrite (drop_S _ _ _ Hk).
    + pose proof (Length_le_SumLengths _ HLd) as Hle.
      rewrite List.Forall_forall in *. intros Later HIn.
      specialize (HLater Later HIn). specialize (Hle Later HIn).
      pose proof (proj1 (List.Forall_forall _ _) HLd Later HIn) as Hpos.
      cbn in Hle, Hpos. rewrite wrap32_small by (unfold uint32; lia). exact HLater.
Qed.

Lemma ShortTail_LengthsOk : LengthsOk Sample.ShortTail.
Proof. unfold LengthsOk, Sample.ShortTail. repeat constructor; cbn; lia. Qed.

Lemma ShortTail_NoDup : NoDup (ItemNames Sample.ShortTail).
Proof. apply (bool_decide_unpack _). reflexivity. Qed.

(** Lengths 1, 4, 1 and a buffer of 3 bytes, which ends inside the second
    field: its pointer is reset, and between 1 and 3 bytes are reported. *)
Lemma ParseAcpi_truncated_witness :
  let r := ParseAcpi (Sample.plat true) (Sample.MemOf [1; 2; 3]) false 0 None 0 3
                     Sample.ShortTail Sample.InitialState in
  LengthsOk Sample.ShortTail
  /\ 1 <= fst r <= 3
  /\ ItemPtrs (snd r) !! "BPtr"%string = None.
Proof.
  cbv zeta. split; [exact ShortTail_LengthsOk|].
  destruct (ParseAcpi_truncated (Sample.plat true) (Sample.MemOf [1; 2; 3]) false 0
              None 0 3 Sample.ShortTail 1%nat
              (AcpiParser.mkParser (Some "B"%string) 4 1 (Some "0x%x"%string) None
                                   (Some "BPtr"%string) None None)
              Sample.InitialState ShortTail_LengthsOk ltac:(by_computation) eq_refl
              ltac:(by_computation))
    as (_ & _ & H3 & H4 & _).
  split; [exact H3|].
  refine (H4 ShortTail_NoDup _ "BPtr"%string eq_refl).
  unfold Sample.ShortTail. plain_fields.
Defined.
